(** * linkedin-scraper: query encoder and normalized graph resolver

    A shallow embedding of the Go package [linkedinscraper]
    (masa-finance/linkedin-scraper) and the proofs of the properties its
    specification states about it.

    Go values are modelled as follows.
    - [string]: a Go string is a sequence of bytes; it is a Rocq [string]
      (a list of [ascii] bytes).
    - [int]: a Go [int] is a [Z].  The program never does arithmetic on
      the integers it carries (paging offsets, dates, counts), it only
      copies and prints them.
    - a slice is a [list]; appending is [++]; a nil slice and an empty
      slice are both [[]] (the program only ranges over slices and takes
      their length).
    - a pointer that the program only tests against nil and dereferences
      is an [option].
    - [(T, error)] results are [error + T]: [inl e] is the error return,
      [inr x] the value return. *)

From Stdlib Require Import ZArith Lia Bool List Ascii String DecimalString FunInd.
From stdpp Require Import base option list gmap strings.

#[local] Set Warnings "-register-all".

Local Open Scope Z_scope.

(** * The parts of the Go standard library the package calls *)

(** ** package strings *)

(** [strings.HasPrefix(s, prefix)]. *)
Fixpoint strings_HasPrefix (s prefix : string) : bool :=
  match prefix, s with
  | EmptyString, _ => true
  | String p prefix', String c s' =>
      if Ascii.eqb c p then strings_HasPrefix s' prefix' else false
  | String _ _, EmptyString => false
  end.

(** [strings.Contains(s, substr)]: [substr] occurs in [s] at some byte
    offset. *)
Fixpoint strings_Contains (s substr : string) : bool :=
  strings_HasPrefix s substr ||
  match s with
  | EmptyString => false
  | String _ s' => strings_Contains s' substr
  end.

(** [strings.Join(elems, sep)]. *)
Fixpoint strings_Join (elems : list string) (sep : string) : string :=
  match elems with
  | [] => ""
  | [e] => e
  | e :: rest => e +:+ sep +:+ strings_Join rest sep
  end.

(** [strings.ReplaceAll(s, "\x00", "")], the only way the package calls
    [ReplaceAll]: every NUL byte is dropped. *)
Fixpoint strings_ReplaceAll_NUL (s : string) : string :=
  match s with
  | EmptyString => EmptyString
  | String c s' =>
      if Ascii.eqb c zero then strings_ReplaceAll_NUL s'
      else String c (strings_ReplaceAll_NUL s')
  end.

(** White space as [unicode.IsSpace] defines it, read off the UTF-8
    bytes of a string: U+0009..U+000D and U+0020 are one byte; U+0085 and
    U+00A0 are [C2 85] and [C2 A0]; U+1680 is [E1 9A 80]; U+2000..U+200A,
    U+2028, U+2029 and U+202F are [E2 80 xx]; U+205F is [E2 81 9F];
    U+3000 is [E3 80 80].  A byte sequence that is not valid UTF-8
    decodes to U+FFFD, which is not white space. *)
Definition asciiSpace (c : ascii) : bool :=
  let n := N_of_ascii c in
  ((9 <=? n) && (n <=? 13) || (n =? 32))%N.

Definition isSpace2 (c1 c2 : ascii) : bool :=
  let a := N_of_ascii c1 in
  let b := N_of_ascii c2 in
  ((a =? 194) && ((b =? 133) || (b =? 160)))%N.

Definition isSpace3 (c1 c2 c3 : ascii) : bool :=
  let a := N_of_ascii c1 in
  let b := N_of_ascii c2 in
  let c := N_of_ascii c3 in
  ((a =? 225) && (b =? 154) && (c =? 128)
   || (a =? 226) && (b =? 128) &&
        ((128 <=? c) && (c <=? 138) || (c =? 168) || (c =? 169) || (c =? 175))
   || (a =? 226) && (b =? 129) && (c =? 159)
   || (a =? 227) && (b =? 128) && (c =? 128))%N.

(** [strings.TrimLeftFunc(s, unicode.IsSpace)]: drop white-space runes
    from the front. *)
Fixpoint trimLeftSpace (s : string) : string :=
  match s with
  | EmptyString => EmptyString
  | String c1 r1 =>
      if asciiSpace c1 then trimLeftSpace r1 else
      match r1 with
      | EmptyString => s
      | String c2 r2 =>
          if isSpace2 c1 c2 then trimLeftSpace r2 else
          match r2 with
          | EmptyString => s
          | String c3 r3 => if isSpace3 c1 c2 c3 then trimLeftSpace r3 else s
          end
      end
  end.

(** The same from the back, on the reversed byte sequence: the last rune
    is white space when the bytes end with one of the encodings above. *)
Fixpoint trimLeftSpaceRev (r : list ascii) : list ascii :=
  match r with
  | [] => []
  | c1 :: r1 =>
      if asciiSpace c1 then trimLeftSpaceRev r1 else
      match r1 with
      | [] => r
      | c2 :: r2 =>
          if isSpace2 c2 c1 then trimLeftSpaceRev r2 else
          match r2 with
          | [] => r
          | c3 :: r3 => if isSpace3 c3 c2 c1 then trimLeftSpaceRev r3 else r
          end
      end
  end.

Definition trimRightSpace (s : string) : string :=
  string_of_list_ascii (rev (trimLeftSpaceRev (rev (list_ascii_of_string s)))).

(** [strings.TrimSpace(s)]. *)
Definition strings_TrimSpace (s : string) : string :=
  trimRightSpace (trimLeftSpace s).

(** ** package net/url: [QueryEscape] *)

Definition hexDigit (n : N) : ascii :=
  ascii_of_N (if (n <? 10)%N then 48 + n else 55 + n)%N.

(** [shouldEscape(c, encodeQueryComponent)]: only ASCII letters, digits
    and [-], [_], [.], [~] are left alone. *)
Definition shouldEscape (c : ascii) : bool :=
  let n := N_of_ascii c in
  negb ((97 <=? n) && (n <=? 122) || (65 <=? n) && (n <=? 90)
        || (48 <=? n) && (n <=? 57)
        || (n =? 45) || (n =? 95) || (n =? 46) || (n =? 126))%N.

(** [url.QueryEscape(s)]: a space becomes [+], every other escaped byte
    becomes [%XX] with upper-case hexadecimal digits. *)
Fixpoint url_QueryEscape (s : string) : string :=
  match s with
  | EmptyString => EmptyString
  | String c s' =>
      if Ascii.eqb c " " then String "+" (url_QueryEscape s')
      else if shouldEscape c then
        String "%" (String (hexDigit (N_of_ascii c / 16))
                      (String (hexDigit (N_of_ascii c mod 16))
                         (url_QueryEscape s')))
      else String c (url_QueryEscape s')
  end.

(** ** package fmt *)

(** An operand of a formatting call. *)
Inductive operand : Type :=
| OpString (s : string)
| OpInt (n : Z)
| OpBool (b : bool).

Definition strconv_Itoa (n : Z) : string := NilZero.string_of_int (Z.to_int n).

Definition strconv_FormatBool (b : bool) : string :=
  if b then "true" else "false".

(** The name of an operand's type and its default ([%v]) form. *)
Definition operandType (a : operand) : string :=
  match a with
  | OpString _ => "string"
  | OpInt _ => "int"
  | OpBool _ => "bool"
  end.

Definition operandValue (a : operand) : string :=
  match a with
  | OpString s => s
  | OpInt n => strconv_Itoa n
  | OpBool b => strconv_FormatBool b
  end.

(** One verb applied to one operand.  [%s] prints a string, [%d] an
    integer, [%t] a boolean and [%v] any of them; a verb that does not
    fit its operand prints the notice [%!verb(type=value)]. *)
Definition formatOperand (verb : ascii) (a : operand) : string :=
  let fits :=
    match a with
    | OpString _ => Ascii.eqb verb "s"
    | OpInt _ => Ascii.eqb verb "d"
    | OpBool _ => Ascii.eqb verb "t"
    end in
  if fits || Ascii.eqb verb "v" then operandValue a
  else "%!" +:+ String verb ("(" +:+ operandType a +:+ "=" +:+ operandValue a +:+ ")").

(** [fmt.Sprintf(format, args...)] for the verbs [%s], [%d], [%t] and
    [%v] without flags, the ones the package uses.  A verb without
    operand prints [%!verb(MISSING)]; operands left over are listed in a
    final [%!(EXTRA ...)]. *)
Fixpoint fmt_Sprintf (format : string) (args : list operand) : string :=
  match format with
  | EmptyString =>
      match args with
      | [] => EmptyString
      | _ :: _ =>
          "%!(EXTRA "
          +:+ strings_Join
                (map (fun a => operandType a +:+ "=" +:+ operandValue a) args) ", "
          +:+ ")"
      end
  | String c rest =>
      if Ascii.eqb c "%" then
        match rest with
        | EmptyString => "%!(NOVERB)"
        | String verb rest' =>
            if Ascii.eqb verb "%" then String "%" (fmt_Sprintf rest' args)
            else match args with
                 | a :: args' => formatOperand verb a +:+ fmt_Sprintf rest' args'
                 | [] => "%!" +:+ String verb ("(MISSING)" +:+ fmt_Sprintf rest' [])
                 end
        end
      else String c (fmt_Sprintf rest args)
  end.

(** ** JSON texts and Go errors *)

(** The syntax tree of a JSON text, as the scanner of [encoding/json]
    reads it.  A number written as an integer literal is [JInt]; a
    number with a fraction or an exponent keeps its literal.  Object
    members stay in the order of the text, repeated names included. *)
Inductive JSON : Type :=
| JNull
| JBool (b : bool)
| JInt (n : Z)
| JFloat (literal : string)
| JString (s : string)
| JArray (elems : list JSON)
| JObject (members : list (string * JSON)).

(** A Go [error] value.  [errors_New] is [errors.New(msg)];
    [fmt_Errorf] is [fmt.Errorf(format, args...)], kept with its format
    and operands; [json_UnmarshalTypeError] is the
    [*json.UnmarshalTypeError] of [encoding/json] (the kind of JSON value
    and the Go type it did not fit). *)
Inductive error : Type :=
| errors_New (msg : string)
| fmt_Errorf (format : string) (args : list errarg)
| json_UnmarshalTypeError (value : string) (goType : string)
with errarg : Type :=
| ArgOp (a : operand)      (* a string, integer or boolean operand *)
| ArgW (e : error)         (* an error under the verb %w *)
| ArgV (e : error)         (* an error under the verb %v *)
| ArgData (data : JSON).   (* string(data), the text of a JSON value *)

(** [errors.Is(err, target)]: [target] is [err] or is reached from it
    through [%w] operands.  The sentinels of the package are told apart
    by their messages, which all differ. *)
Inductive errors_Is : error -> error -> Prop :=
| Is_same e : errors_Is e e
| Is_wrapped format args e target :
    In (ArgW e) args -> errors_Is e target ->
    errors_Is (fmt_Errorf format args) target.

(** ** package encoding/json: decoding by reflection on the Go type *)

(** The Go types the package decodes into.  [TUnmarshaler] is a named
    string type whose pointer implements [json.Unmarshaler]
    ([FlexibleText]). *)
Inductive GoType : Type :=
| TString
| TInt
| TBool
| TInterface
| TUnmarshaler
| TPtr (elem : GoType)
| TSlice (elem : GoType)
| TStruct (fields : list (string * GoType)).

(** A decoded Go value.  The fields of a struct value are keyed by their
    JSON names. *)
Inductive GoVal : Type :=
| VString (s : string)
| VInt (n : Z)
| VBool (b : bool)
| VInterface (v : option JSON)
| VPtr (p : option GoVal)
| VSlice (elems : list GoVal)
| VStruct (fields : list (string * GoVal)).

Fixpoint zeroVal (t : GoType) : GoVal :=
  match t with
  | TString | TUnmarshaler => VString ""
  | TInt => VInt 0
  | TBool => VBool false
  | TInterface => VInterface None
  | TPtr _ => VPtr None
  | TSlice _ => VSlice []
  | TStruct fields => VStruct (map (fun f => (fst f, zeroVal (snd f))) fields)
  end.

(** The name of a JSON value's kind in an [UnmarshalTypeError]. *)
Definition jsonKind (j : JSON) : string :=
  match j with
  | JNull => "null"
  | JBool _ => "bool"
  | JInt _ | JFloat _ => "number"
  | JString _ => "string"
  | JArray _ => "array"
  | JObject _ => "object"
  end.

(** Member names are matched exactly or, failing that, under case
    folding.  [foldName] upper-cases ASCII letters and folds the Kelvin
    sign ([E2 84 AA]) to [K] and the long s ([C5 BF]) to [S], the only
    runes outside ASCII that fold to an ASCII letter; [None] stands for
    a name with any other byte outside ASCII, which equals no ASCII
    field name. *)
Fixpoint foldName (s : string) : option string :=
  match s with
  | EmptyString => Some EmptyString
  | String c1 r1 =>
      let n := N_of_ascii c1 in
      if (n <? 128)%N then
        let up := if ((97 <=? n) && (n <=? 122))%N then ascii_of_N (n - 32) else c1 in
        option_map (String up) (foldName r1)
      else
        match r1 with
        | String c2 r2 =>
            if ((n =? 197) && (N_of_ascii c2 =? 191))%N
            then option_map (String "S") (foldName r2)
            else match r2 with
                 | String c3 r3 =>
                     if ((n =? 226) && (N_of_ascii c2 =? 132) && (N_of_ascii c3 =? 170))%N
                     then option_map (String "K") (foldName r3)
                     else None
                 | EmptyString => None
                 end
        | EmptyString => None
        end
  end.

Definition foldEqual (key name : string) : bool :=
  match foldName key, foldName name with
  | Some a, Some b => String.eqb a b
  | _, _ => false
  end.

(** The struct field a member name selects: the field of that exact
    name, else the first field equal to it under folding. *)
Definition findField {A} (fields : list (string * A)) (key : string)
  : option (string * A) :=
  match find (fun f => String.eqb (fst f) key) fields with
  | Some f => Some f
  | None => find (fun f => foldEqual key (fst f)) fields
  end.

Fixpoint setField (name : string) (v : GoVal) (fs : list (string * GoVal))
  : list (string * GoVal) :=
  match fs with
  | [] => []
  | (n, old) :: fs' =>
      if String.eqb n name then (n, v) :: fs' else (n, old) :: setField name v fs'
  end.

Definition getField (name : string) (fs : list (string * GoVal)) : option GoVal :=
  option_map snd (find (fun f => String.eqb (fst f) name) fs).

(** The state of a decode: the first [UnmarshalTypeError] met so far, if
    any.  Such an error does not stop the decode; an error returned by an
    [UnmarshalJSON] method does. *)
Definition saved := option error.

Definition saveError (e : error) (s : saved) : saved :=
  match s with
  | Some _ => s
  | None => Some e
  end.

(** A decode step: the error that stopped it, or the new value and the
    saved error. *)
Definition decoded := (error + (GoVal * saved))%type.

Definition int64_ok (n : Z) : bool :=
  (- 2 ^ 63 <=? n) && (n <? 2 ^ 63).

(** [d.object(v)] for a struct: the members are taken in the order of
    the text; each one decodes into the field its name selects, a member
    that selects no field is skipped.  [decoders] gives, for each field,
    its zero value and the decoder of its type. *)
Fixpoint decodeObject
    (decoders : list (string * (GoVal * (JSON -> GoVal -> saved -> decoded))))
    (members : list (string * JSON)) (cur : list (string * GoVal)) (sv : saved)
  : decoded :=
  match members with
  | [] => inr (VStruct cur, sv)
  | (key, mv) :: members' =>
      match findField decoders key with
      | None => decodeObject decoders members' cur sv
      | Some (name, (z, dec)) =>
          match dec mv (default z (getField name cur)) sv with
          | inl e => inl e
          | inr (v, sv') => decodeObject decoders members' (setField name v cur) sv'
          end
      end
  end.

(** [d.array(v)] for a slice: element [i] of the text decodes into
    element [i] of the slice (a zero value when the slice is shorter). *)
Fixpoint decodeArray (dec : JSON -> GoVal -> saved -> decoded) (z : GoVal)
    (elems : list JSON) (old : list GoVal) (acc : list GoVal) (sv : saved)
  : decoded :=
  match elems with
  | [] => inr (VSlice (rev acc), sv)
  | j :: elems' =>
      match dec j (hd z old) sv with
      | inl e => inl e
      | inr (v, sv') => decodeArray dec z elems' (tl old) (v :: acc) sv'
      end
  end.

Section Decode.

(** The [UnmarshalJSON] method of the one [Unmarshaler] type. *)
Variable unmarshalJSON : JSON -> error + string.

(** [d.value(v)] for [v] of type [t] holding [cur]. *)
Fixpoint decodeValue (t : GoType) : JSON -> GoVal -> saved -> decoded :=
  match t with
  | TString => fun j cur sv =>
      match j with
      | JString s => inr (VString s, sv)
      | JNull => inr (cur, sv)
      | _ => inr (cur, saveError (json_UnmarshalTypeError (jsonKind j) "string") sv)
      end
  | TInt => fun j cur sv =>
      match j with
      | JInt n =>
          if int64_ok n then inr (VInt n, sv)
          else inr (cur, saveError (json_UnmarshalTypeError "number" "int") sv)
      | JNull => inr (cur, sv)
      | _ => inr (cur, saveError (json_UnmarshalTypeError (jsonKind j) "int") sv)
      end
  | TBool => fun j cur sv =>
      match j with
      | JBool b => inr (VBool b, sv)
      | JNull => inr (cur, sv)
      | _ => inr (cur, saveError (json_UnmarshalTypeError (jsonKind j) "bool") sv)
      end
  | TInterface => fun j cur sv =>
      match j with
      | JNull => inr (VInterface None, sv)
      | _ => inr (VInterface (Some j), sv)
      end
  | TUnmarshaler => fun j cur sv =>
      match unmarshalJSON j with
      | inl e => inl e
      | inr s => inr (VString s, sv)
      end
  | TPtr elem => fun j cur sv =>
      match j with
      | JNull => inr (VPtr None, sv)
      | _ =>
          let target := match cur with
                        | VPtr (Some v) => v
                        | _ => zeroVal elem
                        end in
          match decodeValue elem j target sv with
          | inl e => inl e
          | inr (v, sv') => inr (VPtr (Some v), sv')
          end
      end
  | TSlice elem => fun j cur sv =>
      match j with
      | JArray elems =>
          decodeArray (decodeValue elem) (zeroVal elem) elems
            (match cur with VSlice l => l | _ => [] end) [] sv
      | JNull => inr (VSlice [], sv)
      | _ => inr (cur, saveError (json_UnmarshalTypeError (jsonKind j) "slice") sv)
      end
  | TStruct fields => fun j cur sv =>
      match j with
      | JObject members =>
          decodeObject
            (map (fun f => (fst f, (zeroVal (snd f), decodeValue (snd f)))) fields)
            members (match cur with VStruct fs => fs | _ => [] end) sv
      | JNull => inr (cur, sv)
      | _ => inr (cur, saveError (json_UnmarshalTypeError (jsonKind j) "struct") sv)
      end
  end.

(** [json.Unmarshal(data, &v)] for a zero [v] of type [t], [data] being
    the syntax tree of the text: the decoded value, unless an
    [UnmarshalJSON] method failed or a type error was saved. *)
Definition json_Unmarshal (t : GoType) (data : JSON) : error + GoVal :=
  match decodeValue t data (zeroVal t) None with
  | inl e => inl e
  | inr (_, Some e) => inl e
  | inr (v, None) => inr v
  end.

End Decode.

(** * The data model (models.go) *)

(** A LinkedIn date. *)
Module Date.
Record t : Type := mk {
  Year : Z;
  Month : Z;
  Day : Z
}.

(** The zero value of the struct. *)
Definition zero : t := mk 0 0 0.
End Date.

(** A LinkedIn date range. *)
Module DateRange.
Record t : Type := mk {
  Start : option Date.t;
  End : option Date.t
}.

(** The zero value of the struct. *)
Definition zero : t := mk None None.
End DateRange.

(** A work experience (position) entry. *)
Module Experience.
Record t : Type := mk {
  EntityURN : string;
  CompanyName : string;
  CompanyURN : string;
  Title : string;
  Description : string;
  DateRange : option DateRange.t;
  LocationName : string;
  MultiLocaleCompanyName : list (gmap string string)
}.

(** The zero value of the struct. *)
Definition zero : t := mk "" "" "" "" "" None "" [].
End Experience.

(** An education entry. *)
Module Education.
Record t : Type := mk {
  EntityURN : string;
  SchoolName : string;
  SchoolURN : string;
  DegreeName : string;
  FieldOfStudy : string;
  DateRange : option DateRange.t;
  Description : string;
  Activities : string
}.

(** The zero value of the struct. *)
Definition zero : t := mk "" "" "" "" "" None "" "".
End Education.

(** A skill entry. *)
Module Skill.
Record t : Type := mk {
  EntityURN : string;
  Name : string;
  EndorsementCount : Z;
  EndorsedByViewer : bool
}.

(** The zero value of the struct. *)
Definition zero : t := mk "" "" 0 false.
End Skill.

(** A certification entry. *)
Module Certification.
Record t : Type := mk {
  EntityURN : string;
  Name : string;
  Authority : string;
  DateRange : option DateRange.t;
  LicenseNumber : string;
  URL : string
}.

(** The zero value of the struct. *)
Definition zero : t := mk "" "" "" None "" "".
End Certification.

(** Detailed location information. *)
Module ProfileLocation.
Record t : Type := mk {
  CountryCode : string;
  PostalCode : string;
  PreferredGeoPlace : string
}.

(** The zero value of the struct. *)
Definition zero : t := mk "" "" "".
End ProfileLocation.

(** Profile picture information. *)
Module ProfilePicture.
Record t : Type := mk {
  DisplayImageUrn : string;
  PhotoFilterPicture : string;
  RootURL : string;
  A11yText : string
}.

(** The zero value of the struct. *)
Definition zero : t := mk "" "" "" "".
End ProfilePicture.

(** Connection and following information. *)
Module ConnectionInfo.
Record t : Type := mk {
  ConnectionCount : Z;
  FollowerCount : Z;
  FollowingCount : Z;
  Following : bool
}.

(** The zero value of the struct. *)
Definition zero : t := mk 0 0 0 false.

Definition set_ConnectionCount (v : Z) (r : t) : t := mk v (FollowerCount r)
  (FollowingCount r) (Following r).

Definition set_FollowerCount (v : Z) (r : t) : t := mk (ConnectionCount r) v
  (FollowingCount r) (Following r).
End ConnectionInfo.

(** The resolved profile: the domain entity a resolve call returns. *)
Module LinkedInProfile.
Record t : Type := mk {
  PublicIdentifier : string;
  URN : string;
  FullName : string;
  Headline : string;
  Location : string;
  ProfileURL : string;
  FirstName : string;
  LastName : string;
  Summary : string;
  Industry : string;
  LocationDetails : option ProfileLocation.t;
  Experience : list Experience.t;
  Education : list Education.t;
  Skills : list Skill.t;
  Certifications : list Certification.t;
  ProfilePicture : option ProfilePicture.t;
  BackgroundImageURL : string;
  ConnectionInfo : option ConnectionInfo.t;
  IsVerified : bool;
  IsCreator : bool;
  IsPremium : bool;
  IsMemorialized : bool;
  TempStatus : string;
  TempStatusEmoji : string;
  CreatorWebsite : string
}.

(** The zero value of the struct. *)
Definition zero : t := mk "" "" "" "" "" "" "" "" "" "" None [] [] [] []
  None "" None false false false false "" "" "".

Definition set_PublicIdentifier (v : string) (r : t) : t := mk v (URN r)
  (FullName r) (Headline r) (Location r) (ProfileURL r) (FirstName r)
  (LastName r) (Summary r) (Industry r) (LocationDetails r) (Experience r)
  (Education r) (Skills r) (Certifications r) (ProfilePicture r)
  (BackgroundImageURL r) (ConnectionInfo r) (IsVerified r) (IsCreator r)
  (IsPremium r) (IsMemorialized r) (TempStatus r) (TempStatusEmoji r)
  (CreatorWebsite r).

Definition set_URN (v : string) (r : t) : t := mk (PublicIdentifier r) v
  (FullName r) (Headline r) (Location r) (ProfileURL r) (FirstName r)
  (LastName r) (Summary r) (Industry r) (LocationDetails r) (Experience r)
  (Education r) (Skills r) (Certifications r) (ProfilePicture r)
  (BackgroundImageURL r) (ConnectionInfo r) (IsVerified r) (IsCreator r)
  (IsPremium r) (IsMemorialized r) (TempStatus r) (TempStatusEmoji r)
  (CreatorWebsite r).

Definition set_ProfileURL (v : string) (r : t) : t := mk (PublicIdentifier
  r) (URN r) (FullName r) (Headline r) (Location r) v (FirstName r)
  (LastName r) (Summary r) (Industry r) (LocationDetails r) (Experience r)
  (Education r) (Skills r) (Certifications r) (ProfilePicture r)
  (BackgroundImageURL r) (ConnectionInfo r) (IsVerified r) (IsCreator r)
  (IsPremium r) (IsMemorialized r) (TempStatus r) (TempStatusEmoji r)
  (CreatorWebsite r).

Definition set_Location (v : string) (r : t) : t := mk (PublicIdentifier r)
  (URN r) (FullName r) (Headline r) v (ProfileURL r) (FirstName r) (LastName
  r) (Summary r) (Industry r) (LocationDetails r) (Experience r) (Education
  r) (Skills r) (Certifications r) (ProfilePicture r) (BackgroundImageURL r)
  (ConnectionInfo r) (IsVerified r) (IsCreator r) (IsPremium r)
  (IsMemorialized r) (TempStatus r) (TempStatusEmoji r) (CreatorWebsite r).

Definition set_FullName (v : string) (r : t) : t := mk (PublicIdentifier r)
  (URN r) v (Headline r) (Location r) (ProfileURL r) (FirstName r) (LastName
  r) (Summary r) (Industry r) (LocationDetails r) (Experience r) (Education
  r) (Skills r) (Certifications r) (ProfilePicture r) (BackgroundImageURL r)
  (ConnectionInfo r) (IsVerified r) (IsCreator r) (IsPremium r)
  (IsMemorialized r) (TempStatus r) (TempStatusEmoji r) (CreatorWebsite r).

Definition set_FirstName (v : string) (r : t) : t := mk (PublicIdentifier r)
  (URN r) (FullName r) (Headline r) (Location r) (ProfileURL r) v (LastName
  r) (Summary r) (Industry r) (LocationDetails r) (Experience r) (Education
  r) (Skills r) (Certifications r) (ProfilePicture r) (BackgroundImageURL r)
  (ConnectionInfo r) (IsVerified r) (IsCreator r) (IsPremium r)
  (IsMemorialized r) (TempStatus r) (TempStatusEmoji r) (CreatorWebsite r).

Definition set_LastName (v : string) (r : t) : t := mk (PublicIdentifier r)
  (URN r) (FullName r) (Headline r) (Location r) (ProfileURL r) (FirstName
  r) v (Summary r) (Industry r) (LocationDetails r) (Experience r)
  (Education r) (Skills r) (Certifications r) (ProfilePicture r)
  (BackgroundImageURL r) (ConnectionInfo r) (IsVerified r) (IsCreator r)
  (IsPremium r) (IsMemorialized r) (TempStatus r) (TempStatusEmoji r)
  (CreatorWebsite r).

Definition set_Headline (v : string) (r : t) : t := mk (PublicIdentifier r)
  (URN r) (FullName r) v (Location r) (ProfileURL r) (FirstName r) (LastName
  r) (Summary r) (Industry r) (LocationDetails r) (Experience r) (Education
  r) (Skills r) (Certifications r) (ProfilePicture r) (BackgroundImageURL r)
  (ConnectionInfo r) (IsVerified r) (IsCreator r) (IsPremium r)
  (IsMemorialized r) (TempStatus r) (TempStatusEmoji r) (CreatorWebsite r).

Definition set_Summary (v : string) (r : t) : t := mk (PublicIdentifier r)
  (URN r) (FullName r) (Headline r) (Location r) (ProfileURL r) (FirstName
  r) (LastName r) v (Industry r) (LocationDetails r) (Experience r)
  (Education r) (Skills r) (Certifications r) (ProfilePicture r)
  (BackgroundImageURL r) (ConnectionInfo r) (IsVerified r) (IsCreator r)
  (IsPremium r) (IsMemorialized r) (TempStatus r) (TempStatusEmoji r)
  (CreatorWebsite r).

Definition set_LocationDetails (v : option ProfileLocation.t) (r : t) : t :=
  mk (PublicIdentifier r) (URN r) (FullName r) (Headline r) (Location r)
  (ProfileURL r) (FirstName r) (LastName r) (Summary r) (Industry r) v
  (Experience r) (Education r) (Skills r) (Certifications r) (ProfilePicture
  r) (BackgroundImageURL r) (ConnectionInfo r) (IsVerified r) (IsCreator r)
  (IsPremium r) (IsMemorialized r) (TempStatus r) (TempStatusEmoji r)
  (CreatorWebsite r).

Definition set_Experience (v : list Experience.t) (r : t) : t := mk
  (PublicIdentifier r) (URN r) (FullName r) (Headline r) (Location r)
  (ProfileURL r) (FirstName r) (LastName r) (Summary r) (Industry r)
  (LocationDetails r) v (Education r) (Skills r) (Certifications r)
  (ProfilePicture r) (BackgroundImageURL r) (ConnectionInfo r) (IsVerified
  r) (IsCreator r) (IsPremium r) (IsMemorialized r) (TempStatus r)
  (TempStatusEmoji r) (CreatorWebsite r).

Definition set_Education (v : list Education.t) (r : t) : t := mk
  (PublicIdentifier r) (URN r) (FullName r) (Headline r) (Location r)
  (ProfileURL r) (FirstName r) (LastName r) (Summary r) (Industry r)
  (LocationDetails r) (Experience r) v (Skills r) (Certifications r)
  (ProfilePicture r) (BackgroundImageURL r) (ConnectionInfo r) (IsVerified
  r) (IsCreator r) (IsPremium r) (IsMemorialized r) (TempStatus r)
  (TempStatusEmoji r) (CreatorWebsite r).

Definition set_Skills (v : list Skill.t) (r : t) : t := mk (PublicIdentifier
  r) (URN r) (FullName r) (Headline r) (Location r) (ProfileURL r)
  (FirstName r) (LastName r) (Summary r) (Industry r) (LocationDetails r)
  (Experience r) (Education r) v (Certifications r) (ProfilePicture r)
  (BackgroundImageURL r) (ConnectionInfo r) (IsVerified r) (IsCreator r)
  (IsPremium r) (IsMemorialized r) (TempStatus r) (TempStatusEmoji r)
  (CreatorWebsite r).

Definition set_ProfilePicture (v : option ProfilePicture.t) (r : t) : t :=
  mk (PublicIdentifier r) (URN r) (FullName r) (Headline r) (Location r)
  (ProfileURL r) (FirstName r) (LastName r) (Summary r) (Industry r)
  (LocationDetails r) (Experience r) (Education r) (Skills r)
  (Certifications r) v (BackgroundImageURL r) (ConnectionInfo r) (IsVerified
  r) (IsCreator r) (IsPremium r) (IsMemorialized r) (TempStatus r)
  (TempStatusEmoji r) (CreatorWebsite r).

Definition set_ConnectionInfo (v : option ConnectionInfo.t) (r : t) : t :=
  mk (PublicIdentifier r) (URN r) (FullName r) (Headline r) (Location r)
  (ProfileURL r) (FirstName r) (LastName r) (Summary r) (Industry r)
  (LocationDetails r) (Experience r) (Education r) (Skills r)
  (Certifications r) (ProfilePicture r) (BackgroundImageURL r) v (IsVerified
  r) (IsCreator r) (IsPremium r) (IsMemorialized r) (TempStatus r)
  (TempStatusEmoji r) (CreatorWebsite r).

Definition set_IsCreator (v : bool) (r : t) : t := mk (PublicIdentifier r)
  (URN r) (FullName r) (Headline r) (Location r) (ProfileURL r) (FirstName
  r) (LastName r) (Summary r) (Industry r) (LocationDetails r) (Experience
  r) (Education r) (Skills r) (Certifications r) (ProfilePicture r)
  (BackgroundImageURL r) (ConnectionInfo r) (IsVerified r) v (IsPremium r)
  (IsMemorialized r) (TempStatus r) (TempStatusEmoji r) (CreatorWebsite r).

Definition set_IsMemorialized (v : bool) (r : t) : t := mk (PublicIdentifier
  r) (URN r) (FullName r) (Headline r) (Location r) (ProfileURL r)
  (FirstName r) (LastName r) (Summary r) (Industry r) (LocationDetails r)
  (Experience r) (Education r) (Skills r) (Certifications r) (ProfilePicture
  r) (BackgroundImageURL r) (ConnectionInfo r) (IsVerified r) (IsCreator r)
  (IsPremium r) v (TempStatus r) (TempStatusEmoji r) (CreatorWebsite r).

Definition set_TempStatus (v : string) (r : t) : t := mk (PublicIdentifier
  r) (URN r) (FullName r) (Headline r) (Location r) (ProfileURL r)
  (FirstName r) (LastName r) (Summary r) (Industry r) (LocationDetails r)
  (Experience r) (Education r) (Skills r) (Certifications r) (ProfilePicture
  r) (BackgroundImageURL r) (ConnectionInfo r) (IsVerified r) (IsCreator r)
  (IsPremium r) (IsMemorialized r) v (TempStatusEmoji r) (CreatorWebsite r).

Definition set_TempStatusEmoji (v : string) (r : t) : t := mk
  (PublicIdentifier r) (URN r) (FullName r) (Headline r) (Location r)
  (ProfileURL r) (FirstName r) (LastName r) (Summary r) (Industry r)
  (LocationDetails r) (Experience r) (Education r) (Skills r)
  (Certifications r) (ProfilePicture r) (BackgroundImageURL r)
  (ConnectionInfo r) (IsVerified r) (IsCreator r) (IsPremium r)
  (IsMemorialized r) (TempStatus r) v (CreatorWebsite r).
End LinkedInProfile.

(** ** Flexible text *)

(** [FlexibleText] is a string type with its own JSON decoding: the
    field can arrive as a string or as an object with a [text] member. *)
Definition FlexibleText : Type := string.

(** The anonymous [struct { Text string `json:"text"` }] of
    [UnmarshalJSON]. *)
Definition textObj_schema : GoType := TStruct [("text", TString)].

(** Neither that struct nor [string] has an [Unmarshaler] inside, so
    the two inner [json.Unmarshal] calls never reach this method. *)
Definition noUnmarshaler (data : JSON) : error + string :=
  inl (errors_New "json: no Unmarshaler").

Definition structFields (v : GoVal) : list (string * GoVal) :=
  match v with
  | VStruct fs => fs
  | _ => []
  end.

Definition asString (v : option GoVal) : string :=
  match v with
  | Some (VString s) => s
  | _ => ""
  end.

Definition asInt (v : option GoVal) : Z :=
  match v with
  | Some (VInt n) => n
  | _ => 0
  end.

Definition asBool (v : option GoVal) : bool :=
  match v with
  | Some (VBool b) => b
  | _ => false
  end.

Definition asPtr {A} (f : option GoVal -> A) (v : option GoVal) : option A :=
  match v with
  | Some (VPtr (Some x)) => Some (f (Some x))
  | _ => None
  end.

Definition asSlice {A} (f : option GoVal -> A) (v : option GoVal) : list A :=
  match v with
  | Some (VSlice l) => map (fun x => f (Some x)) l
  | _ => []
  end.

(** [func (ft *FlexibleText) UnmarshalJSON(data []byte) error]: the new
    value of [*ft], or the error.  [data] is the syntax tree of the text
    the decoder hands over; [string(data) == "null"] holds exactly when
    that tree is [JNull]. *)
Definition FlexibleText_UnmarshalJSON (data : JSON) : error + FlexibleText :=
  (* 1. Try to unmarshal into a standard TextObject *)
  let step1 :=
    match json_Unmarshal noUnmarshaler textObj_schema data with
    | inr textObj =>
        let Text := asString (getField "text" (structFields textObj)) in
        if negb (String.eqb Text "") then Some Text else None
    | inl _ => None
    end in
  match step1 with
  | Some Text => inr Text
  | None =>
      (* 2. Try to unmarshal into a simple string *)
      match json_Unmarshal noUnmarshaler TString data with
      | inr s => inr (asString (Some s))
      | inl _ =>
          (* 3. If it's a JSON null, treat it as an empty string *)
          match data with
          | JNull => inr ""
          | _ => inl (fmt_Errorf "cannot unmarshal %s into FlexibleText"
                        [ArgData data])
          end
      end
  end.

(** ** The wire format of the profile endpoint *)

(** Date data of the API response. *)
Module DateResponse.
Record t : Type := mk {
  Year : Z;  (* json:"year" *)
  Month : Z;  (* json:"month" *)
  Day : Z;  (* json:"day" *)
  RecipeTypes : list string;  (* json:"$recipeTypes" *)
  Type_ : string  (* json:"$type" *)
}.

Definition zero : t := mk 0 0 0 [] "".

(** The struct as [encoding/json] sees it: the JSON name and the type of
    each field. *)
Definition schema : GoType :=
  TStruct
    [ ("year", TInt);
      ("month", TInt);
      ("day", TInt);
      ("$recipeTypes", TSlice TString);
      ("$type", TString) ].

(** The struct value a decode leaves, as a record. *)
Definition ofVal (v : GoVal) : t :=
  let fs := structFields v in
  {|
    Year := asInt (getField "year" fs);
    Month := asInt (getField "month" fs);
    Day := asInt (getField "day" fs);
    RecipeTypes := (asSlice asString) (getField "$recipeTypes" fs);
    Type_ := asString (getField "$type" fs)
  |}.
End DateResponse.

(** Date range data of the API response. *)
Module DateRangeResponse.
Record t : Type := mk {
  Start : option DateResponse.t;  (* json:"start" *)
  End : option DateResponse.t;  (* json:"end" *)
  RecipeTypes : list string;  (* json:"$recipeTypes" *)
  Type_ : string  (* json:"$type" *)
}.

Definition zero : t := mk None None [] "".

(** The struct as [encoding/json] sees it: the JSON name and the type of
    each field. *)
Definition schema : GoType :=
  TStruct
    [ ("start", TPtr DateResponse.schema);
      ("end", TPtr DateResponse.schema);
      ("$recipeTypes", TSlice TString);
      ("$type", TString) ].

(** The struct value a decode leaves, as a record. *)
Definition ofVal (v : GoVal) : t :=
  let fs := structFields v in
  {|
    Start := (asPtr (fun o => DateResponse.ofVal (default (VStruct []) o))) (getField "start" fs);
    End := (asPtr (fun o => DateResponse.ofVal (default (VStruct []) o))) (getField "end" fs);
    RecipeTypes := (asSlice asString) (getField "$recipeTypes" fs);
    Type_ := asString (getField "$type" fs)
  |}.
End DateRangeResponse.

(** An element of the "included" array: a wire entity.  One struct carries
    the fields of every kind of entity; [Type_] (the JSON member [$type]) is
    the discriminator. *)
Module GenericIncludedElement.
Record t : Type := mk {
  Type_ : string;  (* json:"$type" *)
  EntityURN : string;  (* json:"entityUrn" *)
  TrackingURN : string;  (* json:"trackingUrn" *)
  Title : option FlexibleText;  (* json:"title" *)
  PrimarySubtitle : option FlexibleText;  (* json:"primarySubtitle" *)
  SecondarySubtitle : option FlexibleText;  (* json:"secondarySubtitle" *)
  NavigationURL : string;  (* json:"navigationUrl" *)
  BadgeText : option FlexibleText;  (* json:"badgeText" *)
  PublicIdentifier : string;  (* json:"publicIdentifier" *)
  FirstName : string;  (* json:"firstName" *)
  LastName : string;  (* json:"lastName" *)
  Headline : string;  (* json:"headline" *)
  CompanyName : string;  (* json:"companyName" *)
  CompanyURN : string;  (* json:"*company" *)
  Description : string;  (* json:"description" *)
  DateRange : option DateRangeResponse.t;  (* json:"dateRange" *)
  LocationName : string;  (* json:"locationName" *)
  SchoolName : string;  (* json:"schoolName" *)
  SchoolURN : string;  (* json:"*school" *)
  DegreeName : string;  (* json:"degreeName" *)
  FieldOfStudy : string;  (* json:"fieldOfStudy" *)
  Activities : string;  (* json:"activities" *)
  Name : string;  (* json:"name" *)
  EndorsementCount : Z;  (* json:"endorsementCount" *)
  EndorsedByViewer : bool;  (* json:"endorsedByViewer" *)
  TrackingId : string  (* json:"trackingId" *)
}.

Definition zero : t := mk "" "" "" None None None "" None "" "" "" "" "" ""
  "" None "" "" "" "" "" "" "" 0 false "".

(** The struct as [encoding/json] sees it: the JSON name and the type of
    each field. *)
Definition schema : GoType :=
  TStruct
    [ ("$type", TString);
      ("entityUrn", TString);
      ("trackingUrn", TString);
      ("title", TPtr TUnmarshaler);
      ("primarySubtitle", TPtr TUnmarshaler);
      ("secondarySubtitle", TPtr TUnmarshaler);
      ("navigationUrl", TString);
      ("badgeText", TPtr TUnmarshaler);
      ("publicIdentifier", TString);
      ("firstName", TString);
      ("lastName", TString);
      ("headline", TString);
      ("companyName", TString);
      ("*company", TString);
      ("description", TString);
      ("dateRange", TPtr DateRangeResponse.schema);
      ("locationName", TString);
      ("schoolName", TString);
      ("*school", TString);
      ("degreeName", TString);
      ("fieldOfStudy", TString);
      ("activities", TString);
      ("name", TString);
      ("endorsementCount", TInt);
      ("endorsedByViewer", TBool);
      ("trackingId", TString) ].

(** The struct value a decode leaves, as a record. *)
Definition ofVal (v : GoVal) : t :=
  let fs := structFields v in
  {|
    Type_ := asString (getField "$type" fs);
    EntityURN := asString (getField "entityUrn" fs);
    TrackingURN := asString (getField "trackingUrn" fs);
    Title := (asPtr asString) (getField "title" fs);
    PrimarySubtitle := (asPtr asString) (getField "primarySubtitle" fs);
    SecondarySubtitle := (asPtr asString) (getField "secondarySubtitle" fs);
    NavigationURL := asString (getField "navigationUrl" fs);
    BadgeText := (asPtr asString) (getField "badgeText" fs);
    PublicIdentifier := asString (getField "publicIdentifier" fs);
    FirstName := asString (getField "firstName" fs);
    LastName := asString (getField "lastName" fs);
    Headline := asString (getField "headline" fs);
    CompanyName := asString (getField "companyName" fs);
    CompanyURN := asString (getField "*company" fs);
    Description := asString (getField "description" fs);
    DateRange := (asPtr (fun o => DateRangeResponse.ofVal (default (VStruct []) o))) (getField "dateRange" fs);
    LocationName := asString (getField "locationName" fs);
    SchoolName := asString (getField "schoolName" fs);
    SchoolURN := asString (getField "*school" fs);
    DegreeName := asString (getField "degreeName" fs);
    FieldOfStudy := asString (getField "fieldOfStudy" fs);
    Activities := asString (getField "activities" fs);
    Name := asString (getField "name" fs);
    EndorsementCount := asInt (getField "endorsementCount" fs);
    EndorsedByViewer := asBool (getField "endorsedByViewer" fs);
    TrackingId := asString (getField "trackingId" fs)
  |}.
End GenericIncludedElement.

(** The top-level response of the profile API.  The resolver reads only
    [Included]; [Data] is kept as the value decoded for the struct
    [ProfileData], [Meta] is an [interface{}]. *)
Module ProfileAPIResponse.
Record t : Type := mk {
  Data : GoVal;                              (* json:"data" *)
  Included : list GenericIncludedElement.t;  (* json:"included" *)
  Meta : option JSON                         (* json:"meta" *)
}.

(** [IdentityDashProfilesCollection], [ProfileInnerData], [ProfileData]. *)
Definition IdentityDashProfilesCollection_schema : GoType :=
  TStruct
    [ ("*elements", TSlice TString);
      ("$recipeTypes", TSlice TString);
      ("$type", TString) ].

Definition ProfileInnerData_schema : GoType :=
  TStruct
    [ ("$recipeTypes", TSlice TString);
      ("identityDashProfilesByMemberIdentity",
        IdentityDashProfilesCollection_schema);
      ("$type", TString) ].

Definition ProfileData_schema : GoType :=
  TStruct [ ("data", ProfileInnerData_schema) ].

Definition schema : GoType :=
  TStruct
    [ ("data", ProfileData_schema);
      ("included", TSlice GenericIncludedElement.schema);
      ("meta", TInterface) ].

Definition ofVal (v : GoVal) : t :=
  let fs := structFields v in
  {|
    Data := default (zeroVal ProfileData_schema) (getField "data" fs);
    Included :=
      asSlice (fun o => GenericIncludedElement.ofVal (default (VStruct []) o))
        (getField "included" fs);
    Meta := match getField "meta" fs with
            | Some (VInterface j) => j
            | _ => None
            end
  |}.
End ProfileAPIResponse.

(** [json.Unmarshal(jsonData, &apiResponse)] for a [ProfileAPIResponse]. *)
Definition unmarshalProfileAPIResponse (jsonData : JSON)
  : error + ProfileAPIResponse.t :=
  match json_Unmarshal FlexibleText_UnmarshalJSON ProfileAPIResponse.schema jsonData with
  | inl e => inl e
  | inr v => inr (ProfileAPIResponse.ofVal v)
  end.

(** * The normalized graph resolver (profile_parser.go) *)

(** The discriminator constants the parser names.  Their declaration is
    not among the sources, so they are parameters of the development. *)
Class EntityTypes : Type := {
  EntityTypeProfile : string;
  EntityTypePosition : string;
  EntityTypeEducation : string;
  EntityTypeEndorsedSkill : string;
  EntityTypeConnection : string;
  EntityTypeFollowing : string
}.

(** The values an earlier draft of the parser writes in place of the
    constants. *)
Definition voyagerEntityTypes : EntityTypes := {|
  EntityTypeProfile := "com.linkedin.voyager.dash.identity.profile.Profile";
  EntityTypePosition := "com.linkedin.voyager.dash.identity.profile.Position";
  EntityTypeEducation := "com.linkedin.voyager.dash.identity.profile.Education";
  EntityTypeEndorsedSkill := "Skill";
  EntityTypeConnection := "Connection";
  EntityTypeFollowing := "Following"
|}.

(** A value of type [interface{}] that the parser type-asserts. *)
Inductive iface : Type :=
| INil
| IBool (b : bool)
| IString (s : string).

(** [x |> f] applies [f] to [x]: a struct literal is the zero value with
    its named fields set, one after the other. *)
Notation "x |> f" := (f x) (at level 68, left associativity, only parsing).

Section Resolver.
Context `{EntityTypes}.

Import GenericIncludedElement.

(** The [&Date{...}] copies of a wire date. *)
Definition dateOf (d : DateResponse.t) : Date.t :=
  {| Date.Year := DateResponse.Year d;
     Date.Month := DateResponse.Month d;
     Date.Day := DateResponse.Day d |}.

(** The body of [if item.DateRange != nil { ... }], shared by positions
    and education entries. *)
Definition dateRangeOf (r : option DateRangeResponse.t) : option DateRange.t :=
  match r with
  | None => None
  | Some r =>
      Some {| DateRange.Start := option_map dateOf (DateRangeResponse.Start r);
              DateRange.End := option_map dateOf (DateRangeResponse.End r) |}
  end.

(** The [Experience] built from one position entity. *)
Definition experienceOf (item : GenericIncludedElement.t) : Experience.t :=
  {| Experience.EntityURN := EntityURN item;
     Experience.CompanyName := CompanyName item;
     Experience.CompanyURN := CompanyURN item;
     Experience.Title := match Title item with
                         | Some title => title
                         | None => ""
                         end;
     Experience.Description := Description item;
     Experience.DateRange := dateRangeOf (DateRange item);
     Experience.LocationName := LocationName item;
     Experience.MultiLocaleCompanyName := [] |}.

(** [parseExperienceData]: the range loop, appending one entry per
    position entity. *)
Definition parseExperienceData (apiResponse : ProfileAPIResponse.t)
    (profileURN : string) : list Experience.t :=
  fold_left
    (fun experiences item =>
       if String.eqb (Type_ item) EntityTypePosition
       then experiences ++ [experienceOf item]
       else experiences)
    (ProfileAPIResponse.Included apiResponse) [].

Definition educationOf (item : GenericIncludedElement.t) : Education.t :=
  {| Education.EntityURN := EntityURN item;
     Education.SchoolName := SchoolName item;
     Education.SchoolURN := SchoolURN item;
     Education.DegreeName := DegreeName item;
     Education.FieldOfStudy := FieldOfStudy item;
     Education.DateRange := dateRangeOf (DateRange item);
     Education.Description := Description item;
     Education.Activities := Activities item |}.

(** [parseEducationData]. *)
Definition parseEducationData (apiResponse : ProfileAPIResponse.t)
    (profileURN : string) : list Education.t :=
  fold_left
    (fun education item =>
       if String.eqb (Type_ item) EntityTypeEducation
       then education ++ [educationOf item]
       else education)
    (ProfileAPIResponse.Included apiResponse) [].

Definition skillOf (item : GenericIncludedElement.t) : Skill.t :=
  {| Skill.EntityURN := EntityURN item;
     Skill.Name := Name item;
     Skill.EndorsementCount := EndorsementCount item;
     Skill.EndorsedByViewer := EndorsedByViewer item |}.

(** [parseSkillsData]: the type can vary slightly, so it is matched by
    [strings.Contains]. *)
Definition parseSkillsData (apiResponse : ProfileAPIResponse.t)
    (profileURN : string) : list Skill.t :=
  fold_left
    (fun skills item =>
       if strings_Contains (Type_ item) EntityTypeEndorsedSkill
       then skills ++ [skillOf item]
       else skills)
    (ProfileAPIResponse.Included apiResponse) [].

(** The placeholder helpers. *)
Definition extractCountryCode (item : GenericIncludedElement.t) : string := "".

Definition parseConnectionCount (item : GenericIncludedElement.t) : error + Z :=
  inl (fmt_Errorf "not implemented" []).

Definition parseFollowerCount (item : GenericIncludedElement.t) : error + Z :=
  inl (fmt_Errorf "not implemented" []).

Definition extractProfileImageURN (item : GenericIncludedElement.t) : string := "".

Definition extractFieldFromRawJSON (item : GenericIncludedElement.t)
    (fieldName : string) : iface * bool :=
  (INil, false).

(** [parseLocationData]: the first profile entity with the anchor's URN. *)
Fixpoint parseLocationData_loop (included : list GenericIncludedElement.t)
    (profileURN : string) : option ProfileLocation.t :=
  match included with
  | [] => None
  | item :: rest =>
      if String.eqb (Type_ item) EntityTypeProfile
         && String.eqb (EntityURN item) profileURN
      then Some {| ProfileLocation.CountryCode := extractCountryCode item;
                   ProfileLocation.PostalCode := "";
                   ProfileLocation.PreferredGeoPlace := "" |}
      else parseLocationData_loop rest profileURN
  end.

Definition parseLocationData (apiResponse : ProfileAPIResponse.t)
    (profileURN : string) : option ProfileLocation.t :=
  parseLocationData_loop (ProfileAPIResponse.Included apiResponse) profileURN.

(** [parseConnectionData]. *)
Definition parseConnectionData (apiResponse : ProfileAPIResponse.t)
    (profileURN : string) : option ConnectionInfo.t :=
  Some
    (fold_left
       (fun connectionInfo item =>
          let connectionInfo :=
            if strings_Contains (Type_ item) EntityTypeConnection then
              match parseConnectionCount item with
              | inr count => ConnectionInfo.set_ConnectionCount count connectionInfo
              | inl _ => connectionInfo
              end
            else connectionInfo in
          if strings_Contains (Type_ item) EntityTypeFollowing then
            match parseFollowerCount item with
            | inr count => ConnectionInfo.set_FollowerCount count connectionInfo
            | inl _ => connectionInfo
            end
          else connectionInfo)
       (ProfileAPIResponse.Included apiResponse) ConnectionInfo.zero).

(** [parseProfilePictureData]. *)
Fixpoint parseProfilePictureData_loop (included : list GenericIncludedElement.t)
    (profileURN : string) : option ProfilePicture.t :=
  match included with
  | [] => None
  | item :: rest =>
      if String.eqb (Type_ item) EntityTypeProfile
         && String.eqb (EntityURN item) profileURN
      then Some {| ProfilePicture.DisplayImageUrn := extractProfileImageURN item;
                   ProfilePicture.PhotoFilterPicture := "";
                   ProfilePicture.RootURL := "";
                   ProfilePicture.A11yText := FirstName item +:+ " " +:+ LastName item |}
      else parseProfilePictureData_loop rest profileURN
  end.

Definition parseProfilePictureData (apiResponse : ProfileAPIResponse.t)
    (profileURN : string) : option ProfilePicture.t :=
  parseProfilePictureData_loop (ProfileAPIResponse.Included apiResponse) profileURN.

(** [parseSimpleProfileFields]: the four fields read off the raw JSON of
    the profile entity. *)
Definition parseSimpleProfileFields (profile : LinkedInProfile.t)
    (apiResponse : ProfileAPIResponse.t) (profileEntity : GenericIncludedElement.t)
  : LinkedInProfile.t :=
  let profile :=
    match extractFieldFromRawJSON profileEntity "creator" with
    | (IBool creator, true) => LinkedInProfile.set_IsCreator creator profile
    | _ => profile
    end in
  let profile :=
    match extractFieldFromRawJSON profileEntity "memorialized" with
    | (IBool memorialized, true) =>
        LinkedInProfile.set_IsMemorialized memorialized profile
    | _ => profile
    end in
  let profile :=
    match extractFieldFromRawJSON profileEntity "tempStatus" with
    | (IString tempStatus, true) => LinkedInProfile.set_TempStatus tempStatus profile
    | _ => profile
    end in
  match extractFieldFromRawJSON profileEntity "tempStatusEmoji" with
  | (IString tempEmoji, true) => LinkedInProfile.set_TempStatusEmoji tempEmoji profile
  | _ => profile
  end.

(** The search loop of [parseProfileFromAPIResponse]: the first profile
    entity whose public identifier is the requested one. *)
Fixpoint findProfileEntity (included : list GenericIncludedElement.t)
    (publicIdentifier : string) : option GenericIncludedElement.t :=
  match included with
  | [] => None
  | item :: rest =>
      if String.eqb (Type_ item) EntityTypeProfile
         && String.eqb (PublicIdentifier item) publicIdentifier
      then Some item
      else findProfileEntity rest publicIdentifier
  end.

(** [parseProfileFromAPIResponse]. *)
Definition parseProfileFromAPIResponse (apiResponse : ProfileAPIResponse.t)
    (publicIdentifier : string) : error + LinkedInProfile.t :=
  match findProfileEntity (ProfileAPIResponse.Included apiResponse) publicIdentifier with
  | None =>
      inl (fmt_Errorf "profile not found in API response for publicIdentifier: %s"
             [ArgOp (OpString publicIdentifier)])
  | Some profileEntity =>
      let profile :=
        LinkedInProfile.zero
        |> LinkedInProfile.set_PublicIdentifier (PublicIdentifier profileEntity)
        |> LinkedInProfile.set_URN (EntityURN profileEntity)
        |> LinkedInProfile.set_FirstName (FirstName profileEntity)
        |> LinkedInProfile.set_LastName (LastName profileEntity)
        |> LinkedInProfile.set_Headline (Headline profileEntity)
        |> LinkedInProfile.set_ProfileURL
             (fmt_Sprintf "https://www.linkedin.com/in/%s/" [OpString publicIdentifier]) in
      (* Set FullName *)
      let profile :=
        LinkedInProfile.set_FullName
          (strings_TrimSpace
             (LinkedInProfile.FirstName profile +:+ " " +:+ LinkedInProfile.LastName profile))
          profile in
      let profile :=
        LinkedInProfile.set_Experience
          (parseExperienceData apiResponse (EntityURN profileEntity)) profile in
      let profile :=
        LinkedInProfile.set_Education
          (parseEducationData apiResponse (EntityURN profileEntity)) profile in
      let profile :=
        LinkedInProfile.set_Skills
          (parseSkillsData apiResponse (EntityURN profileEntity)) profile in
      let profile :=
        LinkedInProfile.set_LocationDetails
          (parseLocationData apiResponse (EntityURN profileEntity)) profile in
      let profile :=
        LinkedInProfile.set_ConnectionInfo
          (parseConnectionData apiResponse (EntityURN profileEntity)) profile in
      let profile :=
        LinkedInProfile.set_ProfilePicture
          (parseProfilePictureData apiResponse (EntityURN profileEntity)) profile in
      inr (parseSimpleProfileFields profile apiResponse profileEntity)
  end.

(** [sanitizeTextString]. *)
Definition sanitizeTextString (s : string) : string :=
  strings_TrimSpace (strings_ReplaceAll_NUL s).

(** [validateProfileData]: the error, or the profile with its text fields
    sanitized.  A nil [profile] is [None]. *)
Definition validateProfileData (profile : option LinkedInProfile.t)
  : error + LinkedInProfile.t :=
  match profile with
  | None => inl (fmt_Errorf "profile cannot be nil" [])
  | Some profile =>
      if String.eqb (LinkedInProfile.PublicIdentifier profile) ""
      then inl (fmt_Errorf "publicIdentifier is required" [])
      else
        let profile := LinkedInProfile.set_FirstName
                         (sanitizeTextString (LinkedInProfile.FirstName profile)) profile in
        let profile := LinkedInProfile.set_LastName
                         (sanitizeTextString (LinkedInProfile.LastName profile)) profile in
        let profile := LinkedInProfile.set_FullName
                         (sanitizeTextString (LinkedInProfile.FullName profile)) profile in
        let profile := LinkedInProfile.set_Headline
                         (sanitizeTextString (LinkedInProfile.Headline profile)) profile in
        let profile := LinkedInProfile.set_Summary
                         (sanitizeTextString (LinkedInProfile.Summary profile)) profile in
        inr profile
  end.

(** [extractPublicIdentifierFromResponse]. *)
Fixpoint extractPublicIdentifier_loop (included : list GenericIncludedElement.t)
  : string :=
  match included with
  | [] => ""
  | item :: rest =>
      if String.eqb (Type_ item) EntityTypeProfile
         && negb (String.eqb (PublicIdentifier item) "")
      then PublicIdentifier item
      else extractPublicIdentifier_loop rest
  end.

Definition extractPublicIdentifierFromResponse (apiResponse : ProfileAPIResponse.t)
  : string :=
  extractPublicIdentifier_loop (ProfileAPIResponse.Included apiResponse).

(** [ParseFromJSON].  [jsonData] is given as the syntax tree of the
    text (a text that is not valid JSON makes [json.Unmarshal] fail
    before anything is decoded). *)
Definition ParseFromJSON (jsonData : JSON) : error + LinkedInProfile.t :=
  match unmarshalProfileAPIResponse jsonData with
  | inl err => inl (fmt_Errorf "failed to unmarshal JSON: %w" [ArgW err])
  | inr apiResponse =>
      let publicIdentifier := extractPublicIdentifierFromResponse apiResponse in
      if String.eqb publicIdentifier "" then
        inl (fmt_Errorf "could not extract publicIdentifier from response" [])
      else
        match parseProfileFromAPIResponse apiResponse publicIdentifier with
        | inl err => inl (fmt_Errorf "failed to parse profile: %w" [ArgW err])
        | inr profile =>
            match validateProfileData (Some profile) with
            | inl err => inl (fmt_Errorf "profile validation failed: %w" [ArgW err])
            | inr profile => inr profile
            end
        end
  end.

(** [convertAPIResponseToLinkedInProfile], the conversion the client
    uses. *)
Definition convertAPIResponseToLinkedInProfile (apiResponse : ProfileAPIResponse.t)
    (publicIdentifier : string) : error + LinkedInProfile.t :=
  match parseProfileFromAPIResponse apiResponse publicIdentifier with
  | inl err => inl err
  | inr profile =>
      match validateProfileData (Some profile) with
      | inl err => inl err
      | inr profile => inr profile
      end
  end.

End Resolver.

(** * The client (models.go, config.go, errors.go, constants.go, client.go) *)

(** The arguments of a profile search. *)
Module ProfileSearchArgs.
Record t : Type := mk {
  Keywords : string;
  NetworkFilters : list string;
  Start : Z;
  Count : Z;
  XLiPageInstance : string;
  XLiTrack : string
}.

Definition zero : t := mk "" [] 0 0 "" "".
End ProfileSearchArgs.

(** One key and its list of values among the query parameters. *)
Module SearchQueryParameters.
Record t : Type := mk {
  Key : string;
  Value : list string
}.

Definition zero : t := mk "" [].
End SearchQueryParameters.

(** The [query] object of the search variables. *)
Module SearchQuerySubQuery.
Record t : Type := mk {
  Keywords : string;
  FlagshipSearchIntent : string;
  QueryParameters : list SearchQueryParameters.t;
  IncludeFiltersInResponse : bool
}.

Definition zero : t := mk "" "" [] false.

Definition set_QueryParameters (v : list SearchQueryParameters.t) (r : t) :
  t := mk (Keywords r) (FlagshipSearchIntent r) v (IncludeFiltersInResponse
  r).
End SearchQuerySubQuery.

(** The [variables] object of the request URL. *)
Module SearchVariables.
Record t : Type := mk {
  Start : Z;
  Count : Z;
  Origin : string;
  Query : SearchQuerySubQuery.t
}.

Definition zero : t := mk 0 0 "" SearchQuerySubQuery.zero.
End SearchVariables.

(** The authentication tokens. *)
Module AuthCredentials.
Record t : Type := mk {
  LiAtCookie : string;
  CSRFToken : string;
  JSESSIONID : string
}.

Definition zero : t := mk "" "" "".
End AuthCredentials.

(** The configuration of the client. *)
Module Config.
Record t : Type := mk {
  Auth : AuthCredentials.t;
  UserAgent : string;
  Referer : string;
  XLiPageInstance : string;
  XLiTrack : string
}.

Definition zero : t := mk AuthCredentials.zero "" "" "" "".
End Config.

(** The common structure of text fields in the search response. *)
Module TextObject.
Record t : Type := mk {
  Text : string  (* json:"text" *)
}.

Definition zero : t := mk "".

Definition schema : GoType :=
  TStruct
    [ ("text", TString) ].

Definition ofVal (v : GoVal) : t :=
  let fs := structFields v in
  {|
    Text := asString (getField "text" fs)
  |}.
End TextObject.

(** [GenericIncludedElement] as the search models declare it: the titles
    are pointers to [TextObject]. *)
Module SearchIncludedElement.
Record t : Type := mk {
  Type_ : string;  (* json:"$type" *)
  EntityURN : string;  (* json:"entityUrn" *)
  TrackingURN : string;  (* json:"trackingUrn" *)
  Title : option TextObject.t;  (* json:"title" *)
  PrimarySubtitle : option TextObject.t;  (* json:"primarySubtitle" *)
  SecondarySubtitle : option TextObject.t;  (* json:"secondarySubtitle" *)
  NavigationURL : string;  (* json:"navigationUrl" *)
  BadgeText : option TextObject.t;  (* json:"badgeText" *)
  PublicIdentifier : string;  (* json:"publicIdentifier" *)
  FirstName : string;  (* json:"firstName" *)
  LastName : string;  (* json:"lastName" *)
  Headline : string;  (* json:"headline" *)
  TrackingId : string  (* json:"trackingId" *)
}.

Definition zero : t := mk "" "" "" None None None "" None "" "" "" "" "".

Definition schema : GoType :=
  TStruct
    [ ("$type", TString);
      ("entityUrn", TString);
      ("trackingUrn", TString);
      ("title", TPtr TextObject.schema);
      ("primarySubtitle", TPtr TextObject.schema);
      ("secondarySubtitle", TPtr TextObject.schema);
      ("navigationUrl", TString);
      ("badgeText", TPtr TextObject.schema);
      ("publicIdentifier", TString);
      ("firstName", TString);
      ("lastName", TString);
      ("headline", TString);
      ("trackingId", TString) ].

Definition ofVal (v : GoVal) : t :=
  let fs := structFields v in
  {|
    Type_ := asString (getField "$type" fs);
    EntityURN := asString (getField "entityUrn" fs);
    TrackingURN := asString (getField "trackingUrn" fs);
    Title := (asPtr (fun o => TextObject.ofVal (default (VStruct []) o))) (getField "title" fs);
    PrimarySubtitle := (asPtr (fun o => TextObject.ofVal (default (VStruct []) o))) (getField "primarySubtitle" fs);
    SecondarySubtitle := (asPtr (fun o => TextObject.ofVal (default (VStruct []) o))) (getField "secondarySubtitle" fs);
    NavigationURL := asString (getField "navigationUrl" fs);
    BadgeText := (asPtr (fun o => TextObject.ofVal (default (VStruct []) o))) (getField "badgeText" fs);
    PublicIdentifier := asString (getField "publicIdentifier" fs);
    FirstName := asString (getField "firstName" fs);
    LastName := asString (getField "lastName" fs);
    Headline := asString (getField "headline" fs);
    TrackingId := asString (getField "trackingId" fs)
  |}.
End SearchIncludedElement.

(** The [Profile] entities of the "included" array. *)
Module IncludedProfile.
Record t : Type := mk {
  EntityURN : string;
  PublicIdentifier : string;
  FirstName : string;
  LastName : string;
  Headline : string
}.

Definition zero : t := mk "" "" "" "" "".
End IncludedProfile.

(** The response of the search API.  [SearchProfiles] reads only
    [Included]; [RootData] is kept as the value decoded for the struct
    [RootData]. *)
Module SearchAPIResponse.
Record t : Type := mk {
  RootData : GoVal;                          (* json:"data" *)
  Included : list SearchIncludedElement.t    (* json:"included" *)
}.

Definition APIPagingInfo_schema : GoType :=
  TStruct [ ("start", TInt); ("count", TInt); ("total", TInt) ].

Definition ClusterMetadata_schema : GoType :=
  TStruct [ ("totalResultCount", TInt) ].

Definition Item_schema : GoType :=
  TStruct [ ("*entityResult", TString); ("*feedbackCard", TString) ].

Definition ClusterElement_schema : GoType :=
  TStruct
    [ ("items", TSlice Item_schema);
      ("position", TInt);
      ("image", TPtr TString);
      ("title", TPtr TextObject.schema) ].

Definition SearchDashClusters_schema : GoType :=
  TStruct
    [ ("metadata", ClusterMetadata_schema);
      ("paging", APIPagingInfo_schema);
      ("elements", TSlice ClusterElement_schema) ].

Definition InnerData_schema : GoType :=
  TStruct [ ("searchDashClustersByAll", SearchDashClusters_schema) ].

Definition RootData_schema : GoType :=
  TStruct [ ("data", InnerData_schema) ].

Definition schema : GoType :=
  TStruct
    [ ("data", RootData_schema);
      ("included", TSlice SearchIncludedElement.schema) ].

Definition ofVal (v : GoVal) : t :=
  let fs := structFields v in
  {|
    RootData := default (zeroVal RootData_schema) (getField "data" fs);
    Included :=
      asSlice (fun o => SearchIncludedElement.ofVal (default (VStruct []) o))
        (getField "included" fs)
  |}.
End SearchAPIResponse.

(** ** errors.go *)

Definition ErrAuthMissing : error :=
  errors_New "linkedinscraper: authentication credentials (li_at, csrf_token) are missing".
Definition ErrKeywordsMissing : error :=
  errors_New "linkedinscraper: search keywords are missing".
Definition ErrRequestBuildFailed : error :=
  errors_New "linkedinscraper: failed to build API request".
Definition ErrRequestFailed : error :=
  errors_New "linkedinscraper: API request failed".
Definition ErrUnauthorized : error :=
  errors_New "linkedinscraper: unauthorized, check credentials or IP reputation".
Definition ErrRateLimited : error :=
  errors_New "linkedinscraper: rate limited by API".
Definition ErrResponseParseFailed : error :=
  errors_New "linkedinscraper: failed to parse API response".
Definition ErrNoProfilesFound : error :=
  errors_New "linkedinscraper: no profiles found matching criteria".

(** ** constants.go *)

Definition VoyagerBaseURL : string := "https://www.linkedin.com/voyager/api/graphql".
Definition DefaultSearchQueryID : string :=
  "voyagerSearchDashClusters.7cdf88d3366ad02cc5a3862fb9a24085".
Definition DefaultProfileQueryID : string :=
  "voyagerIdentityDashProfiles.9d37763c7ad41b36d4fb077d1e9e6ee2".
Definition AcceptHeaderValue : string := "application/vnd.linkedin.normalized+json+2.1".

(** [net/http] status codes. *)
Definition http_StatusOK : Z := 200.
Definition http_StatusUnauthorized : Z := 401.
Definition http_StatusForbidden : Z := 403.
Definition http_StatusTooManyRequests : Z := 429.
Definition http_MethodGet : string := "GET".

(** ** package net/url: [URL] and [Values] *)

(** A parsed URL, as far as the package looks into it.  [String()]
    writes the scheme, the authority and the path ([Head]), then [?] and
    [RawQuery] when there is a query, then the fragment ([Tail]). *)
Module URL.
Record t : Type := mk {
  Head : string;
  ForceQuery : bool;
  RawQuery : string;
  Tail : string
}.

Definition set_RawQuery (v : string) (u : t) : t :=
  mk (Head u) (ForceQuery u) v (Tail u).

Definition String (u : t) : string :=
  Head u
  +:+ (if ForceQuery u || negb (String.eqb (RawQuery u) "")
       then "?" +:+ RawQuery u else "")
  +:+ Tail u.
End URL.

(** [url.Values] and [http.Header]: maps from a key to its values.  The
    header keys the package sets are already in canonical form. *)
Abbreviation Values := (gmap string (list string)).
Abbreviation Header := (gmap string (list string)).

Definition Values_Set (key value : string) (v : Values) : Values :=
  <[key := [value]]> v.

Definition Header_Set (key value : string) (h : Header) : Header :=
  <[key := [value]]> h.

(** [slices.Sort] on strings: insertion into byte-wise order. *)
Fixpoint insertSorted (k : string) (l : list string) : list string :=
  match l with
  | [] => [k]
  | x :: l' => if String.leb k x then k :: l else x :: insertSorted k l'
  end.

Definition sortStrings (l : list string) : list string :=
  fold_right insertSorted [] l.

(** [Values.Encode()]: [key=value] pairs joined by [&], the keys in
    sorted order, both sides escaped. *)
Definition Values_Encode (v : Values) : string :=
  fold_left
    (fun buf k =>
       let keyEscaped := url_QueryEscape k in
       fold_left
         (fun buf value =>
            (if negb (String.eqb buf "") then buf +:+ "&" else buf)
            +:+ keyEscaped +:+ "=" +:+ url_QueryEscape value)
         (default [] (v !! k)) buf)
    (sortStrings (map fst (map_to_list v))) "".

(** A double quote, and a literal written with [']  in place of each
    double quote. *)
Definition quote : string := String (ascii_of_N 34) "".

Fixpoint quoted (s : string) : string :=
  match s with
  | EmptyString => EmptyString
  | String c s' =>
      String (if Ascii.eqb c "'" then ascii_of_N 34 else c) (quoted s')
  end.

(** The placeholder value of the [X-Li-Track] header. *)
Definition defaultXLiTrack : string :=
  quoted "{'clientVersion':'1.13.35368','mpVersion':'1.13.35368','osName':'web','timezoneOffset':-7,'timezone':'America/Los_Angeles','deviceFormFactor':'DESKTOP','mpName':'voyager-web','displayDensity':2,'displayWidth':1920,'displayHeight':1080}".

(** ** The collaborators of the client *)

(** What the client calls and the package does not decide: the URL
    parser of [net/url], the scanner of [encoding/json], and the HTTP
    transport behind [makeRequest] (which answers with the status code
    and the body of the response, or with an error). *)
Class Collaborators : Type := {
  url_Parse : string -> error + URL.t;
  url_ParseQuery : string -> Values;
  json_parse : string -> error + JSON;
  makeRequest : Config.t -> string -> string -> Header -> error + (Z * string)
}.

Section Client.
Context `{EntityTypes} `{Collaborators}.

(** The list of query parameters of [buildGraphQLURL], in the
    [List((key:..,value:List(..)),...)] form. *)
Definition queryParametersString (variables : SearchVariables.t) : string :=
  let queryParams :=
    fold_left
      (fun queryParams p =>
         let valueList :=
           "List(" +:+ strings_Join (SearchQueryParameters.Value p) "," +:+ ")" in
         queryParams ++
           [fmt_Sprintf "(key:%s,value:%s)"
              [OpString (SearchQueryParameters.Key p); OpString valueList]])
      (SearchQuerySubQuery.QueryParameters (SearchVariables.Query variables)) [] in
  "List(" +:+ strings_Join queryParams "," +:+ ")".

(** The variables fragment of [buildGraphQLURL]. *)
Definition variablesString (variables : SearchVariables.t) : string :=
  fmt_Sprintf
    "(start:%d,count:%d,origin:%s,query:(keywords:%s,flagshipSearchIntent:%s,queryParameters:%s,includeFiltersInResponse:%t))"
    [ OpInt (SearchVariables.Start variables);
      OpInt (SearchVariables.Count variables);
      OpString (SearchVariables.Origin variables);
      OpString (url_QueryEscape
                  (SearchQuerySubQuery.Keywords (SearchVariables.Query variables)));
      OpString (SearchQuerySubQuery.FlagshipSearchIntent
                  (SearchVariables.Query variables));
      OpString (queryParametersString variables);
      OpBool (SearchQuerySubQuery.IncludeFiltersInResponse
                (SearchVariables.Query variables)) ].

(** [buildGraphQLURL]: the query encoder of the search endpoint. *)
Definition buildGraphQLURL (baseURL queryID : string)
    (variables : SearchVariables.t) : error + string :=
  match url_Parse baseURL with
  | inl err => inl (fmt_Errorf "failed to parse base URL: %w" [ArgW err])
  | inr parsedBaseURL =>
      let query := url_ParseQuery (URL.RawQuery parsedBaseURL) in
      let query := Values_Set "queryId" queryID query in
      let query := Values_Set "includeWebMetadata" "true" query in
      let encodedBaseQuery := Values_Encode query in
      let finalQueryString :=
        encodedBaseQuery +:+ "&variables=" +:+ variablesString variables in
      inr (URL.String (URL.set_RawQuery finalQueryString parsedBaseURL))
  end.

(** [buildProfileGraphQLURL]: the query encoder of the profile endpoint. *)
Definition buildProfileGraphQLURL (baseURL queryID publicIdentifier : string)
  : error + string :=
  match url_Parse baseURL with
  | inl err => inl (fmt_Errorf "failed to parse base URL: %w" [ArgW err])
  | inr parsedBaseURL =>
      let variablesString :=
        fmt_Sprintf "(memberIdentity:{publicIdentifier:%s})"
          [OpString publicIdentifier] in
      let query := url_ParseQuery (URL.RawQuery parsedBaseURL) in
      let query := Values_Set "queryId" queryID query in
      let query := Values_Set "includeWebMetadata" "true" query in
      let encodedBaseQuery := Values_Encode query in
      let finalQueryString := encodedBaseQuery +:+ "&variables=" +:+ variablesString in
      inr (URL.String (URL.set_RawQuery finalQueryString parsedBaseURL))
  end.

(** The [SearchVariables] that [SearchProfiles] constructs from its
    arguments. *)
Definition searchVariables (args : ProfileSearchArgs.t) : SearchVariables.t :=
  let querySubQuery :=
    {| SearchQuerySubQuery.Keywords := ProfileSearchArgs.Keywords args;
       SearchQuerySubQuery.FlagshipSearchIntent := "SEARCH_SRP";
       SearchQuerySubQuery.QueryParameters := [];
       SearchQuerySubQuery.IncludeFiltersInResponse := false |} in
  let querySubQuery :=
    if (0 <? Z.of_nat (length (ProfileSearchArgs.NetworkFilters args)))
    then SearchQuerySubQuery.set_QueryParameters
           (SearchQuerySubQuery.QueryParameters querySubQuery ++
              [{| SearchQueryParameters.Key := "network";
                  SearchQueryParameters.Value := ProfileSearchArgs.NetworkFilters args |}])
           querySubQuery
    else querySubQuery in
  let querySubQuery :=
    SearchQuerySubQuery.set_QueryParameters
      (SearchQuerySubQuery.QueryParameters querySubQuery ++
         [{| SearchQueryParameters.Key := "resultType";
             SearchQueryParameters.Value := ["PEOPLE"] |}])
      querySubQuery in
  {| SearchVariables.Start := ProfileSearchArgs.Start args;
     SearchVariables.Count := ProfileSearchArgs.Count args;
     SearchVariables.Origin := "FACETED_SEARCH";
     SearchVariables.Query := querySubQuery |}.

(** The headers [SearchProfiles] prepares. *)
Definition searchHeaders (args : ProfileSearchArgs.t) : Header :=
  let customHeaders : Header := ∅ in
  let customHeaders :=
    Header_Set "Accept" "application/vnd.linkedin.normalized+json+2.1" customHeaders in
  let refererQueryParts :=
    [] ++ ["keywords=" +:+ url_QueryEscape (ProfileSearchArgs.Keywords args)] in
  let refererQueryParts :=
    if (0 <? Z.of_nat (length (ProfileSearchArgs.NetworkFilters args))) then
      let networkFilterString :=
        "[" +:+ quote +:+
        strings_Join (ProfileSearchArgs.NetworkFilters args) (quote +:+ "," +:+ quote)
        +:+ quote +:+ "]" in
      refererQueryParts ++ ["network=" +:+ networkFilterString]
    else refererQueryParts in
  let refererQueryParts := refererQueryParts ++ ["origin=FACETED_SEARCH"] in
  let baseURLForReferer := "https://www.linkedin.com/search/results/people/" in
  let fullRefererURL :=
    baseURLForReferer +:+ "?" +:+ strings_Join refererQueryParts "&" in
  let customHeaders := Header_Set "Referer" fullRefererURL customHeaders in
  let xLiPageInstance :=
    if negb (String.eqb (ProfileSearchArgs.XLiPageInstance args) "")
    then ProfileSearchArgs.XLiPageInstance args
    else "urn:li:page:d_flagship3_search_srp_people;placeholder" in
  let customHeaders := Header_Set "X-Li-Page-Instance" xLiPageInstance customHeaders in
  let customHeaders :=
    Header_Set "X-Li-Pem-Metadata" "Voyager - People SRP=search-results" customHeaders in
  let xLiTrack :=
    if negb (String.eqb (ProfileSearchArgs.XLiTrack args) "")
    then ProfileSearchArgs.XLiTrack args
    else defaultXLiTrack in
  Header_Set "X-Li-Track" xLiTrack customHeaders.

(** The two passes of [SearchProfiles] over the "included" array. *)
Definition collectProfileData (included : list SearchIncludedElement.t)
  : gmap string IncludedProfile.t :=
  fold_left
    (fun (profileDataMap : gmap string IncludedProfile.t) item =>
       if String.eqb (SearchIncludedElement.Type_ item)
            "com.linkedin.voyager.dash.identity.profile.Profile"
       then <[SearchIncludedElement.EntityURN item :=
                {| IncludedProfile.EntityURN := SearchIncludedElement.EntityURN item;
                   IncludedProfile.PublicIdentifier := SearchIncludedElement.PublicIdentifier item;
                   IncludedProfile.FirstName := SearchIncludedElement.FirstName item;
                   IncludedProfile.LastName := SearchIncludedElement.LastName item;
                   IncludedProfile.Headline := SearchIncludedElement.Headline item |}]>
              profileDataMap
       else profileDataMap)
    included ∅.

Definition buildProfiles (included : list SearchIncludedElement.t)
    (profileDataMap : gmap string IncludedProfile.t) : list LinkedInProfile.t :=
  fold_left
    (fun profiles item =>
       if String.eqb (SearchIncludedElement.Type_ item)
            "com.linkedin.voyager.dash.search.EntityResultViewModel"
       then
         match SearchIncludedElement.Title item,
               SearchIncludedElement.PrimarySubtitle item,
               SearchIncludedElement.SecondarySubtitle item with
         | Some Title, Some PrimarySubtitle, Some SecondarySubtitle =>
             let profile :=
               LinkedInProfile.zero
               |> LinkedInProfile.set_URN (SearchIncludedElement.TrackingURN item)
               |> LinkedInProfile.set_FullName (TextObject.Text Title)
               |> LinkedInProfile.set_Headline (TextObject.Text PrimarySubtitle)
               |> LinkedInProfile.set_Location (TextObject.Text SecondarySubtitle)
               |> LinkedInProfile.set_ProfileURL (SearchIncludedElement.NavigationURL item) in
             let profile :=
               if negb (String.eqb (SearchIncludedElement.PublicIdentifier item) "")
               then LinkedInProfile.set_PublicIdentifier
                      (SearchIncludedElement.PublicIdentifier item) profile
               else profile in
             let profile :=
               match profileDataMap !! SearchIncludedElement.TrackingURN item with
               | Some linkedProfileData =>
                   if String.eqb (LinkedInProfile.PublicIdentifier profile) ""
                      && negb (String.eqb (IncludedProfile.PublicIdentifier linkedProfileData) "")
                   then LinkedInProfile.set_PublicIdentifier
                          (IncludedProfile.PublicIdentifier linkedProfileData) profile
                   else profile
               | None => profile
               end in
             profiles ++ [profile]
         | _, _, _ => profiles   (* continue *)
         end
       else profiles)
    included [].

(** The error of a response whose status is not [200 OK]. *)
Definition statusError (StatusCode : Z) (respBodyBytes : string) : error :=
  if (StatusCode =? http_StatusUnauthorized) || (StatusCode =? http_StatusForbidden)
  then fmt_Errorf "%w: status %d, body: %s"
         [ArgW ErrUnauthorized; ArgOp (OpInt StatusCode); ArgOp (OpString respBodyBytes)]
  else if StatusCode =? http_StatusTooManyRequests
  then fmt_Errorf "%w: status %d, body: %s"
         [ArgW ErrRateLimited; ArgOp (OpInt StatusCode); ArgOp (OpString respBodyBytes)]
  else fmt_Errorf "%w: received status code %d, body: %s"
         [ArgW ErrRequestFailed; ArgOp (OpInt StatusCode); ArgOp (OpString respBodyBytes)].

(** [json.Unmarshal(respBodyBytes, &v)] on the bytes of a response. *)
Definition unmarshalBytes (t : GoType) (respBodyBytes : string) : error + GoVal :=
  match json_parse respBodyBytes with
  | inl err => inl err
  | inr data => json_Unmarshal FlexibleText_UnmarshalJSON t data
  end.

(** [SearchProfiles]. *)
Definition SearchProfiles (config : Config.t) (args : ProfileSearchArgs.t)
  : error + list LinkedInProfile.t :=
  (* Input Validation *)
  if String.eqb (AuthCredentials.LiAtCookie (Config.Auth config)) ""
     || String.eqb (AuthCredentials.CSRFToken (Config.Auth config)) ""
  then inl ErrAuthMissing
  else if String.eqb (ProfileSearchArgs.Keywords args) ""
  then inl ErrKeywordsMissing
  else
    let variables := searchVariables args in
    (* Build URL *)
    match buildGraphQLURL VoyagerBaseURL DefaultSearchQueryID variables with
    | inl err => inl (fmt_Errorf "%w: %v" [ArgW ErrRequestBuildFailed; ArgV err])
    | inr requestURL =>
        let customHeaders := searchHeaders args in
        (* Make API Call *)
        match makeRequest config http_MethodGet requestURL customHeaders with
        | inl err => inl (fmt_Errorf "%w: %v" [ArgW ErrRequestFailed; ArgV err])
        | inr (StatusCode, respBodyBytes) =>
            if negb (StatusCode =? http_StatusOK)
            then inl (statusError StatusCode respBodyBytes)
            else
              (* Parse JSON Response *)
              match unmarshalBytes SearchAPIResponse.schema respBodyBytes with
              | inl err =>
                  inl (fmt_Errorf "%w: %v. Raw response: %s"
                         [ArgW ErrResponseParseFailed; ArgV err;
                          ArgOp (OpString respBodyBytes)])
              | inr v =>
                  let apiResponse := SearchAPIResponse.ofVal v in
                  let profileDataMap :=
                    collectProfileData (SearchAPIResponse.Included apiResponse) in
                  let profiles :=
                    buildProfiles (SearchAPIResponse.Included apiResponse) profileDataMap in
                  if (Z.of_nat (length profiles) =? 0) then inr [] else inr profiles
              end
        end
    end.

(** The headers [GetProfile] prepares. *)
Definition profileHeaders (publicIdentifier : string) : Header :=
  let customHeaders : Header := ∅ in
  let customHeaders := Header_Set "Accept" AcceptHeaderValue customHeaders in
  let refererURL :=
    fmt_Sprintf "https://www.linkedin.com/in/%s/" [OpString publicIdentifier] in
  let customHeaders := Header_Set "Referer" refererURL customHeaders in
  let xLiPageInstance :=
    fmt_Sprintf "urn:li:page:d_flagship3_profile_view_base;%s"
      [OpString publicIdentifier] in
  let customHeaders := Header_Set "X-Li-Page-Instance" xLiPageInstance customHeaders in
  let customHeaders := Header_Set "X-Li-Pem-Metadata" "Voyager - Profile" customHeaders in
  Header_Set "X-Li-Track" defaultXLiTrack customHeaders.

(** [GetProfile]. *)
Definition GetProfile (config : Config.t) (publicIdentifier : string)
  : error + LinkedInProfile.t :=
  if String.eqb (AuthCredentials.LiAtCookie (Config.Auth config)) ""
     || String.eqb (AuthCredentials.CSRFToken (Config.Auth config)) ""
  then inl ErrAuthMissing
  else if String.eqb publicIdentifier ""
  then inl (fmt_Errorf "publicIdentifier cannot be empty" [])
  else
    match buildProfileGraphQLURL VoyagerBaseURL DefaultProfileQueryID publicIdentifier with
    | inl err => inl (fmt_Errorf "%w: %v" [ArgW ErrRequestBuildFailed; ArgV err])
    | inr requestURL =>
        let customHeaders := profileHeaders publicIdentifier in
        match makeRequest config http_MethodGet requestURL customHeaders with
        | inl err => inl (fmt_Errorf "%w: %v" [ArgW ErrRequestFailed; ArgV err])
        | inr (StatusCode, respBodyBytes) =>
            if negb (StatusCode =? http_StatusOK)
            then inl (statusError StatusCode respBodyBytes)
            else
              match unmarshalBytes ProfileAPIResponse.schema respBodyBytes with
              | inl err =>
                  inl (fmt_Errorf "%w: %v. Raw response: %s"
                         [ArgW ErrResponseParseFailed; ArgV err;
                          ArgOp (OpString respBodyBytes)])
              | inr v =>
                  let apiResponse := ProfileAPIResponse.ofVal v in
                  match convertAPIResponseToLinkedInProfile apiResponse publicIdentifier with
                  | inl err =>
                      inl (fmt_Errorf "failed to extract profile from response: %w"
                             [ArgW err])
                  | inr profile => inr profile
                  end
              end
        end
    end.

End Client.

(** * The earlier draft of the parser

    The sources hold a second, earlier [parseProfileFromAPIResponse].
    It writes the discriminators as string literals, fills the
    collections from placeholder fields and sets [FullName] only when
    both names are present.  Its other helpers are those of the parser
    above, at [voyagerEntityTypes]. *)
Module Draft.
Import GenericIncludedElement.

Definition parseExperienceData (apiResponse : ProfileAPIResponse.t)
    (profileURN : string) : list Experience.t :=
  fold_left
    (fun experiences item =>
       if String.eqb (Type_ item) "com.linkedin.voyager.dash.identity.profile.Position"
       then experiences ++
              [{| Experience.EntityURN := EntityURN item;
                  Experience.CompanyName := PublicIdentifier item;
                  Experience.CompanyURN := "";
                  Experience.Title := Headline item;
                  Experience.Description := "";
                  Experience.DateRange := None;
                  Experience.LocationName := "";
                  Experience.MultiLocaleCompanyName := [] |}]
       else experiences)
    (ProfileAPIResponse.Included apiResponse) [].

Definition parseEducationData (apiResponse : ProfileAPIResponse.t)
    (profileURN : string) : list Education.t :=
  fold_left
    (fun education item =>
       if String.eqb (Type_ item) "com.linkedin.voyager.dash.identity.profile.Education"
       then education ++
              [{| Education.EntityURN := EntityURN item;
                  Education.SchoolName := FirstName item;
                  Education.SchoolURN := "";
                  Education.DegreeName := LastName item;
                  Education.FieldOfStudy := "";
                  Education.DateRange := None;
                  Education.Description := "";
                  Education.Activities := "" |}]
       else education)
    (ProfileAPIResponse.Included apiResponse) [].

Definition parseSkillsData (apiResponse : ProfileAPIResponse.t)
    (profileURN : string) : list Skill.t :=
  fold_left
    (fun skills item =>
       if String.eqb (Type_ item) "com.linkedin.voyager.dash.identity.profile.Skill"
          || strings_Contains (Type_ item) "Skill"
       then skills ++
              [{| Skill.EntityURN := EntityURN item;
                  Skill.Name := FirstName item;
                  Skill.EndorsementCount := 0;
                  Skill.EndorsedByViewer := false |}]
       else skills)
    (ProfileAPIResponse.Included apiResponse) [].

Definition parseProfileFromAPIResponse (apiResponse : ProfileAPIResponse.t)
    (publicIdentifier : string) : error + LinkedInProfile.t :=
  match @findProfileEntity voyagerEntityTypes
          (ProfileAPIResponse.Included apiResponse) publicIdentifier with
  | None =>
      inl (fmt_Errorf "profile not found in API response for publicIdentifier: %s"
             [ArgOp (OpString publicIdentifier)])
  | Some profileEntity =>
      let profile :=
        LinkedInProfile.zero
        |> LinkedInProfile.set_PublicIdentifier (PublicIdentifier profileEntity)
        |> LinkedInProfile.set_URN (EntityURN profileEntity)
        |> LinkedInProfile.set_FirstName (FirstName profileEntity)
        |> LinkedInProfile.set_LastName (LastName profileEntity)
        |> LinkedInProfile.set_Headline (Headline profileEntity)
        |> LinkedInProfile.set_ProfileURL
             (fmt_Sprintf "https://www.linkedin.com/in/%s/" [OpString publicIdentifier]) in
      (* Set FullName *)
      let profile :=
        if negb (String.eqb (LinkedInProfile.FirstName profile) "")
           && negb (String.eqb (LinkedInProfile.LastName profile) "")
        then LinkedInProfile.set_FullName
               (LinkedInProfile.FirstName profile +:+ " " +:+ LinkedInProfile.LastName profile)
               profile
        else profile in
      let profile :=
        LinkedInProfile.set_Experience
          (parseExperienceData apiResponse (EntityURN profileEntity)) profile in
      let profile :=
        LinkedInProfile.set_Education
          (parseEducationData apiResponse (EntityURN profileEntity)) profile in
      let profile :=
        LinkedInProfile.set_Skills
          (parseSkillsData apiResponse (EntityURN profileEntity)) profile in
      let profile :=
        LinkedInProfile.set_LocationDetails
          (@parseLocationData voyagerEntityTypes apiResponse (EntityURN profileEntity))
          profile in
      let profile :=
        LinkedInProfile.set_ConnectionInfo
          (@parseConnectionData voyagerEntityTypes apiResponse (EntityURN profileEntity))
          profile in
      let profile :=
        LinkedInProfile.set_ProfilePicture
          (@parseProfilePictureData voyagerEntityTypes apiResponse (EntityURN profileEntity))
          profile in
      inr (parseSimpleProfileFields profile apiResponse profileEntity)
  end.

End Draft.


(** * The vocabulary of the specification *)

Section Vocabulary.
Context `{EntityTypes}.

Import GenericIncludedElement.

(** The position, education and skill entities of a payload. *)
Definition isPosition (item : GenericIncludedElement.t) : bool :=
  String.eqb (Type_ item) EntityTypePosition.

Definition isEducation (item : GenericIncludedElement.t) : bool :=
  String.eqb (Type_ item) EntityTypeEducation.

Definition isSkill (item : GenericIncludedElement.t) : bool :=
  strings_Contains (Type_ item) EntityTypeEndorsedSkill.

(** The anchor test of [parseProfileFromAPIResponse]. *)
Definition isAnchor (publicIdentifier : string) (item : GenericIncludedElement.t)
  : bool :=
  String.eqb (Type_ item) EntityTypeProfile
  && String.eqb (PublicIdentifier item) publicIdentifier.

End Vocabulary.

(** [sub] occurs in [s]. *)
Definition hasSubstring (s sub : string) : Prop :=
  exists pre post, s = pre +:+ sub +:+ post.


(** [c] does not occur in [s]. *)
Fixpoint freeOf (c : ascii) (s : string) : bool :=
  match s with
  | EmptyString => true
  | String c' s' => negb (Ascii.eqb c' c) && freeOf c s'
  end.

(** * Sample payloads *)

(** The payload of the specification's scenario: one anchor entity
    (Jane Doe, [jane-doe]) and two position entities, followed by an
    education entry and a skill. *)
Definition janeDoePayload : JSON :=
  JObject
    [ ("data", JObject [ ("data", JObject []) ]);
      ("included",
        JArray
          [ JObject
              [ ("$type", JString "com.linkedin.voyager.dash.identity.profile.Profile");
                ("entityUrn", JString "urn:li:fsd_profile:jane");
                ("publicIdentifier", JString "jane-doe");
                ("firstName", JString "Jane");
                ("lastName", JString "Doe");
                ("headline", JString "Engineer at Acme") ];
            JObject
              [ ("$type", JString "com.linkedin.voyager.dash.identity.profile.Position");
                ("entityUrn", JString "urn:li:fsd_profilePosition:1");
                ("title", JString "Engineer");
                ("companyName", JString "Acme");
                ("dateRange",
                  JObject [ ("start", JObject [ ("year", JInt 2021); ("month", JInt 3) ]) ]) ];
            JObject
              [ ("$type", JString "com.linkedin.voyager.dash.identity.profile.Position");
                ("entityUrn", JString "urn:li:fsd_profilePosition:2");
                ("title", JObject [ ("text", JString "Intern") ]);
                ("companyName", JString "Initech") ];
            JObject
              [ ("$type", JString "com.linkedin.voyager.dash.identity.profile.Education");
                ("entityUrn", JString "urn:li:fsd_profileEducation:1");
                ("schoolName", JString "MIT") ];
            JObject
              [ ("$type", JString "com.linkedin.voyager.dash.identity.profile.Skill");
                ("entityUrn", JString "urn:li:fsd_skill:1");
                ("name", JString "Go") ] ]) ].

(** The same payload decoded. *)
Definition janeDoeResponse : ProfileAPIResponse.t :=
  match unmarshalProfileAPIResponse janeDoePayload with
  | inr apiResponse => apiResponse
  | inl _ => ProfileAPIResponse.mk (VStruct []) [] None
  end.

(** What the resolver makes of it. *)
Definition janeDoeProfile : LinkedInProfile.t :=
  match @convertAPIResponseToLinkedInProfile voyagerEntityTypes janeDoeResponse "jane-doe" with
  | inr profile => profile
  | inl _ => LinkedInProfile.zero
  end.

(** A payload whose only profile entity has no public identifier. *)
Definition anonymousPayload : JSON :=
  JObject
    [ ("included",
        JArray
          [ JObject
              [ ("$type", JString "com.linkedin.voyager.dash.identity.profile.Profile");
                ("entityUrn", JString "urn:li:fsd_profile:anon");
                ("firstName", JString "Ann") ] ]) ].

Definition anonymousResponse : ProfileAPIResponse.t :=
  match unmarshalProfileAPIResponse anonymousPayload with
  | inr apiResponse => apiResponse
  | inl _ => ProfileAPIResponse.mk (VStruct []) [] None
  end.

Definition anonymousProfile : LinkedInProfile.t :=
  match @parseProfileFromAPIResponse voyagerEntityTypes anonymousResponse "" with
  | inr profile => profile
  | inl _ => LinkedInProfile.zero
  end.

(** The argument set of the specification's encoder scenario. *)
Definition dataScientistArgs : ProfileSearchArgs.t :=
  {| ProfileSearchArgs.Keywords := "data scientist";
     ProfileSearchArgs.NetworkFilters := ["F"; "O"];
     ProfileSearchArgs.Start := 0;
     ProfileSearchArgs.Count := 0;
     ProfileSearchArgs.XLiPageInstance := "";
     ProfileSearchArgs.XLiTrack := "" |}.

(** A search with keywords only: every optional argument is absent. *)
Definition investorArgs : ProfileSearchArgs.t :=
  {| ProfileSearchArgs.Keywords := "investor";
     ProfileSearchArgs.NetworkFilters := [];
     ProfileSearchArgs.Start := 0;
     ProfileSearchArgs.Count := 0;
     ProfileSearchArgs.XLiPageInstance := "";
     ProfileSearchArgs.XLiTrack := "" |}.

(** Collaborators for the examples: the base URL has no query and no
    fragment, and the transport answers [200] with an empty JSON
    object. *)
Definition exampleCollaborators : Collaborators := {|
  url_Parse rawURL := inr (URL.mk rawURL false "" "");
  url_ParseQuery _ := ∅;
  json_parse _ := inr (JObject []);
  makeRequest _ _ _ _ := inr (200, "{}")
|}.

Definition exampleConfig : Config.t :=
  {| Config.Auth := {| AuthCredentials.LiAtCookie := "li-at";
                       AuthCredentials.CSRFToken := "ajax:1";
                       AuthCredentials.JSESSIONID := "ajax:1" |};
     Config.UserAgent := "";
     Config.Referer := "";
     Config.XLiPageInstance := "";
     Config.XLiTrack := "" |}.




(** The profile that [parseProfileFromAPIResponse] assembles for Jane
    Doe, before validation. *)
Definition janeDoeAssembled : LinkedInProfile.t :=
  match @parseProfileFromAPIResponse voyagerEntityTypes janeDoeResponse "jane-doe" with
  | inr profile => profile
  | inl _ => LinkedInProfile.zero
  end.

(** A Flexible Text value of the wrong shape: not a string, not null,
    and not an object with a [text] member. *)
Definition wrongShape (data : JSON) : Prop :=
  match data with
  | JString _ | JNull => False
  | JBool _ | JInt _ | JFloat _ | JArray _ => True
  | JObject members => Forall (fun m => foldEqual (fst m) "text" = false) members
  end.

(** The fields of a struct type. *)
Definition fieldsOf (t : GoType) : list (string * GoType) :=
  match t with
  | TStruct fields => fields
  | _ => []
  end.

(** A decoder that stops with an error on [j], whatever it decodes
    into. *)
Definition alwaysFails (dec : JSON -> GoVal -> saved -> decoded) (j : JSON) : Prop :=
  forall cur sv, exists e, dec j cur sv = inl e.

(** Jane Doe's payload with a position whose title is the empty object. *)
Definition emptyTitlePayload : JSON :=
  JObject
    [ ("included",
        JArray
          [ JObject
              [ ("$type", JString "com.linkedin.voyager.dash.identity.profile.Profile");
                ("entityUrn", JString "urn:li:fsd_profile:jane");
                ("publicIdentifier", JString "jane-doe");
                ("firstName", JString "Jane");
                ("lastName", JString "Doe") ];
            JObject
              [ ("$type", JString "com.linkedin.voyager.dash.identity.profile.Position");
                ("title", JObject []);
                ("companyName", JString "Acme") ] ]) ].

(** A payload with two profile entities that carry the same public
    identifier. *)
Definition twinsPayload : JSON :=
  JObject
    [ ("included",
        JArray
          [ JObject
              [ ("$type", JString "com.linkedin.voyager.dash.identity.profile.Profile");
                ("entityUrn", JString "urn:li:fsd_profile:first");
                ("publicIdentifier", JString "sam");
                ("firstName", JString "Sam");
                ("lastName", JString "First") ];
            JObject
              [ ("$type", JString "com.linkedin.voyager.dash.identity.profile.Profile");
                ("entityUrn", JString "urn:li:fsd_profile:second");
                ("publicIdentifier", JString "sam");
                ("firstName", JString "Sam");
                ("lastName", JString "Second") ] ]) ].

Definition twinsResponse : ProfileAPIResponse.t :=
  match unmarshalProfileAPIResponse twinsPayload with
  | inr apiResponse => apiResponse
  | inl _ => ProfileAPIResponse.mk (VStruct []) [] None
  end.

Definition twinsProfile : LinkedInProfile.t :=
  match @parseProfileFromAPIResponse voyagerEntityTypes twinsResponse "sam" with
  | inr profile => profile
  | inl _ => LinkedInProfile.zero
  end.

(** * Vocabulary of the client *)

(** The sentinel errors that errors.go declares. *)
Definition sentinels : list error :=
  [ ErrAuthMissing; ErrKeywordsMissing; ErrRequestBuildFailed; ErrRequestFailed;
    ErrUnauthorized; ErrRateLimited; ErrResponseParseFailed; ErrNoProfilesFound ].

(** The credentials that both operations ask for. *)
Definition credentialsMissing (config : Config.t) : Prop :=
  AuthCredentials.LiAtCookie (Config.Auth config) = ""
  \/ AuthCredentials.CSRFToken (Config.Auth config) = "".

(** A search result: an entity of the result type with its three texts
    present. *)
Definition isSearchResult (item : SearchIncludedElement.t) : bool :=
  String.eqb (SearchIncludedElement.Type_ item)
    "com.linkedin.voyager.dash.search.EntityResultViewModel"
  && match SearchIncludedElement.Title item,
           SearchIncludedElement.PrimarySubtitle item,
           SearchIncludedElement.SecondarySubtitle item with
     | Some _, Some _, Some _ => true
     | _, _, _ => false
     end.

(** A profile entity with the URN [urn]. *)
Definition isLinkedProfile (urn : string) (item : SearchIncludedElement.t) : bool :=
  String.eqb (SearchIncludedElement.Type_ item)
    "com.linkedin.voyager.dash.identity.profile.Profile"
  && String.eqb (SearchIncludedElement.EntityURN item) urn.

(** The public identifier of the last profile entity with the URN [urn],
    empty when there is none. *)
Definition linkedPublicIdentifier (included : list SearchIncludedElement.t)
    (urn : string) : string :=
  match last (List.filter (isLinkedProfile urn) included) with
  | Some linked => SearchIncludedElement.PublicIdentifier linked
  | None => ""
  end.

Definition textOf (text : option TextObject.t) : string :=
  match text with
  | Some text => TextObject.Text text
  | None => ""
  end.

(** The profile that a search result stands for: its own texts, and its
    own public identifier or else the one of the profile entity its
    tracking URN names. *)
Definition searchResultOf (included : list SearchIncludedElement.t)
    (item : SearchIncludedElement.t) : LinkedInProfile.t :=
  LinkedInProfile.zero
  |> LinkedInProfile.set_URN (SearchIncludedElement.TrackingURN item)
  |> LinkedInProfile.set_FullName (textOf (SearchIncludedElement.Title item))
  |> LinkedInProfile.set_Headline (textOf (SearchIncludedElement.PrimarySubtitle item))
  |> LinkedInProfile.set_Location (textOf (SearchIncludedElement.SecondarySubtitle item))
  |> LinkedInProfile.set_ProfileURL (SearchIncludedElement.NavigationURL item)
  |> LinkedInProfile.set_PublicIdentifier
       (if String.eqb (SearchIncludedElement.PublicIdentifier item) ""
        then linkedPublicIdentifier included (SearchIncludedElement.TrackingURN item)
        else SearchIncludedElement.PublicIdentifier item).

(** A search answer: a profile entity, a result that names it by its
    tracking URN, a result with an identifier of its own, and a result
    without a title. *)
Definition searchPayload : JSON :=
  JObject
    [ ("included",
        JArray
          [ JObject
              [ ("$type", JString "com.linkedin.voyager.dash.identity.profile.Profile");
                ("entityUrn", JString "urn:li:fsd_profile:ada");
                ("publicIdentifier", JString "ada-l") ];
            JObject
              [ ("$type", JString "com.linkedin.voyager.dash.search.EntityResultViewModel");
                ("trackingUrn", JString "urn:li:fsd_profile:ada");
                ("title", JObject [ ("text", JString "Ada L.") ]);
                ("primarySubtitle", JObject [ ("text", JString "Analyst") ]);
                ("secondarySubtitle", JObject [ ("text", JString "London") ]);
                ("navigationUrl", JString "https://www.linkedin.com/in/ada-l") ];
            JObject
              [ ("$type", JString "com.linkedin.voyager.dash.search.EntityResultViewModel");
                ("trackingUrn", JString "urn:li:fsd_profile:bob");
                ("publicIdentifier", JString "bob-b");
                ("title", JObject [ ("text", JString "Bob B.") ]);
                ("primarySubtitle", JObject [ ("text", JString "Builder") ]);
                ("secondarySubtitle", JObject [ ("text", JString "Leeds") ]) ];
            JObject
              [ ("$type", JString "com.linkedin.voyager.dash.search.EntityResultViewModel");
                ("trackingUrn", JString "urn:li:fsd_profile:cy");
                ("primarySubtitle", JObject [ ("text", JString "Clerk") ]);
                ("secondarySubtitle", JObject [ ("text", JString "York") ]) ] ]) ].

(** Collaborators whose transport answers [200] with [searchPayload]. *)
Definition searchCollaborators : Collaborators := {|
  url_Parse rawURL := inr (URL.mk rawURL false "" "");
  url_ParseQuery _ := ∅;
  json_parse _ := inr searchPayload;
  makeRequest _ _ _ _ := inr (200, "...")
|}.

Definition searchResults : list LinkedInProfile.t :=
  match @SearchProfiles searchCollaborators exampleConfig investorArgs with
  | inr profiles => profiles
  | inl _ => []
  end.

(** Collaborators whose transport answers [429]. *)
Definition rateLimitedCollaborators : Collaborators := {|
  url_Parse rawURL := inr (URL.mk rawURL false "" "");
  url_ParseQuery _ := ∅;
  json_parse _ := inr (JObject []);
  makeRequest _ _ _ _ := inr (429, "slow down")
|}.

(** Collaborators whose transport answers [200] with Jane Doe's
    payload. *)
Definition janeDoeCollaborators : Collaborators := {|
  url_Parse rawURL := inr (URL.mk rawURL false "" "");
  url_ParseQuery _ := ∅;
  json_parse _ := inr janeDoePayload;
  makeRequest _ _ _ _ := inr (200, "...")
|}.

(** * Vocabulary of the encoder *)

(** The bytes that [url.QueryEscape] writes: the ones it leaves alone,
    [+] for a space, and [%] in front of two hexadecimal digits. *)
Definition escapedByte (c : ascii) : bool :=
  negb (shouldEscape c) || Ascii.eqb c "+" || Ascii.eqb c "%".

(** The characters that give the variables fragment and the query string
    their structure. *)
Definition structuralBytes : list ascii :=
  ["("; ")"; ","; ":"; " "; "&"; "="; "#"; "?"; "/"; "{"; "}"]%char.

(** * config.go *)

(** [DefaultUserAgent] of constants.go. *)
Definition DefaultUserAgent : string :=
  "Mozilla/5.0 (Macintosh; Intel Mac OS X 10_15_7) AppleWebKit/537.36 (KHTML, like Gecko) Chrome/123.0.0.0 Safari/537.36".

(** [NewConfig(auth, userAgent...)]: the variadic [userAgent] is the
    list of the arguments given. *)
Definition NewConfig (auth : AuthCredentials.t) (userAgent : list string)
  : error + Config.t :=
  if String.eqb (AuthCredentials.LiAtCookie auth) ""
     || String.eqb (AuthCredentials.CSRFToken auth) ""
  then inl ErrAuthMissing
  else
    let cfg :=
      {| Config.Auth := auth;
         Config.UserAgent := "";
         Config.Referer := "";
         Config.XLiPageInstance := "";
         Config.XLiTrack := "" |} in
    let cfg :=
      match userAgent with
      | first :: _ =>
          if negb (String.eqb first "")
          then Config.mk (Config.Auth cfg) first (Config.Referer cfg)
                 (Config.XLiPageInstance cfg) (Config.XLiTrack cfg)
          else Config.mk (Config.Auth cfg) DefaultUserAgent (Config.Referer cfg)
                 (Config.XLiPageInstance cfg) (Config.XLiTrack cfg)
      | [] =>
          Config.mk (Config.Auth cfg) DefaultUserAgent (Config.Referer cfg)
            (Config.XLiPageInstance cfg) (Config.XLiTrack cfg)
      end in
    inr cfg.

(** Credentials as a caller would give them. *)
Definition exampleAuth : AuthCredentials.t :=
  {| AuthCredentials.LiAtCookie := "li-at";
     AuthCredentials.CSRFToken := "ajax:1";
     AuthCredentials.JSESSIONID := "" |}.
(** * Properties *)

(** ** Loops that append *)

(** A range loop that appends [f item] for the items passing [keep]
    builds the image of the kept items, in the order of the slice. *)
Lemma fold_left_append_filter {A B} (keep : A -> bool) (f : A -> B)
    (l : list A) (acc : list B) :
  fold_left (fun acc item => if keep item then acc ++ [f item] else acc) l acc
  = acc ++ map f (List.filter keep l).
Proof.
  revert acc; induction l as [|item l IH]; intros acc; simpl.
  - by rewrite app_nil_r.
  - rewrite IH. destruct (keep item); simpl; [|done].
    by rewrite <- app_assoc.
Qed.

(** ** Strings *)

(** Appending to a literal computes. *)
#[local] Arguments String.append !s1 s2 : simpl nomatch.

Lemma append_cons (c : ascii) (a b : string) :
  String c a +:+ b = String c (a +:+ b).
Proof. done. Qed.

Lemma append_nil_l (b : string) : "" +:+ b = b.
Proof. done. Qed.

Lemma append_assoc (a b c : string) : (a +:+ b) +:+ c = a +:+ (b +:+ c).
Proof. induction a as [|x a IH]; simpl; [done|]. by rewrite IH. Qed.


Lemma append_not_empty (a b : string) (c : ascii) :
  String.eqb (a +:+ String c b) "" = false.
Proof. by destruct a. Qed.

Lemma strings_HasPrefix_spec (s prefix : string) :
  strings_HasPrefix s prefix = true <-> exists post, s = prefix +:+ post.
Proof.
  revert s; induction prefix as [|p prefix IH]; intros s.
  - destruct s; simpl; (split; [intros _; eexists; reflexivity|done]).
  - destruct s as [|c s]; simpl.
    + split; [done|]. by intros [post Hpost].
    + destruct (Ascii.eqb_spec c p) as [->|Hne].
      * rewrite IH. split; intros [post Hpost]; exists post; congruence.
      * split; [done|]. intros [post Hpost]. congruence.
Qed.

Lemma strings_Contains_cons (c : ascii) (s sub : string) :
  strings_Contains (String c s) sub
  = strings_HasPrefix (String c s) sub || strings_Contains s sub.
Proof. done. Qed.

(** [strings.Contains] decides [hasSubstring]. *)
Lemma strings_Contains_spec (s sub : string) :
  strings_Contains s sub = true <-> hasSubstring s sub.
Proof.
  unfold hasSubstring. induction s as [|c s IH].
  - change (strings_Contains "" sub) with (strings_HasPrefix "" sub || false).
    rewrite orb_false_r, strings_HasPrefix_spec. split.
    + intros [post Hpost]. by exists "", post.
    + intros (pre & post & Heq). destruct pre; simpl in Heq; [by exists post|done].
  - rewrite strings_Contains_cons, orb_true_iff, strings_HasPrefix_spec, IH. split.
    + intros [[post Hpost]|(pre & post & Heq)].
      * by exists "", post.
      * exists (String c pre), post. simpl. by rewrite Heq.
    + intros (pre & post & Heq). destruct pre as [|x pre]; simpl in Heq.
      * left. by exists post.
      * right. exists pre, post. congruence.
Qed.



Lemma hasSubstring_append_l (a s sub : string) :
  hasSubstring s sub -> hasSubstring (a +:+ s) sub.
Proof.
  intros (pre & post & ->). exists (a +:+ pre), post. by rewrite append_assoc.
Qed.






Section ResolverFacts.
Context `{EntityTypes}.

Import GenericIncludedElement.

Lemma parseExperienceData_filter apiResponse profileURN :
  parseExperienceData apiResponse profileURN
  = map experienceOf (List.filter isPosition (ProfileAPIResponse.Included apiResponse)).
Proof.
  exact (fold_left_append_filter isPosition experienceOf _ []).
Qed.

Lemma parseEducationData_filter apiResponse profileURN :
  parseEducationData apiResponse profileURN
  = map educationOf (List.filter isEducation (ProfileAPIResponse.Included apiResponse)).
Proof.
  exact (fold_left_append_filter isEducation educationOf _ []).
Qed.

Lemma parseSkillsData_filter apiResponse profileURN :
  parseSkillsData apiResponse profileURN
  = map skillOf (List.filter isSkill (ProfileAPIResponse.Included apiResponse)).
Proof.
  exact (fold_left_append_filter isSkill skillOf _ []).
Qed.

(** The search loop returns the first anchor, and fails exactly when the
    slice has none. *)
Lemma findProfileEntity_Some included publicIdentifier profileEntity :
  findProfileEntity included publicIdentifier = Some profileEntity ->
  In profileEntity included /\ isAnchor publicIdentifier profileEntity = true.
Proof.
  induction included as [|item rest IH]; simpl; [done|].
  change (String.eqb (Type_ item) EntityTypeProfile
          && String.eqb (PublicIdentifier item) publicIdentifier)
    with (isAnchor publicIdentifier item).
  destruct (isAnchor publicIdentifier item) eqn:Hitem.
  - intros [= <-]. auto.
  - intros Hrest. destruct (IH Hrest). auto.
Qed.


(** What a successful [parseProfileFromAPIResponse] returns, field by
    field, in terms of the anchor it found. *)
Lemma parseProfileFromAPIResponse_inr apiResponse publicIdentifier profile :
  parseProfileFromAPIResponse apiResponse publicIdentifier = inr profile ->
  exists profileEntity,
    findProfileEntity (ProfileAPIResponse.Included apiResponse) publicIdentifier
      = Some profileEntity
    /\ LinkedInProfile.PublicIdentifier profile = PublicIdentifier profileEntity
    /\ LinkedInProfile.FirstName profile = FirstName profileEntity
    /\ LinkedInProfile.LastName profile = LastName profileEntity
    /\ LinkedInProfile.FullName profile
       = strings_TrimSpace (FirstName profileEntity +:+ " " +:+ LastName profileEntity)
    /\ LinkedInProfile.Experience profile
       = parseExperienceData apiResponse (EntityURN profileEntity)
    /\ LinkedInProfile.Education profile
       = parseEducationData apiResponse (EntityURN profileEntity)
    /\ LinkedInProfile.Skills profile
       = parseSkillsData apiResponse (EntityURN profileEntity).
Proof.
  unfold parseProfileFromAPIResponse.
  destruct (findProfileEntity _ _) as [profileEntity|]; [|done].
  intros [= <-]. exists profileEntity. by repeat split.
Qed.

(** [validateProfileData] touches the five text fields only, and refuses
    an empty identifier. *)
Lemma validateProfileData_inr profile profile' :
  validateProfileData (Some profile) = inr profile' ->
  LinkedInProfile.PublicIdentifier profile <> ""
  /\ LinkedInProfile.PublicIdentifier profile' = LinkedInProfile.PublicIdentifier profile
  /\ LinkedInProfile.Experience profile' = LinkedInProfile.Experience profile
  /\ LinkedInProfile.Education profile' = LinkedInProfile.Education profile
  /\ LinkedInProfile.Skills profile' = LinkedInProfile.Skills profile
  /\ LinkedInProfile.FullName profile'
     = sanitizeTextString (LinkedInProfile.FullName profile).
Proof.
  unfold validateProfileData.
  destruct (String.eqb_spec (LinkedInProfile.PublicIdentifier profile) "");
    [done|].
  intros [= <-]. by repeat split.
Qed.

Lemma validateProfileData_empty profile :
  LinkedInProfile.PublicIdentifier profile = "" ->
  validateProfileData (Some profile) = inl (fmt_Errorf "publicIdentifier is required" []).
Proof. unfold validateProfileData. by intros ->. Qed.

End ResolverFacts.

(** ** The resolver: collections, anchor, identifier *)

Section ResolverClaims.
Context `{EntityTypes}.

Import GenericIncludedElement.

(** C1.  When the resolver returns a profile
    ([parseProfileFromAPIResponse], alone, under
    [convertAPIResponseToLinkedInProfile] as [GetProfile] calls it, or
    under [ParseFromJSON]), its [Experience] collection is the image of
    the position entities of the included array, taken in the order of
    the array: it has one entry per position entity (N entries for N
    position entities) and nothing is reordered. *)
Theorem C1_experience_in_wire_order apiResponse publicIdentifier jsonData profile :
  parseProfileFromAPIResponse apiResponse publicIdentifier = inr profile
  \/ convertAPIResponseToLinkedInProfile apiResponse publicIdentifier = inr profile
  \/ (unmarshalProfileAPIResponse jsonData = inr apiResponse
      /\ ParseFromJSON jsonData = inr profile) ->
  LinkedInProfile.Experience profile
  = map experienceOf
      (List.filter isPosition (ProfileAPIResponse.Included apiResponse))
  /\ length (LinkedInProfile.Experience profile)
     = length (List.filter isPosition (ProfileAPIResponse.Included apiResponse)).
Proof.
  intros Hresolve.
  assert (forall assembled validated identifier,
            parseProfileFromAPIResponse apiResponse identifier = inr assembled ->
            validateProfileData (Some assembled) = inr validated ->
            LinkedInProfile.Experience validated
            = map experienceOf
                (List.filter isPosition (ProfileAPIResponse.Included apiResponse)))
    as Hvalidated.
  { intros assembled validated identifier Hparse Hvalid.
    apply validateProfileData_inr in Hvalid as (_ & _ & -> & _).
    apply parseProfileFromAPIResponse_inr in Hparse
      as (anchor & _ & _ & _ & _ & _ & -> & _).
    apply parseExperienceData_filter. }
  assert (LinkedInProfile.Experience profile
          = map experienceOf
              (List.filter isPosition (ProfileAPIResponse.Included apiResponse)))
    as Hexp.
  { destruct Hresolve as [Hparse|[Hconvert|[Hdecode Hjson]]].
    - apply parseProfileFromAPIResponse_inr in Hparse
        as (anchor & _ & _ & _ & _ & _ & -> & _).
      apply parseExperienceData_filter.
    - unfold convertAPIResponseToLinkedInProfile in Hconvert.
      destruct (parseProfileFromAPIResponse _ _) as [|assembled] eqn:Hparse; [done|].
      destruct (validateProfileData _) as [|validated] eqn:Hvalid; [done|].
      injection Hconvert as <-. eauto.
    - unfold ParseFromJSON in Hjson. rewrite Hdecode in Hjson.
      destruct (String.eqb _ ""); [done|].
      destruct (parseProfileFromAPIResponse _ _) as [|assembled] eqn:Hparse; [done|].
      destruct (validateProfileData _) as [|validated] eqn:Hvalid; [done|].
      injection Hjson as <-. eauto. }
  split; [done|]. by rewrite Hexp, length_map.
Qed.


(** C9.  A profile returned by [convertAPIResponseToLinkedInProfile] or
    by [ParseFromJSON] has a non-empty [PublicIdentifier]; when the
    profile assembled by [parseProfileFromAPIResponse] has an empty one,
    the conversion returns the error "publicIdentifier is required"
    instead of the profile. *)
Theorem C9_identifier_required :
  (forall apiResponse publicIdentifier profile,
     convertAPIResponseToLinkedInProfile apiResponse publicIdentifier = inr profile ->
     LinkedInProfile.PublicIdentifier profile <> "")
  /\ (forall jsonData profile,
        ParseFromJSON jsonData = inr profile ->
        LinkedInProfile.PublicIdentifier profile <> "")
  /\ (forall apiResponse publicIdentifier assembled,
        parseProfileFromAPIResponse apiResponse publicIdentifier = inr assembled ->
        LinkedInProfile.PublicIdentifier assembled = "" ->
        convertAPIResponseToLinkedInProfile apiResponse publicIdentifier
        = inl (fmt_Errorf "publicIdentifier is required" [])).
Proof.
  repeat split.
  - intros apiResponse publicIdentifier profile.
    unfold convertAPIResponseToLinkedInProfile.
    destruct (parseProfileFromAPIResponse _ _) as [|assembled]; [done|].
    destruct (validateProfileData _) as [|validated] eqn:Hvalid; [done|].
    intros [= <-].
    apply validateProfileData_inr in Hvalid as (Hne & -> & _). done.
  - intros jsonData profile. unfold ParseFromJSON.
    destruct (unmarshalProfileAPIResponse _) as [|apiResponse]; [done|].
    destruct (String.eqb _ ""); [done|].
    destruct (parseProfileFromAPIResponse _ _) as [|assembled]; [done|].
    destruct (validateProfileData _) as [|validated] eqn:Hvalid; [done|].
    intros [= <-].
    apply validateProfileData_inr in Hvalid as (Hne & -> & _). done.
  - intros apiResponse publicIdentifier assembled Hparse Hempty.
    unfold convertAPIResponseToLinkedInProfile. rewrite Hparse.
    by rewrite (validateProfileData_empty assembled Hempty).
Qed.

(** C10.  The three collection parsers never look at the anchor URN they
    are given: whatever the URN, [Experience], [Education] and [Skills]
    hold every entity of the included array with the matching
    discriminator, in the order of the array.  Entities of another profile
    in the same payload are therefore attached as well. *)
Theorem C10_collections_ignore_owner apiResponse profileURN :
  parseExperienceData apiResponse profileURN
  = map experienceOf
      (List.filter isPosition (ProfileAPIResponse.Included apiResponse))
  /\ parseEducationData apiResponse profileURN
     = map educationOf
         (List.filter isEducation (ProfileAPIResponse.Included apiResponse))
  /\ parseSkillsData apiResponse profileURN
     = map skillOf
         (List.filter isSkill (ProfileAPIResponse.Included apiResponse)).
Proof.
  split; [apply parseExperienceData_filter|].
  split; [apply parseEducationData_filter|apply parseSkillsData_filter].
Qed.

End ResolverClaims.

(** The scenario of the specification: Jane Doe and her two positions. *)
Lemma C1_witness :
  LinkedInProfile.Experience janeDoeProfile
  = map (@experienceOf)
      (List.filter (@isPosition voyagerEntityTypes)
         (ProfileAPIResponse.Included janeDoeResponse))
  /\ length (LinkedInProfile.Experience janeDoeProfile)
     = length (List.filter (@isPosition voyagerEntityTypes)
                 (ProfileAPIResponse.Included janeDoeResponse)).
Proof.
  apply (@C1_experience_in_wire_order voyagerEntityTypes
           janeDoeResponse "jane-doe" janeDoePayload janeDoeProfile).
  right. right. split; vm_compute; reflexivity.
Defined.


(** A profile entity without public identifier, asked for by the empty
    identifier, is assembled and then refused. *)
Lemma C9_witness :
  LinkedInProfile.PublicIdentifier janeDoeProfile <> ""
  /\ @convertAPIResponseToLinkedInProfile voyagerEntityTypes anonymousResponse ""
     = inl (fmt_Errorf "publicIdentifier is required" []).
Proof.
  split.
  - apply (proj1 (@C9_identifier_required voyagerEntityTypes)
             janeDoeResponse "jane-doe" janeDoeProfile).
    vm_compute. reflexivity.
  - apply (proj2 (proj2 (@C9_identifier_required voyagerEntityTypes))
             anonymousResponse "" anonymousProfile).
    + vm_compute. reflexivity.
    + vm_compute. reflexivity.
Defined.

(** ** Flexible text *)

Lemma FlexibleText_UnmarshalJSON_string (s : string) :
  FlexibleText_UnmarshalJSON (JString s) = inr s.
Proof. done. Qed.

Lemma FlexibleText_UnmarshalJSON_wrapped (s : string) :
  s <> "" ->
  FlexibleText_UnmarshalJSON (JObject [("text", JString s)]) = inr s.
Proof.
  intros Hs. unfold FlexibleText_UnmarshalJSON. cbn.
  by destruct (String.eqb_spec s "").
Qed.

(** C5.  [FlexibleText.UnmarshalJSON] turns the string ["Engineer"] into
    [Engineer], the object [{"text":"Engineer"}] into [Engineer] and
    [null] into the empty string, each time without an error. *)
Theorem C5_flexible_text_three_forms :
  FlexibleText_UnmarshalJSON (JString "Engineer") = inr "Engineer"
  /\ FlexibleText_UnmarshalJSON (JObject [("text", JString "Engineer")]) = inr "Engineer"
  /\ FlexibleText_UnmarshalJSON JNull = inr "".
Proof. by repeat split. Qed.

(** ** The query encoder *)



(** The variables fragment, piece by piece. *)
Lemma variablesString_eq (variables : SearchVariables.t) :
  variablesString variables
  = "(start:" +:+ strconv_Itoa (SearchVariables.Start variables)
    +:+ ",count:" +:+ strconv_Itoa (SearchVariables.Count variables)
    +:+ ",origin:" +:+ SearchVariables.Origin variables
    +:+ ",query:(keywords:"
    +:+ url_QueryEscape (SearchQuerySubQuery.Keywords (SearchVariables.Query variables))
    +:+ ",flagshipSearchIntent:"
    +:+ SearchQuerySubQuery.FlagshipSearchIntent (SearchVariables.Query variables)
    +:+ ",queryParameters:" +:+ queryParametersString variables
    +:+ ",includeFiltersInResponse:"
    +:+ strconv_FormatBool
          (SearchQuerySubQuery.IncludeFiltersInResponse (SearchVariables.Query variables))
    +:+ "))".
Proof. done. Qed.

Section EncoderFacts.
Context `{Collaborators}.


(** [buildGraphQLURL] fails only when the base URL does not parse. *)
Lemma buildGraphQLURL_succeeds baseURL queryID variables parsedBaseURL :
  url_Parse baseURL = inr parsedBaseURL ->
  exists requestURL, buildGraphQLURL baseURL queryID variables = inr requestURL.
Proof. unfold buildGraphQLURL. intros ->. eauto. Qed.



End EncoderFacts.



(** C3 as stated fails: the fragment built for keywords "data scientist",
    network filters [F], [O] and start 0 does not contain
    [keywords:data%20scientist] (nor [network:List(F,O)]). *)
Lemma C3_counterexample :
  ~ (strings_Contains (variablesString (searchVariables dataScientistArgs))
       "keywords:data%20scientist" = true
     /\ strings_Contains (variablesString (searchVariables dataScientistArgs))
          "network:List(F,O)" = true
     /\ strings_Contains (variablesString (searchVariables dataScientistArgs))
          "start:0" = true).
Proof. vm_compute. intros [Hkeywords _]. discriminate. Qed.

(** C3, amended.  Encoding keywords "data scientist", network filters
    [F], [O] and start 0 produces the variables fragment below: it
    contains [keywords:data+scientist] (the space is escaped as [+], the
    form [url.QueryEscape] gives), [(key:network,value:List(F,O))] (the
    filter is a key/value pair of the [queryParameters] list) and
    [start:0]. *)
Theorem C3_encoded_fragment :
  variablesString (searchVariables dataScientistArgs)
  = "(start:0,count:0,origin:FACETED_SEARCH,query:(keywords:data+scientist,flagshipSearchIntent:SEARCH_SRP,queryParameters:List((key:network,value:List(F,O)),(key:resultType,value:List(PEOPLE))),includeFiltersInResponse:false))"
  /\ strings_Contains (variablesString (searchVariables dataScientistArgs))
       "keywords:data+scientist" = true
  /\ strings_Contains (variablesString (searchVariables dataScientistArgs))
       "(key:network,value:List(F,O))" = true
  /\ strings_Contains (variablesString (searchVariables dataScientistArgs))
       "start:0" = true
  /\ strings_Contains (variablesString (searchVariables dataScientistArgs))
       "%20" = false
  /\ strings_Contains (variablesString (searchVariables dataScientistArgs))
       "network:List(F,O)" = false.
Proof. vm_compute. by repeat split. Qed.

(** ** [strings.TrimSpace] *)

Functional Scheme trimLeftSpace_ind := Induction for trimLeftSpace Sort Prop.
Functional Scheme trimLeftSpaceRev_ind := Induction for trimLeftSpaceRev Sort Prop.






Lemma trimLeftSpace_length s :
  (String.length (trimLeftSpace s) <= String.length s)%nat.
Proof. functional induction (trimLeftSpace s); simpl in *; lia. Qed.

Lemma trimLeftSpaceRev_length r :
  (length (trimLeftSpaceRev r) <= length r)%nat.
Proof. functional induction (trimLeftSpaceRev r); simpl in *; lia. Qed.



Lemma trimLeftSpace_cons c1 r1 :
  trimLeftSpace (String c1 r1)
  = if asciiSpace c1 then trimLeftSpace r1 else
    match r1 with
    | EmptyString => String c1 r1
    | String c2 r2 =>
        if isSpace2 c1 c2 then trimLeftSpace r2 else
        match r2 with
        | EmptyString => String c1 r1
        | String c3 r3 =>
            if isSpace3 c1 c2 c3 then trimLeftSpace r3 else String c1 r1
        end
    end.
Proof. done. Qed.








(** ** The full name *)

Section FullNameClaims.
Context `{EntityTypes}.

Import GenericIncludedElement.


End FullNameClaims.

(** The earlier draft follows the rule as C8 states it: both names
    present give [firstName + " " + lastName], anything else leaves
    [FullName] empty. *)
Lemma Draft_full_name_rule apiResponse publicIdentifier profile :
  Draft.parseProfileFromAPIResponse apiResponse publicIdentifier = inr profile ->
  exists anchor,
    @findProfileEntity voyagerEntityTypes
      (ProfileAPIResponse.Included apiResponse) publicIdentifier = Some anchor
    /\ (GenericIncludedElement.FirstName anchor <> "" ->
        GenericIncludedElement.LastName anchor <> "" ->
        LinkedInProfile.FullName profile
        = GenericIncludedElement.FirstName anchor +:+ " "
          +:+ GenericIncludedElement.LastName anchor)
    /\ (GenericIncludedElement.FirstName anchor = ""
        \/ GenericIncludedElement.LastName anchor = "" ->
        LinkedInProfile.FullName profile = "").
Proof.
  unfold Draft.parseProfileFromAPIResponse.
  destruct (findProfileEntity _ _) as [anchor|]; [|done].
  intros [= <-]. exists anchor. split; [done|].
  cbn.
  destruct (String.eqb_spec (GenericIncludedElement.FirstName anchor) "") as [->|Hfirst];
    destruct (String.eqb_spec (GenericIncludedElement.LastName anchor) "") as [Hl|Hlast];
    cbn; split; try done; try (intros [?|?]; done).
Qed.



(** ** [SearchProfiles] and its arguments *)

(** An error built around another sentinel is not the sentinel looked
    for. *)
Lemma errors_Is_sentinel (msg msg' : string) :
  errors_Is (errors_New msg) (errors_New msg') -> msg = msg'.
Proof. inversion 1; congruence. Qed.

Lemma errors_Is_wrapping format (sentinel : error) (rest : list errarg)
    (target : error) :
  (forall e, In (ArgW e) rest -> False) ->
  errors_Is (fmt_Errorf format (ArgW sentinel :: rest)) target ->
  target = fmt_Errorf format (ArgW sentinel :: rest) \/ errors_Is sentinel target.
Proof.
  intros Hrest His. inversion His as [|? ? e ? Hin Hinner]; subst; [by left|].
  destruct Hin as [[= <-]|Hin]; [by right|]. by destruct (Hrest e).
Qed.

Section SearchFacts.
Context `{Collaborators}.

(** Whatever the status code, the error for it wraps a sentinel other
    than the two of the request-building steps. *)
Lemma statusError_not_build StatusCode respBodyBytes :
  statusError StatusCode respBodyBytes <> ErrKeywordsMissing
  /\ ~ errors_Is (statusError StatusCode respBodyBytes) ErrRequestBuildFailed.
Proof.
  unfold statusError.
  destruct (_ || _); [|destruct (_ =? _)];
    (split; [done|]; intros His;
     apply errors_Is_wrapping in His as [?|His];
       [done|by apply errors_Is_sentinel in His|];
     intros e [?|[?|[]]]; done).
Qed.

(** C7, amended.  With valid credentials [SearchProfiles] returns
    [ErrKeywordsMissing] exactly when [Keywords] is empty.  The optional
    arguments never make the encoding fail: the request URL is built for
    every argument set (the base URL being a constant that parses), and
    no error of [SearchProfiles] is [ErrRequestBuildFailed].  Absent
    network filters are left out of the request (the only query parameter
    is [resultType]); an absent paging count is not left out, it is
    written as [count:0] (the fragment always has [count:] followed by
    the count); absent header overrides are replaced by the placeholder
    values of [X-Li-Page-Instance] and [X-Li-Track]. *)
Theorem C7_keywords_required_optional_arguments config args parsedBaseURL :
  AuthCredentials.LiAtCookie (Config.Auth config) <> "" ->
  AuthCredentials.CSRFToken (Config.Auth config) <> "" ->
  url_Parse VoyagerBaseURL = inr parsedBaseURL ->
  (SearchProfiles config args = inl ErrKeywordsMissing
   <-> ProfileSearchArgs.Keywords args = "")
  /\ (exists requestURL,
        buildGraphQLURL VoyagerBaseURL DefaultSearchQueryID (searchVariables args)
        = inr requestURL)
  /\ (forall err, SearchProfiles config args = inl err ->
        ~ errors_Is err ErrRequestBuildFailed)
  /\ (ProfileSearchArgs.NetworkFilters args = [] ->
      SearchQuerySubQuery.QueryParameters (SearchVariables.Query (searchVariables args))
      = [ {| SearchQueryParameters.Key := "resultType";
             SearchQueryParameters.Value := ["PEOPLE"] |} ])
  /\ hasSubstring (variablesString (searchVariables args))
       ("count:" +:+ strconv_Itoa (ProfileSearchArgs.Count args))
  /\ (ProfileSearchArgs.XLiPageInstance args = "" ->
      searchHeaders args !! "X-Li-Page-Instance"
      = Some ["urn:li:page:d_flagship3_search_srp_people;placeholder"])
  /\ (ProfileSearchArgs.XLiTrack args = "" ->
      searchHeaders args !! "X-Li-Track" = Some [defaultXLiTrack]).
Proof.
  intros Hcookie Htoken Hparse.
  destruct (buildGraphQLURL_succeeds VoyagerBaseURL DefaultSearchQueryID
              (searchVariables args) parsedBaseURL Hparse) as [requestURL Hbuild].
  assert (forall result,
            SearchProfiles config args = result ->
            ProfileSearchArgs.Keywords args <> "" ->
            match result with
            | inl err => err <> ErrKeywordsMissing
                         /\ ~ errors_Is err ErrRequestBuildFailed
            | inr _ => True
            end) as Hpaths.
  { intros result <- Hkeywords. unfold SearchProfiles.
    destruct (String.eqb_spec (AuthCredentials.LiAtCookie (Config.Auth config)) "");
      [done|].
    destruct (String.eqb_spec (AuthCredentials.CSRFToken (Config.Auth config)) "");
      [done|].
    destruct (String.eqb_spec (ProfileSearchArgs.Keywords args) ""); [done|].
    cbn [orb]. rewrite Hbuild.
    destruct (makeRequest _ _ _ _) as [err|[StatusCode respBodyBytes]].
    { split; [done|]. intros His.
      apply errors_Is_wrapping in His as [?|His];
        [done|by apply errors_Is_sentinel in His|].
      intros e [?|[]]; done. }
    destruct (negb _); [apply statusError_not_build|].
    destruct (unmarshalBytes _ _) as [err|v].
    { split; [done|]. intros His.
      apply errors_Is_wrapping in His as [?|His];
        [done|by apply errors_Is_sentinel in His|].
      intros e [?|[?|[]]]; done. }
    by destruct (_ =? 0). }
  split; [|split; [|split; [|split; [|split; [|split]]]]].
  - split.
    + intros Hresult.
      destruct (String.eqb_spec (ProfileSearchArgs.Keywords args) "") as [|Hne];
        [done|].
      specialize (Hpaths _ Hresult Hne). by destruct Hpaths.
    + intros Hempty. unfold SearchProfiles.
      destruct (String.eqb_spec (AuthCredentials.LiAtCookie (Config.Auth config)) "");
        [done|].
      destruct (String.eqb_spec (AuthCredentials.CSRFToken (Config.Auth config)) "");
        [done|].
      by rewrite Hempty.
  - by exists requestURL.
  - intros err Hresult.
    destruct (String.eqb_spec (ProfileSearchArgs.Keywords args) "") as [Hempty|Hne].
    + unfold SearchProfiles in Hresult.
      destruct (String.eqb_spec (AuthCredentials.LiAtCookie (Config.Auth config)) "");
        [done|].
      destruct (String.eqb_spec (AuthCredentials.CSRFToken (Config.Auth config)) "");
        [done|].
      rewrite Hempty in Hresult. cbn in Hresult. injection Hresult as <-.
      intros His. by apply errors_Is_sentinel in His.
    + specialize (Hpaths _ Hresult Hne). by destruct Hpaths.
  - intros Hfilters. unfold searchVariables. by rewrite Hfilters.
  - rewrite variablesString_eq.
    do 2 apply hasSubstring_append_l.
    exists ","; eexists. rewrite append_assoc. reflexivity.
  - intros Hempty. unfold searchHeaders. rewrite Hempty. cbn [String.eqb negb].
    unfold Header_Set. by simplify_map_eq.
  - intros Hempty. unfold searchHeaders. rewrite Hempty. cbn [String.eqb negb].
    unfold Header_Set. by simplify_map_eq.
Qed.

End SearchFacts.

(** With keywords only, the search passes validation and sends
    [count:0]. *)
Lemma C7_witness :
  (@SearchProfiles exampleCollaborators exampleConfig investorArgs
     = inl ErrKeywordsMissing
   <-> ProfileSearchArgs.Keywords investorArgs = "")
  /\ hasSubstring (variablesString (searchVariables investorArgs)) "count:0"
  /\ searchHeaders investorArgs !! "X-Li-Page-Instance"
     = Some ["urn:li:page:d_flagship3_search_srp_people;placeholder"].
Proof.
  destruct (@C7_keywords_required_optional_arguments exampleCollaborators
              exampleConfig investorArgs (URL.mk VoyagerBaseURL false "" ""))
    as (Hiff & _ & _ & _ & Hcount & Hpage & _).
  - vm_compute. discriminate.
  - vm_compute. discriminate.
  - reflexivity.
  - split; [exact Hiff|]. split; [exact Hcount|]. apply Hpage. reflexivity.
Defined.

(** C7 as stated fails in its last part: with the paging count and the
    header overrides absent, the built request still carries a count
    ([count:0]) and both headers. *)
Lemma C7_counterexample :
  ~ (strings_Contains (variablesString (searchVariables investorArgs)) "count:" = false
     /\ searchHeaders investorArgs !! "X-Li-Page-Instance" = None
     /\ searchHeaders investorArgs !! "X-Li-Track" = None).
Proof. intros [Hcount _]. vm_compute in Hcount. discriminate. Qed.

(** ** A Flexible Text of the wrong shape *)

(** An object without [text] member leaves the text struct at its zero
    value. *)
Lemma decodeObject_textObj_untouched members cur sv :
  Forall (fun m => foldEqual (fst m) "text" = false) members ->
  decodeObject
    [("text", (VString "", decodeValue noUnmarshaler TString))] members cur sv
  = inr (VStruct cur, sv).
Proof.
  induction 1 as [|[key mv] members Hkey _ IH]; [done|].
  simpl in Hkey. cbn [decodeObject].
  assert (findField [("text", (VString "", decodeValue noUnmarshaler TString))] key
          = None) as ->; [|exact IH].
  unfold findField. cbn [find fst].
  destruct (String.eqb_spec "text" key) as [<-|_]; [done|].
  by rewrite Hkey.
Qed.

(** A value of the wrong shape makes [UnmarshalJSON] return its error. *)
Lemma FlexibleText_UnmarshalJSON_wrongShape data :
  wrongShape data ->
  FlexibleText_UnmarshalJSON data
  = inl (fmt_Errorf "cannot unmarshal %s into FlexibleText" [ArgData data]).
Proof.
  destruct data as [| | | | | | members]; try done.
  intros Hmembers. unfold FlexibleText_UnmarshalJSON, json_Unmarshal.
  cbn [textObj_schema decodeValue zeroVal map fst snd].
  by rewrite decodeObject_textObj_untouched.
Qed.

(** How an error of [UnmarshalJSON] travels up through the decoder. *)
Lemma decodeObject_stops decoders members key mv name z dec :
  In (key, mv) members ->
  findField decoders key = Some (name, (z, dec)) ->
  alwaysFails dec mv ->
  forall cur sv, exists e, decodeObject decoders members cur sv = inl e.
Proof.
  intros Hin Hfield Hfails.
  induction members as [|[key' mv'] members IH]; [done|].
  intros cur sv. cbn [decodeObject].
  destruct Hin as [[= -> ->]|Hin].
  - rewrite Hfield. destruct (Hfails (default z (getField name cur)) sv) as [e ->].
    eauto.
  - destruct (findField decoders key') as [[name' [z' dec']]|]; [|by apply IH].
    destruct (dec' mv' _ sv) as [e|[v sv']]; [eauto|by apply IH].
Qed.

Lemma decodeArray_stops dec z elems j :
  In j elems -> alwaysFails dec j ->
  forall old acc sv, exists e, decodeArray dec z elems old acc sv = inl e.
Proof.
  intros Hin Hfails.
  induction elems as [|j' elems IH]; [done|].
  intros old acc sv. cbn [decodeArray].
  destruct Hin as [->|Hin].
  - destruct (Hfails (hd z old) sv) as [e ->]. eauto.
  - destruct (dec j' _ sv) as [e|[v sv']]; [eauto|by apply IH].
Qed.

Lemma find_map_fst {A B} (g : A -> B) (p : string -> bool)
    (fields : list (string * A)) :
  find (fun f => p (fst f)) (map (fun f => (fst f, g (snd f))) fields)
  = option_map (fun f => (fst f, g (snd f))) (find (fun f => p (fst f)) fields).
Proof.
  induction fields as [|[name x] fields IH]; [done|].
  simpl. by destruct (p name).
Qed.

Lemma findField_map {A B} (g : A -> B) (fields : list (string * A)) key :
  findField (map (fun f => (fst f, g (snd f))) fields) key
  = option_map (fun f => (fst f, g (snd f))) (findField fields key).
Proof.
  unfold findField.
  rewrite (find_map_fst g (fun name => String.eqb name key)).
  rewrite (find_map_fst g (fun name => foldEqual key name)).
  by destruct (find _ fields).
Qed.

Section DecodeStops.
Variable unmarshalJSON : JSON -> error + string.

Lemma decodeValue_unmarshaler_stops data e :
  unmarshalJSON data = inl e ->
  alwaysFails (decodeValue unmarshalJSON TUnmarshaler) data.
Proof. intros Herr cur sv. cbn. rewrite Herr. eauto. Qed.

Lemma decodeValue_ptr_stops elem data :
  data <> JNull ->
  alwaysFails (decodeValue unmarshalJSON elem) data ->
  alwaysFails (decodeValue unmarshalJSON (TPtr elem)) data.
Proof.
  intros Hnull Hfails cur sv. cbn [decodeValue].
  destruct data; try done;
    match goal with
    | |- context [decodeValue unmarshalJSON elem ?j ?target sv] =>
        destruct (Hfails target sv) as [e ->]; eauto
    end.
Qed.

Lemma decodeValue_slice_stops elem elems j :
  In j elems ->
  alwaysFails (decodeValue unmarshalJSON elem) j ->
  alwaysFails (decodeValue unmarshalJSON (TSlice elem)) (JArray elems).
Proof.
  intros Hin Hfails cur sv. cbn [decodeValue].
  by apply (decodeArray_stops _ _ elems j).
Qed.

Lemma decodeValue_struct_stops fields members key mv name ft :
  In (key, mv) members ->
  findField fields key = Some (name, ft) ->
  alwaysFails (decodeValue unmarshalJSON ft) mv ->
  alwaysFails (decodeValue unmarshalJSON (TStruct fields)) (JObject members).
Proof.
  intros Hin Hfield Hfails cur sv. cbn [decodeValue].
  apply (decodeObject_stops _ members key mv name (zeroVal ft)
           (decodeValue unmarshalJSON ft)); [done| |done].
  rewrite (findField_map (fun ft => (zeroVal ft, decodeValue unmarshalJSON ft))).
  by rewrite Hfield.
Qed.

Lemma json_Unmarshal_stops t data :
  alwaysFails (decodeValue unmarshalJSON t) data ->
  exists e, json_Unmarshal unmarshalJSON t data = inl e.
Proof.
  intros Hfails. unfold json_Unmarshal.
  destruct (Hfails (zeroVal t) None) as [e ->]. eauto.
Qed.

End DecodeStops.

Lemma wrongShape_not_null data : wrongShape data -> data <> JNull.
Proof. by destruct data. Qed.

Section WrongShapeClaims.
Context `{EntityTypes}.

(** C6, amended.  A Flexible Text value that is present but is neither
    a string, nor null, nor an object with a [text] member (a number, a
    boolean, an array, the empty object) is not taken as absent:
    [FlexibleText.UnmarshalJSON] returns the error "cannot unmarshal ...
    into FlexibleText".  When such a value is the Flexible Text field of
    an entity of the included array, the error stops the decoding of the
    payload, and the resolve call fails: [ParseFromJSON] returns that
    error wrapped in "failed to unmarshal JSON". *)
Theorem C6_wrong_shape_fails_the_resolve
    data key name members elems includedKey payload :
  wrongShape data ->
  findField (fieldsOf GenericIncludedElement.schema) key
    = Some (name, TPtr TUnmarshaler) ->
  In (key, data) members ->
  In (JObject members) elems ->
  findField (fieldsOf ProfileAPIResponse.schema) includedKey
    = Some ("included", TSlice GenericIncludedElement.schema) ->
  In (includedKey, JArray elems) payload ->
  FlexibleText_UnmarshalJSON data
    = inl (fmt_Errorf "cannot unmarshal %s into FlexibleText" [ArgData data])
  /\ exists e,
       unmarshalProfileAPIResponse (JObject payload) = inl e
       /\ ParseFromJSON (JObject payload)
          = inl (fmt_Errorf "failed to unmarshal JSON: %w" [ArgW e]).
Proof.
  intros Hshape Hfield Hmember Helem Hincluded Hpayload.
  pose proof (FlexibleText_UnmarshalJSON_wrongShape data Hshape) as Herr.
  split; [exact Herr|].
  assert (alwaysFails
            (decodeValue FlexibleText_UnmarshalJSON ProfileAPIResponse.schema)
            (JObject payload)) as Hfails.
  { change ProfileAPIResponse.schema
      with (TStruct (fieldsOf ProfileAPIResponse.schema)).
    eapply decodeValue_struct_stops; [exact Hpayload|exact Hincluded|].
    eapply decodeValue_slice_stops; [exact Helem|].
    change GenericIncludedElement.schema
      with (TStruct (fieldsOf GenericIncludedElement.schema)).
    eapply decodeValue_struct_stops; [exact Hmember|exact Hfield|].
    apply decodeValue_ptr_stops; [by apply wrongShape_not_null|].
    by eapply decodeValue_unmarshaler_stops. }
  apply json_Unmarshal_stops in Hfails as [e He].
  exists e. unfold ParseFromJSON, unmarshalProfileAPIResponse.
  by rewrite He.
Qed.

End WrongShapeClaims.

(** In [GetProfile] the same failure comes back as
    [ErrResponseParseFailed]. *)
Lemma GetProfile_decode_failure `{EntityTypes} `{Collaborators}
    config publicIdentifier parsedBaseURL respBodyBytes err :
  AuthCredentials.LiAtCookie (Config.Auth config) <> "" ->
  AuthCredentials.CSRFToken (Config.Auth config) <> "" ->
  publicIdentifier <> "" ->
  url_Parse VoyagerBaseURL = inr parsedBaseURL ->
  (forall requestURL customHeaders,
     makeRequest config http_MethodGet requestURL customHeaders
     = inr (http_StatusOK, respBodyBytes)) ->
  unmarshalBytes ProfileAPIResponse.schema respBodyBytes = inl err ->
  GetProfile config publicIdentifier
  = inl (fmt_Errorf "%w: %v. Raw response: %s"
           [ArgW ErrResponseParseFailed; ArgV err; ArgOp (OpString respBodyBytes)]).
Proof.
  intros Hcookie Htoken Hid Hparse Hrequest Herr. unfold GetProfile.
  destruct (String.eqb_spec (AuthCredentials.LiAtCookie (Config.Auth config)) "");
    [done|].
  destruct (String.eqb_spec (AuthCredentials.CSRFToken (Config.Auth config)) "");
    [done|].
  destruct (String.eqb_spec publicIdentifier ""); [done|].
  cbn [orb]. unfold buildProfileGraphQLURL. rewrite Hparse.
  rewrite Hrequest. cbn [negb Z.eqb http_StatusOK].
  by rewrite Herr.
Qed.

(** The empty object as the title of a position. *)
Lemma C6_witness :
  FlexibleText_UnmarshalJSON (JObject [])
    = inl (fmt_Errorf "cannot unmarshal %s into FlexibleText" [ArgData (JObject [])])
  /\ exists e,
       unmarshalProfileAPIResponse emptyTitlePayload = inl e
       /\ @ParseFromJSON voyagerEntityTypes emptyTitlePayload
          = inl (fmt_Errorf "failed to unmarshal JSON: %w" [ArgW e]).
Proof.
  apply (@C6_wrong_shape_fails_the_resolve voyagerEntityTypes
           (JObject []) "title" "title"
           [ ("$type", JString "com.linkedin.voyager.dash.identity.profile.Position");
             ("title", JObject []);
             ("companyName", JString "Acme") ]
           [ JObject
               [ ("$type", JString "com.linkedin.voyager.dash.identity.profile.Profile");
                 ("entityUrn", JString "urn:li:fsd_profile:jane");
                 ("publicIdentifier", JString "jane-doe");
                 ("firstName", JString "Jane");
                 ("lastName", JString "Doe") ];
             JObject
               [ ("$type", JString "com.linkedin.voyager.dash.identity.profile.Position");
                 ("title", JObject []);
                 ("companyName", JString "Acme") ] ]
           "included").
  - simpl. constructor.
  - vm_compute. reflexivity.
  - simpl. right. left. reflexivity.
  - simpl. right. left. reflexivity.
  - vm_compute. reflexivity.
  - simpl. left. reflexivity.
Defined.

(** C6 as stated fails: the empty object is not decoded as an absent
    (empty) text, and the resolve call on a payload carrying it does not
    succeed. *)
Lemma C6_counterexample :
  ~ (FlexibleText_UnmarshalJSON (JObject []) = inr ""
     /\ exists profile,
          @ParseFromJSON voyagerEntityTypes emptyTitlePayload = inr profile).
Proof. intros [Hempty _]. vm_compute in Hempty. discriminate. Qed.

(** ** [GetProfile] *)

(** A profile returned by [GetProfile] is the one
    [convertAPIResponseToLinkedInProfile] makes of the decoded response:
    what holds of the conversion holds of the client call. *)
Lemma GetProfile_inr `{EntityTypes} `{Collaborators} config publicIdentifier profile :
  GetProfile config publicIdentifier = inr profile ->
  exists respBodyBytes v,
    unmarshalBytes ProfileAPIResponse.schema respBodyBytes = inr v
    /\ convertAPIResponseToLinkedInProfile (ProfileAPIResponse.ofVal v) publicIdentifier
       = inr profile.
Proof.
  unfold GetProfile.
  destruct (_ || _); [done|].
  destruct (String.eqb publicIdentifier ""); [done|].
  destruct (buildProfileGraphQLURL _ _ _) as [|requestURL]; [done|].
  destruct (makeRequest _ _ _ _) as [|[StatusCode respBodyBytes]]; [done|].
  destruct (negb _); [done|].
  destruct (unmarshalBytes _ _) as [|v] eqn:Hdecode; [done|].
  destruct (convertAPIResponseToLinkedInProfile _ _) as [|converted] eqn:Hconvert;
    [done|].
  intros [= <-]. by exists respBodyBytes, v.
Qed.

(** * Further properties of the resolver *)

Section ResolverMore.
Context `{EntityTypes}.

Import GenericIncludedElement.

(** ** The anchor is the first match *)

(** The search loop stops at the first entity that passes the test:
    everything before the anchor fails it. *)
Lemma findProfileEntity_first included publicIdentifier anchor :
  findProfileEntity included publicIdentifier = Some anchor ->
  exists before after,
    included = before ++ anchor :: after
    /\ Forall (fun item => isAnchor publicIdentifier item = false) before
    /\ isAnchor publicIdentifier anchor = true.
Proof.
  induction included as [|item rest IH]; simpl; [done|].
  change (String.eqb (Type_ item) EntityTypeProfile
          && String.eqb (PublicIdentifier item) publicIdentifier)
    with (isAnchor publicIdentifier item).
  destruct (isAnchor publicIdentifier item) eqn:Hitem.
  - intros [= <-]. by exists [], rest.
  - intros Hrest. destruct (IH Hrest) as (before & after & -> & Hbefore & Hanchor).
    exists (item :: before), after. repeat split; [|done]. by constructor.
Qed.

Lemma isAnchor_true publicIdentifier item :
  isAnchor publicIdentifier item = true <->
  Type_ item = EntityTypeProfile /\ PublicIdentifier item = publicIdentifier.
Proof.
  unfold isAnchor. rewrite andb_true_iff.
  by rewrite !String.eqb_eq.
Qed.

(** A resolved profile carries the identifier that was asked for. *)
Lemma parseProfileFromAPIResponse_identity apiResponse publicIdentifier profile :
  parseProfileFromAPIResponse apiResponse publicIdentifier = inr profile ->
  LinkedInProfile.PublicIdentifier profile = publicIdentifier
  /\ LinkedInProfile.ProfileURL profile
     = "https://www.linkedin.com/in/" +:+ publicIdentifier +:+ "/".
Proof.
  unfold parseProfileFromAPIResponse.
  destruct (findProfileEntity _ _) as [anchor|] eqn:Hfind; [|done].
  intros [= <-].
  apply findProfileEntity_Some in Hfind as [_ Hanchor].
  apply isAnchor_true in Hanchor as [_ Hid]. by split.
Qed.

(** X1.  The profile that comes back is the one that was asked for: it
    carries the requested identifier and the profile URL made of it, and
    its URN, names and headline are those of the first profile entity of
    the included array with that identifier, even when a later entity has
    the same identifier. *)
Theorem resolved_profile_is_first_match apiResponse publicIdentifier profile :
  parseProfileFromAPIResponse apiResponse publicIdentifier = inr profile ->
  LinkedInProfile.PublicIdentifier profile = publicIdentifier
  /\ LinkedInProfile.ProfileURL profile
     = "https://www.linkedin.com/in/" +:+ publicIdentifier +:+ "/"
  /\ exists before anchor after,
       ProfileAPIResponse.Included apiResponse = before ++ anchor :: after
       /\ Forall (fun item =>
                    ~ (Type_ item = EntityTypeProfile
                       /\ PublicIdentifier item = publicIdentifier)) before
       /\ Type_ anchor = EntityTypeProfile
       /\ PublicIdentifier anchor = publicIdentifier
       /\ LinkedInProfile.URN profile = EntityURN anchor
       /\ LinkedInProfile.FirstName profile = FirstName anchor
       /\ LinkedInProfile.LastName profile = LastName anchor
       /\ LinkedInProfile.Headline profile = Headline anchor.
Proof.
  unfold parseProfileFromAPIResponse.
  destruct (findProfileEntity _ _) as [anchor|] eqn:Hfind; [|done].
  intros [= <-].
  apply findProfileEntity_first in Hfind
    as (before & after & Hsplit & Hbefore & Hanchor).
  apply isAnchor_true in Hanchor as [Htype Hid].
  split; [exact Hid|]. split; [done|].
  exists before, anchor, after. repeat split; try done.
  eapply Forall_impl; [exact Hbefore|].
  intros item Hitem Htrue. apply isAnchor_true in Htrue. congruence.
Qed.

(** ** What the resolver never fills in *)





(** ** [extractPublicIdentifierFromResponse] and [ParseFromJSON] *)

(** The extracted identifier is empty exactly when no profile entity has
    one. *)
Lemma extractPublicIdentifier_loop_empty included :
  extractPublicIdentifier_loop included = "" <->
  Forall (fun item => ~ (Type_ item = EntityTypeProfile /\ PublicIdentifier item <> ""))
    included.
Proof.
  induction included as [|item rest IH]; simpl; [done|].
  destruct (String.eqb_spec (Type_ item) EntityTypeProfile) as [Htype|Htype];
    [destruct (String.eqb_spec (PublicIdentifier item) "") as [Hid|Hid]|]; simpl.
  - rewrite IH. split.
    + intros Hrest. constructor; [|done]. by intros [_ ?].
    + by inversion 1.
  - split; [done|]. inversion 1 as [|? ? Hitem]; subst. by destruct Hitem.
  - rewrite IH. split.
    + intros Hrest. constructor; [|done]. by intros [? _].
    + by inversion 1.
Qed.

(** An extracted identifier always leads back to an anchor. *)
Lemma extractPublicIdentifier_loop_anchor included :
  extractPublicIdentifier_loop included <> "" ->
  exists anchor,
    findProfileEntity included (extractPublicIdentifier_loop included) = Some anchor.
Proof.
  induction included as [|item rest IH]; simpl; [done|].
  destruct (String.eqb_spec (Type_ item) EntityTypeProfile) as [Htype|Htype];
    [destruct (String.eqb_spec (PublicIdentifier item) "") as [Hid|Hid]|]; simpl.
  - intros Hne. rewrite Hid.
    destruct (String.eqb_spec "" (extractPublicIdentifier_loop rest)); [congruence|].
    by apply IH.
  - intros _. rewrite String.eqb_refl. eauto.
  - by apply IH.
Qed.

(** With an identifier extracted, the remaining steps of [ParseFromJSON]
    succeed. *)
Lemma ParseFromJSON_found jsonData apiResponse :
  unmarshalProfileAPIResponse jsonData = inr apiResponse ->
  extractPublicIdentifierFromResponse apiResponse <> "" ->
  exists profile, ParseFromJSON jsonData = inr profile.
Proof.
  intros Hdecode Hfound. unfold ParseFromJSON. rewrite Hdecode.
  unfold extractPublicIdentifierFromResponse in *.
  destruct (String.eqb_spec
              (extractPublicIdentifier_loop (ProfileAPIResponse.Included apiResponse)) "");
    [done|].
  destruct (extractPublicIdentifier_loop_anchor _ Hfound) as [anchor Hanchor].
  unfold parseProfileFromAPIResponse. rewrite Hanchor.
  apply findProfileEntity_Some in Hanchor as [_ Hanchor].
  apply isAnchor_true in Hanchor as [_ Hid].
  unfold validateProfileData. cbn.
  rewrite Hid.
  destruct (String.eqb_spec
              (extractPublicIdentifier_loop (ProfileAPIResponse.Included apiResponse)) "");
    [done|]. eauto.
Qed.

(** X3.  [ParseFromJSON] returns a profile exactly when the payload decodes
    and some profile entity of its included array has a non-empty public
    identifier.  The profile is then the one the client conversion gives
    for the identifier of the first such entity. *)
Theorem ParseFromJSON_succeeds_iff jsonData :
  (exists profile, ParseFromJSON jsonData = inr profile) <->
  (exists apiResponse item,
     unmarshalProfileAPIResponse jsonData = inr apiResponse
     /\ In item (ProfileAPIResponse.Included apiResponse)
     /\ Type_ item = EntityTypeProfile /\ PublicIdentifier item <> "").
Proof.
  unfold ParseFromJSON.
  destruct (unmarshalProfileAPIResponse jsonData) as [err|apiResponse].
  { split; [by intros [? ?]|]. by intros (? & ? & ? & _). }
  unfold extractPublicIdentifierFromResponse.
  destruct (String.eqb_spec
              (extractPublicIdentifier_loop (ProfileAPIResponse.Included apiResponse)) "")
    as [Hempty|Hfound].
  - split; [by intros [? ?]|].
    intros (r & item & [= <-] & Hin & Htype & Hid).
    apply extractPublicIdentifier_loop_empty in Hempty.
    rewrite List.Forall_forall in Hempty. by destruct (Hempty item Hin).
  - split.
    + intros _.
      destruct (extractPublicIdentifier_loop_anchor _ Hfound) as [anchor Hanchor].
      apply findProfileEntity_Some in Hanchor as [Hin Hanchor].
      apply isAnchor_true in Hanchor as [Htype Hid].
      exists apiResponse, anchor. repeat split; try done. congruence.
    + intros _.
      destruct (extractPublicIdentifier_loop_anchor _ Hfound) as [anchor Hanchor].
      unfold parseProfileFromAPIResponse. rewrite Hanchor.
      apply findProfileEntity_Some in Hanchor as [_ Hanchor].
      apply isAnchor_true in Hanchor as [_ Hid].
      unfold validateProfileData. cbn.
      rewrite Hid.
      destruct (String.eqb_spec
                  (extractPublicIdentifier_loop (ProfileAPIResponse.Included apiResponse)) "");
        [done|]. eauto.
Qed.

(** X4.  [ParseFromJSON] fails in two ways only: the payload does not decode,
    or no identifier can be extracted.  Its two other error returns
    ("failed to parse profile", "profile validation failed") are never
    taken. *)
Theorem ParseFromJSON_errors jsonData err :
  ParseFromJSON jsonData = inl err ->
  (exists cause,
     unmarshalProfileAPIResponse jsonData = inl cause
     /\ err = fmt_Errorf "failed to unmarshal JSON: %w" [ArgW cause])
  \/ ((exists apiResponse,
         unmarshalProfileAPIResponse jsonData = inr apiResponse
         /\ extractPublicIdentifierFromResponse apiResponse = "")
      /\ err = fmt_Errorf "could not extract publicIdentifier from response" []).
Proof.
  intros Herr.
  destruct (unmarshalProfileAPIResponse jsonData) as [cause|apiResponse] eqn:Hdecode.
  { left. exists cause. split; [done|].
    unfold ParseFromJSON in Herr. rewrite Hdecode in Herr. congruence. }
  right.
  destruct (String.eqb_spec (extractPublicIdentifierFromResponse apiResponse) "")
    as [Hempty|Hfound].
  { split; [by exists apiResponse|].
    unfold ParseFromJSON in Herr. rewrite Hdecode, Hempty in Herr.
    cbn in Herr. congruence. }
  exfalso.
  destruct (ParseFromJSON_found jsonData apiResponse Hdecode Hfound) as [profile Hok].
  congruence.
Qed.

(** X5.  What [ParseFromJSON] returns is what the client conversion returns
    for the extracted identifier, which the profile then carries. *)
Theorem ParseFromJSON_is_conversion jsonData profile :
  ParseFromJSON jsonData = inr profile ->
  exists apiResponse,
    unmarshalProfileAPIResponse jsonData = inr apiResponse
    /\ convertAPIResponseToLinkedInProfile apiResponse
         (extractPublicIdentifierFromResponse apiResponse) = inr profile
    /\ LinkedInProfile.PublicIdentifier profile
       = extractPublicIdentifierFromResponse apiResponse.
Proof.
  unfold ParseFromJSON.
  destruct (unmarshalProfileAPIResponse jsonData) as [|apiResponse]; [done|].
  destruct (String.eqb _ ""); [done|].
  unfold convertAPIResponseToLinkedInProfile.
  destruct (parseProfileFromAPIResponse _ _) as [|assembled] eqn:Hparse; [done|].
  destruct (validateProfileData _) as [|validated] eqn:Hvalid; [done|].
  intros [= Heq]. subst. exists apiResponse. repeat split.
  { by rewrite Hparse, Hvalid. }
  apply validateProfileData_inr in Hvalid as (_ & Hid & _). rewrite Hid.
  by apply parseProfileFromAPIResponse_identity in Hparse as [-> _].
Qed.

End ResolverMore.

(** Two entities share the identifier [sam]: the first one is the
    profile. *)
Lemma resolved_profile_is_first_match_witness :
  @parseProfileFromAPIResponse voyagerEntityTypes twinsResponse "sam" = inr twinsProfile
  /\ LinkedInProfile.PublicIdentifier twinsProfile = "sam"
  /\ LinkedInProfile.ProfileURL twinsProfile = "https://www.linkedin.com/in/sam/"
  /\ LinkedInProfile.LastName twinsProfile = "First".
Proof.
  split; [vm_compute; reflexivity|].
  destruct (@resolved_profile_is_first_match voyagerEntityTypes
              twinsResponse "sam" twinsProfile ltac:(vm_compute; reflexivity))
    as (Hid & Hurl & _).
  split; [exact Hid|]. split; [exact Hurl|]. vm_compute; reflexivity.
Defined.


(** The anonymous payload decodes, and no identifier can be extracted
    from it. *)
Lemma ParseFromJSON_errors_witness :
  @ParseFromJSON voyagerEntityTypes anonymousPayload
  = inl (fmt_Errorf "could not extract publicIdentifier from response" [])
  /\ ((exists cause,
         unmarshalProfileAPIResponse anonymousPayload = inl cause
         /\ fmt_Errorf "could not extract publicIdentifier from response" []
            = fmt_Errorf "failed to unmarshal JSON: %w" [ArgW cause])
      \/ ((exists apiResponse,
             unmarshalProfileAPIResponse anonymousPayload = inr apiResponse
             /\ @extractPublicIdentifierFromResponse voyagerEntityTypes apiResponse = "")
          /\ fmt_Errorf "could not extract publicIdentifier from response" []
             = fmt_Errorf "could not extract publicIdentifier from response" [])).
Proof.
  split; [vm_compute; reflexivity|].
  apply (@ParseFromJSON_errors voyagerEntityTypes anonymousPayload).
  vm_compute; reflexivity.
Defined.

Lemma ParseFromJSON_is_conversion_witness :
  @ParseFromJSON voyagerEntityTypes janeDoePayload = inr janeDoeProfile
  /\ exists apiResponse,
       unmarshalProfileAPIResponse janeDoePayload = inr apiResponse
       /\ @convertAPIResponseToLinkedInProfile voyagerEntityTypes apiResponse
            (@extractPublicIdentifierFromResponse voyagerEntityTypes apiResponse)
          = inr janeDoeProfile
       /\ LinkedInProfile.PublicIdentifier janeDoeProfile
          = @extractPublicIdentifierFromResponse voyagerEntityTypes apiResponse.
Proof.
  split; [vm_compute; reflexivity|].
  apply (@ParseFromJSON_is_conversion voyagerEntityTypes janeDoePayload janeDoeProfile).
  vm_compute; reflexivity.
Defined.

(** * The sanitizer *)

(** ** Trimming is a projection *)

Lemma trimLeftSpace_idem s : trimLeftSpace (trimLeftSpace s) = trimLeftSpace s.
Proof.
  functional induction (trimLeftSpace s); try done; simpl.
  - by rewrite e0.
  - by rewrite e0, e2.
  - by rewrite e0, e2, e4.
Qed.

Lemma trimLeftSpaceRev_idem r :
  trimLeftSpaceRev (trimLeftSpaceRev r) = trimLeftSpaceRev r.
Proof.
  functional induction (trimLeftSpaceRev r); try done; simpl.
  - by rewrite e0.
  - by rewrite e0, e2.
  - by rewrite e0, e2, e4.
Qed.

(** What is trimmed from the front is a prefix. *)
Lemma trimLeftSpace_suffix s : exists dropped, s = dropped +:+ trimLeftSpace s.
Proof.
  functional induction (trimLeftSpace s);
    try (by exists "");
    destruct IHs0 as [dropped Hdropped].
  - exists (String c1 dropped). simpl. by rewrite <- Hdropped.
  - exists (String c1 (String c2 dropped)). simpl. by rewrite <- Hdropped.
  - exists (String c1 (String c2 (String c3 dropped))). simpl. by rewrite <- Hdropped.
Qed.

Lemma trimLeftSpaceRev_suffix r : exists dropped, r = dropped ++ trimLeftSpaceRev r.
Proof.
  functional induction (trimLeftSpaceRev r);
    try (by exists []);
    destruct IHl as [dropped Hdropped].
  - exists (c1 :: dropped). simpl. by rewrite <- Hdropped.
  - exists (c1 :: c2 :: dropped). simpl. by rewrite <- Hdropped.
  - exists (c1 :: c2 :: c3 :: dropped). simpl. by rewrite <- Hdropped.
Qed.

Lemma string_of_list_ascii_app a b :
  string_of_list_ascii (a ++ b) = string_of_list_ascii a +:+ string_of_list_ascii b.
Proof. induction a as [|c a IH]; simpl; [done|]. by rewrite IH. Qed.

(** What is trimmed from the back is a suffix. *)
Lemma trimRightSpace_prefix s : exists dropped, s = trimRightSpace s +:+ dropped.
Proof.
  unfold trimRightSpace.
  destruct (trimLeftSpaceRev_suffix (rev (list_ascii_of_string s))) as [dropped Hdropped].
  exists (string_of_list_ascii (rev dropped)).
  rewrite <- string_of_list_ascii_app, <- rev_app_distr, <- Hdropped, rev_involutive.
  by rewrite string_of_list_ascii_of_string.
Qed.

Ltac too_long H :=
  match type of H with
  | trimLeftSpace ?r = _ =>
      let Hl := fresh in
      pose proof (trimLeftSpace_length r) as Hl; rewrite H in Hl; simpl in Hl; lia
  | trimLeftSpaceRev ?r = _ =>
      let Hl := fresh in
      pose proof (trimLeftSpaceRev_length r) as Hl; rewrite H in Hl; simpl in Hl; lia
  end.

(** A string without leading white space has no prefix with leading
    white space. *)
Lemma trimLeftSpace_prefix_fixed s t :
  trimLeftSpace (s +:+ t) = s +:+ t -> trimLeftSpace s = s.
Proof.
  destruct s as [|c1 [|c2 [|c3 s]]]; [done|..];
    rewrite ?append_cons, ?append_nil_l, !(trimLeftSpace_cons c1).
  - destruct (asciiSpace c1); [intros Hfix; exfalso; too_long Hfix|done].
  - destruct (asciiSpace c1); [intros Hfix; exfalso; too_long Hfix|].
    destruct (isSpace2 c1 c2); [intros Hfix; exfalso; too_long Hfix|done].
  - destruct (asciiSpace c1); [intros Hfix; exfalso; too_long Hfix|].
    destruct (isSpace2 c1 c2); [intros Hfix; exfalso; too_long Hfix|].
    destruct (isSpace3 c1 c2 c3); [intros Hfix; exfalso; too_long Hfix|done].
Qed.

Lemma trimRightSpace_idem s : trimRightSpace (trimRightSpace s) = trimRightSpace s.
Proof.
  unfold trimRightSpace.
  by rewrite list_ascii_of_string_of_list_ascii, rev_involutive, trimLeftSpaceRev_idem.
Qed.

Lemma strings_TrimSpace_idem s :
  strings_TrimSpace (strings_TrimSpace s) = strings_TrimSpace s.
Proof.
  unfold strings_TrimSpace.
  assert (trimLeftSpace (trimRightSpace (trimLeftSpace s))
          = trimRightSpace (trimLeftSpace s)) as ->.
  { destruct (trimRightSpace_prefix (trimLeftSpace s)) as [dropped Hdropped].
    apply (trimLeftSpace_prefix_fixed _ dropped).
    rewrite <- Hdropped. apply trimLeftSpace_idem. }
  apply trimRightSpace_idem.
Qed.

(** ** NUL bytes *)

Lemma freeOf_append c a b : freeOf c (a +:+ b) = freeOf c a && freeOf c b.
Proof.
  induction a as [|c' a IH]; [done|].
  rewrite append_cons. simpl. by rewrite IH, andb_assoc.
Qed.

Lemma strings_ReplaceAll_NUL_free s : freeOf zero (strings_ReplaceAll_NUL s) = true.
Proof.
  induction s as [|c s IH]; [done|]. simpl.
  destruct (Ascii.eqb c zero) eqn:Hc; [done|]. simpl. by rewrite Hc.
Qed.

Lemma strings_ReplaceAll_NUL_fixed s :
  freeOf zero s = true -> strings_ReplaceAll_NUL s = s.
Proof.
  induction s as [|c s IH]; [done|]. simpl.
  destruct (Ascii.eqb c zero); [done|]. simpl. by intros ->%IH.
Qed.

Lemma strings_TrimSpace_free c s :
  freeOf c s = true -> freeOf c (strings_TrimSpace s) = true.
Proof.
  unfold strings_TrimSpace. intros Hfree.
  destruct (trimLeftSpace_suffix s) as [front Hfront].
  destruct (trimRightSpace_prefix (trimLeftSpace s)) as [back Hback].
  rewrite Hfront, Hback, !freeOf_append, !andb_true_iff in Hfree. tauto.
Qed.

(** ** [sanitizeTextString] *)

Lemma sanitizeTextString_free s : freeOf zero (sanitizeTextString s) = true.
Proof. apply strings_TrimSpace_free, strings_ReplaceAll_NUL_free. Qed.

Lemma sanitizeTextString_trimmed s :
  strings_TrimSpace (sanitizeTextString s) = sanitizeTextString s.
Proof. apply strings_TrimSpace_idem. Qed.

Lemma sanitizeTextString_idem s :
  sanitizeTextString (sanitizeTextString s) = sanitizeTextString s.
Proof.
  unfold sanitizeTextString at 1.
  rewrite (strings_ReplaceAll_NUL_fixed _ (sanitizeTextString_free s)).
  apply sanitizeTextString_trimmed.
Qed.

(** X6.  A sanitized string holds no NUL byte and has no white space left at
    either end (trimming it again changes nothing), and sanitizing is a
    projection: a second pass changes nothing. *)
Theorem sanitizeTextString_clean s :
  freeOf zero (sanitizeTextString s) = true
  /\ strings_TrimSpace (sanitizeTextString s) = sanitizeTextString s
  /\ sanitizeTextString (sanitizeTextString s) = sanitizeTextString s.
Proof.
  split; [apply sanitizeTextString_free|].
  split; [apply sanitizeTextString_trimmed|apply sanitizeTextString_idem].
Qed.

(** X7.  The strings that sanitizing leaves alone are exactly those without a
    NUL byte and without outer white space. *)
Theorem sanitizeTextString_fixed_iff s :
  sanitizeTextString s = s <-> freeOf zero s = true /\ strings_TrimSpace s = s.
Proof.
  split.
  - intros <-. split; [apply sanitizeTextString_free|apply sanitizeTextString_trimmed].
  - intros [Hfree Htrim]. unfold sanitizeTextString.
    by rewrite strings_ReplaceAll_NUL_fixed.
Qed.

(** ** [validateProfileData] *)

Lemma validateProfileData_again profile validated :
  validateProfileData (Some profile) = inr validated ->
  validateProfileData (Some validated) = inr validated.
Proof.
  unfold validateProfileData at 1.
  destruct (String.eqb (LinkedInProfile.PublicIdentifier profile) "") eqn:Hid; [done|].
  intros [= <-]. unfold validateProfileData.
  pose proof sanitizeTextString_idem as Hidem.
  revert Hidem. generalize sanitizeTextString. intros sanitize Hidem.
  destruct profile. cbn in *. rewrite Hid. cbn. by rewrite !Hidem.
Qed.

(** X8.  Validation is a projection too: a validated profile passes
    validation unchanged.  Its five text fields are sanitized. *)
Theorem validateProfileData_idempotent profile validated :
  validateProfileData (Some profile) = inr validated ->
  validateProfileData (Some validated) = inr validated
  /\ Forall (fun text => sanitizeTextString text = text)
       [ LinkedInProfile.FirstName validated; LinkedInProfile.LastName validated;
         LinkedInProfile.FullName validated; LinkedInProfile.Headline validated;
         LinkedInProfile.Summary validated ].
Proof.
  intros Hvalid. split; [by apply (validateProfileData_again profile)|].
  unfold validateProfileData in Hvalid.
  destruct (String.eqb (LinkedInProfile.PublicIdentifier profile) ""); [done|].
  injection Hvalid as <-.
  repeat constructor; apply sanitizeTextString_idem.
Qed.

Lemma validateProfileData_idempotent_witness :
  validateProfileData (Some janeDoeAssembled) = inr janeDoeProfile
  /\ validateProfileData (Some janeDoeProfile) = inr janeDoeProfile
  /\ Forall (fun text => sanitizeTextString text = text)
       [ LinkedInProfile.FirstName janeDoeProfile; LinkedInProfile.LastName janeDoeProfile;
         LinkedInProfile.FullName janeDoeProfile; LinkedInProfile.Headline janeDoeProfile;
         LinkedInProfile.Summary janeDoeProfile ].
Proof.
  split; [vm_compute; reflexivity|].
  apply (validateProfileData_idempotent janeDoeAssembled janeDoeProfile).
  vm_compute; reflexivity.
Defined.

(** * Further properties of the client *)

(** ** Telling the errors apart *)

Lemma errors_Is_New msg target :
  errors_Is (errors_New msg) target <-> target = errors_New msg.
Proof. split; [by inversion 1|intros ->; constructor]. Qed.

(** An error that wraps one sentinel is that sentinel and no other. *)
Lemma errors_Is_wraps format msg rest msg' :
  (forall e, In (ArgW e) rest -> False) ->
  errors_Is (fmt_Errorf format (ArgW (errors_New msg) :: rest)) (errors_New msg')
  <-> msg' = msg.
Proof.
  intros Hrest. split.
  - intros His. apply errors_Is_wrapping in His as [?|His]; [done| |done].
    apply errors_Is_New in His. congruence.
  - intros ->. eapply Is_wrapped; [by left|constructor].
Qed.

Ltac no_more_wrapped := intros ? Hin; repeat (destruct Hin as [?|Hin]; [done|]); done.

Section ClientMore.
Context `{EntityTypes} `{Collaborators}.

(** The error for a status code wraps [ErrUnauthorized] for 401 and 403,
    [ErrRateLimited] for 429, and [ErrRequestFailed] for every other
    code. *)
Lemma statusError_classifies StatusCode respBodyBytes :
  (errors_Is (statusError StatusCode respBodyBytes) ErrUnauthorized
   <-> StatusCode = 401 \/ StatusCode = 403)
  /\ (errors_Is (statusError StatusCode respBodyBytes) ErrRateLimited
      <-> StatusCode = 429)
  /\ (errors_Is (statusError StatusCode respBodyBytes) ErrRequestFailed
      <-> StatusCode <> 401 /\ StatusCode <> 403 /\ StatusCode <> 429).
Proof.
  unfold statusError, http_StatusUnauthorized, http_StatusForbidden,
    http_StatusTooManyRequests, ErrUnauthorized, ErrRateLimited, ErrRequestFailed.
  destruct (Z.eqb_spec StatusCode 401); [|destruct (Z.eqb_spec StatusCode 403);
    [|destruct (Z.eqb_spec StatusCode 429)]]; cbn [orb];
    rewrite !errors_Is_wraps by no_more_wrapped;
    repeat split; try done; try lia; intros; try lia; try done; tauto.
Qed.

Lemma SearchProfiles_auth_iff config args :
  SearchProfiles config args = inl ErrAuthMissing <-> credentialsMissing config.
Proof.
  unfold credentialsMissing, SearchProfiles.
  destruct (String.eqb_spec (AuthCredentials.LiAtCookie (Config.Auth config)) "")
    as [Hcookie|Hcookie]; [by split; auto|].
  destruct (String.eqb_spec (AuthCredentials.CSRFToken (Config.Auth config)) "")
    as [Htoken|Htoken]; [by split; auto|].
  cbn [orb]. split; [|tauto]. intros Hresult; exfalso.
  destruct (String.eqb _ ""); [done|].
  destruct (buildGraphQLURL _ _ _); [done|].
  destruct (makeRequest _ _ _ _) as [|[StatusCode respBodyBytes]]; [done|].
  destruct (negb _).
  { unfold statusError in Hresult.
    by destruct (_ || _); [|destruct (_ =? _)]. }
  destruct (unmarshalBytes _ _); [done|]. by destruct (_ =? 0).
Qed.

Lemma GetProfile_auth_iff config publicIdentifier :
  GetProfile config publicIdentifier = inl ErrAuthMissing <-> credentialsMissing config.
Proof.
  unfold credentialsMissing, GetProfile.
  destruct (String.eqb_spec (AuthCredentials.LiAtCookie (Config.Auth config)) "")
    as [Hcookie|Hcookie]; [by split; auto|].
  destruct (String.eqb_spec (AuthCredentials.CSRFToken (Config.Auth config)) "")
    as [Htoken|Htoken]; [by split; auto|].
  cbn [orb]. split; [|tauto]. intros Hresult; exfalso.
  destruct (String.eqb _ ""); [done|].
  destruct (buildProfileGraphQLURL _ _ _); [done|].
  destruct (makeRequest _ _ _ _) as [|[StatusCode respBodyBytes]]; [done|].
  destruct (negb _).
  { unfold statusError in Hresult.
    by destruct (_ || _); [|destruct (_ =? _)]. }
  destruct (unmarshalBytes _ _); [done|].
  by destruct (convertAPIResponseToLinkedInProfile _ _).
Qed.

(** X9.  Both operations return [ErrAuthMissing] exactly when the session
    cookie or the CSRF token is empty, whatever else they are given: the
    credentials are checked first, the JSESSIONID is not checked at all,
    and no later failure is reported as [ErrAuthMissing]. *)
Theorem credentials_checked_first config args publicIdentifier :
  (SearchProfiles config args = inl ErrAuthMissing <-> credentialsMissing config)
  /\ (GetProfile config publicIdentifier = inl ErrAuthMissing
      <-> credentialsMissing config).
Proof. split; [apply SearchProfiles_auth_iff|apply GetProfile_auth_iff]. Qed.

(** X10.  Every error of [SearchProfiles] is, or wraps, exactly one of the
    sentinels of the package, and that one is never [ErrNoProfilesFound]:
    a search without results is not an error. *)
Theorem SearchProfiles_error_taxonomy config args err :
  SearchProfiles config args = inl err ->
  exists sentinel,
    In sentinel sentinels
    /\ sentinel <> ErrNoProfilesFound
    /\ errors_Is err sentinel
    /\ forall other, In other sentinels -> errors_Is err other -> other = sentinel.
Proof.
  assert (forall format msg rest,
            (forall e, In (ArgW e) rest -> False) ->
            In (errors_New msg) sentinels ->
            errors_New msg <> ErrNoProfilesFound ->
            exists sentinel,
              In sentinel sentinels
              /\ sentinel <> ErrNoProfilesFound
              /\ errors_Is (fmt_Errorf format (ArgW (errors_New msg) :: rest)) sentinel
              /\ forall other, In other sentinels ->
                   errors_Is (fmt_Errorf format (ArgW (errors_New msg) :: rest)) other ->
                   other = sentinel) as Hwraps.
  { intros format msg rest Hrest Hin Hne. exists (errors_New msg).
    split; [done|]. split; [done|]. split; [by apply errors_Is_wraps|].
    intros other Hother His.
    apply errors_Is_wrapping in His as [->|His]; [|by apply errors_Is_New in His|done].
    exfalso. unfold sentinels in Hother.
    repeat (destruct Hother as [?|Hother]; [done|]). done. }
  assert (forall msg,
            In (errors_New msg) sentinels ->
            errors_New msg <> ErrNoProfilesFound ->
            exists sentinel,
              In sentinel sentinels
              /\ sentinel <> ErrNoProfilesFound
              /\ errors_Is (errors_New msg) sentinel
              /\ forall other, In other sentinels ->
                   errors_Is (errors_New msg) other -> other = sentinel) as Hself.
  { intros msg Hin Hne. exists (errors_New msg).
    split; [done|]. split; [done|]. split; [constructor|].
    intros other _ His. by apply errors_Is_New in His. }
  unfold SearchProfiles.
  destruct (_ || _).
  { intros [= <-]. apply Hself; [by left|done]. }
  destruct (String.eqb _ "").
  { intros [= <-]. apply Hself; [right; by left|done]. }
  destruct (buildGraphQLURL _ _ _).
  { intros [= <-]. apply Hwraps; [no_more_wrapped|do 2 right; by left|done]. }
  destruct (makeRequest _ _ _ _) as [|[StatusCode respBodyBytes]].
  { intros [= <-]. apply Hwraps; [no_more_wrapped|do 3 right; by left|done]. }
  destruct (negb _).
  { intros [= <-]. unfold statusError.
    destruct (_ || _); [|destruct (_ =? _)]; apply Hwraps;
      try no_more_wrapped; try done.
    - do 4 right; by left.
    - do 5 right; by left.
    - do 3 right; by left. }
  destruct (unmarshalBytes _ _).
  { intros [= <-]. apply Hwraps; [no_more_wrapped|do 6 right; by left|done]. }
  by destruct (_ =? 0).
Qed.

End ClientMore.

(** A rate-limited search: the error wraps [ErrRateLimited] and nothing
    else. *)
Lemma SearchProfiles_error_taxonomy_witness :
  @SearchProfiles rateLimitedCollaborators exampleConfig investorArgs
  = inl (statusError 429 "slow down")
  /\ exists sentinel,
       In sentinel sentinels
       /\ sentinel <> ErrNoProfilesFound
       /\ errors_Is (statusError 429 "slow down") sentinel
       /\ forall other, In other sentinels ->
            errors_Is (statusError 429 "slow down") other -> other = sentinel.
Proof.
  split; [vm_compute; reflexivity|].
  apply (@SearchProfiles_error_taxonomy rateLimitedCollaborators
           exampleConfig investorArgs).
  vm_compute; reflexivity.
Defined.

(** ** The results of a search *)

Section SearchResults.
Context `{Collaborators}.

Import SearchIncludedElement.

(** The first pass keeps, for each URN, the data of the last profile
    entity with that URN. *)
Lemma collectProfileData_lookup included urn :
  collectProfileData included !! urn
  = (fun item =>
       {| IncludedProfile.EntityURN := EntityURN item;
          IncludedProfile.PublicIdentifier := PublicIdentifier item;
          IncludedProfile.FirstName := FirstName item;
          IncludedProfile.LastName := LastName item;
          IncludedProfile.Headline := Headline item |})
    <$> last (List.filter (isLinkedProfile urn) included).
Proof.
  unfold collectProfileData.
  enough (forall start : gmap string IncludedProfile.t,
            fold_left
              (fun (profileDataMap : gmap string IncludedProfile.t) item =>
                 if String.eqb (Type_ item)
                      "com.linkedin.voyager.dash.identity.profile.Profile"
                 then <[EntityURN item :=
                          {| IncludedProfile.EntityURN := EntityURN item;
                             IncludedProfile.PublicIdentifier := PublicIdentifier item;
                             IncludedProfile.FirstName := FirstName item;
                             IncludedProfile.LastName := LastName item;
                             IncludedProfile.Headline := Headline item |}]>
                        profileDataMap
                 else profileDataMap)
              included start !! urn
            = match last (List.filter (isLinkedProfile urn) included) with
              | Some item =>
                  Some {| IncludedProfile.EntityURN := EntityURN item;
                          IncludedProfile.PublicIdentifier := PublicIdentifier item;
                          IncludedProfile.FirstName := FirstName item;
                          IncludedProfile.LastName := LastName item;
                          IncludedProfile.Headline := Headline item |}
              | None => start !! urn
              end) as Hfold.
  { rewrite Hfold. by destruct (last _). }
  induction included as [|item rest IH]; intros start; [done|].
  cbn [fold_left List.filter]. rewrite IH. unfold isLinkedProfile at 2.
  destruct (String.eqb (Type_ item) _); cbn [andb]; [|done].
  destruct (String.eqb_spec (EntityURN item) urn) as [<-|Hurn].
  - rewrite last_cons. destruct (last _); [done|]. by rewrite lookup_insert_eq.
  - destruct (last _); [done|]. by rewrite lookup_insert_ne.
Qed.

(** The second pass makes one profile of every search result, in the
    order of the included array. *)
Lemma buildProfiles_with included items (profileDataMap : gmap string IncludedProfile.t) :
  (forall urn,
     IncludedProfile.PublicIdentifier <$> profileDataMap !! urn
     = PublicIdentifier <$> last (List.filter (isLinkedProfile urn) included)) ->
  buildProfiles items profileDataMap
  = map (searchResultOf included) (List.filter isSearchResult items).
Proof.
  intros Hlookup. unfold buildProfiles.
  match goal with
  | |- fold_left ?step _ _ = _ =>
      assert (forall profiles item,
                step profiles item
                = if isSearchResult item
                  then profiles ++ [searchResultOf included item] else profiles) as Hstep
  end.
  { intros profiles item.
    unfold isSearchResult, searchResultOf, linkedPublicIdentifier.
    specialize (Hlookup (TrackingURN item)).
    destruct (String.eqb (Type_ item) _); cbn [andb]; [|done].
    destruct (Title item), (PrimarySubtitle item), (SecondarySubtitle item); try done.
    destruct (profileDataMap !! TrackingURN item) as [linkedProfileData|],
             (last _) as [linked|]; try done; cbn in Hlookup.
    - injection Hlookup as Hlookup. rewrite <- Hlookup.
      destruct (String.eqb_spec (PublicIdentifier item) "") as [Hown|Hown]; cbn.
      + by destruct (String.eqb_spec (IncludedProfile.PublicIdentifier linkedProfileData) "")
          as [->|].
      + by destruct (String.eqb_spec (PublicIdentifier item) "").
    - by destruct (String.eqb_spec (PublicIdentifier item) ""). }
  match goal with
  | |- fold_left ?step _ _ = _ =>
      enough (forall profiles,
                fold_left step items profiles
                = profiles ++ map (searchResultOf included)
                                (List.filter isSearchResult items)) as Hfold
        by apply (Hfold [])
  end.
  induction items as [|item rest IH]; intros profiles; [by rewrite app_nil_r|].
  cbn [fold_left List.filter]. rewrite IH, Hstep.
  destruct (isSearchResult item); [|done]. cbn. by rewrite <- app_assoc.
Qed.

Lemma buildProfiles_eq included :
  buildProfiles included (collectProfileData included)
  = map (searchResultOf included) (List.filter isSearchResult included).
Proof.
  apply buildProfiles_with. intros urn.
  rewrite collectProfileData_lookup. by destruct (last _).
Qed.

(** X11.  A successful search made one request, got [200] and a body that
    decodes, and returns one profile for each result entity of the
    answer that has its title and both subtitles, in the order of the
    answer.  A profile carries the texts of its entity, and as public
    identifier the entity's own or else that of the last profile entity
    whose URN is the entity's tracking URN; nothing else is filled in. *)
Theorem SearchProfiles_results config args profiles :
  SearchProfiles config args = inr profiles ->
  exists requestURL respBodyBytes v,
    buildGraphQLURL VoyagerBaseURL DefaultSearchQueryID (searchVariables args)
    = inr requestURL
    /\ makeRequest config http_MethodGet requestURL (searchHeaders args)
       = inr (http_StatusOK, respBodyBytes)
    /\ unmarshalBytes SearchAPIResponse.schema respBodyBytes = inr v
    /\ profiles
       = map (searchResultOf (SearchAPIResponse.Included (SearchAPIResponse.ofVal v)))
           (List.filter isSearchResult
              (SearchAPIResponse.Included (SearchAPIResponse.ofVal v))).
Proof.
  unfold SearchProfiles.
  destruct (_ || _); [done|].
  destruct (String.eqb _ ""); [done|].
  destruct (buildGraphQLURL _ _ _) as [|requestURL]; [done|].
  destruct (makeRequest _ _ _ _) as [|[StatusCode respBodyBytes]] eqn:Hrequest; [done|].
  destruct (Z.eqb_spec StatusCode http_StatusOK) as [->|]; [|done]. cbn [negb].
  destruct (unmarshalBytes _ _) as [|v] eqn:Hdecode; [done|].
  rewrite buildProfiles_eq. intros Hresult.
  exists requestURL, respBodyBytes, v. repeat split; try done.
  destruct (Z.eqb_spec (Z.of_nat (length
              (map (searchResultOf (SearchAPIResponse.Included (SearchAPIResponse.ofVal v)))
                 (List.filter isSearchResult
                    (SearchAPIResponse.Included (SearchAPIResponse.ofVal v)))))) 0)
    as [Hlen|Hlen]; injection Hresult as <-; [|done].
  destruct (map _ _); [done|]. simpl in Hlen. lia.
Qed.

End SearchResults.

(** Of the four entities of the sample answer two are results with all
    their texts: Ada, who gets the identifier of her profile entity, and
    Bob, who has his own. *)
Lemma SearchProfiles_results_witness :
  @SearchProfiles searchCollaborators exampleConfig investorArgs = inr searchResults
  /\ map LinkedInProfile.PublicIdentifier searchResults = ["ada-l"; "bob-b"]
  /\ exists requestURL respBodyBytes v,
       @buildGraphQLURL searchCollaborators VoyagerBaseURL DefaultSearchQueryID
         (searchVariables investorArgs) = inr requestURL
       /\ @makeRequest searchCollaborators exampleConfig http_MethodGet requestURL
            (searchHeaders investorArgs) = inr (http_StatusOK, respBodyBytes)
       /\ @unmarshalBytes searchCollaborators SearchAPIResponse.schema respBodyBytes
          = inr v
       /\ searchResults
          = map (searchResultOf (SearchAPIResponse.Included (SearchAPIResponse.ofVal v)))
              (List.filter isSearchResult
                 (SearchAPIResponse.Included (SearchAPIResponse.ofVal v))).
Proof.
  split; [vm_compute; reflexivity|]. split; [vm_compute; reflexivity|].
  apply (@SearchProfiles_results searchCollaborators exampleConfig investorArgs).
  vm_compute; reflexivity.
Defined.

(** ** The status of the answer *)

Section Status.
Context `{EntityTypes} `{Collaborators}.

(** X12.  When the transport answers with a status other than [200], both
    operations fail with the error for that status, and the body is not
    decoded: the error wraps [ErrUnauthorized] exactly for 401 and 403,
    [ErrRateLimited] exactly for 429, and [ErrRequestFailed] exactly for
    every other status. *)
Theorem status_code_decides_error
    config args publicIdentifier parsedBaseURL StatusCode respBodyBytes :
  ~ credentialsMissing config ->
  url_Parse VoyagerBaseURL = inr parsedBaseURL ->
  (forall requestURL customHeaders,
     makeRequest config http_MethodGet requestURL customHeaders
     = inr (StatusCode, respBodyBytes)) ->
  StatusCode <> http_StatusOK ->
  (ProfileSearchArgs.Keywords args <> "" ->
   SearchProfiles config args = inl (statusError StatusCode respBodyBytes))
  /\ (publicIdentifier <> "" ->
      GetProfile config publicIdentifier = inl (statusError StatusCode respBodyBytes))
  /\ (errors_Is (statusError StatusCode respBodyBytes) ErrUnauthorized
      <-> StatusCode = 401 \/ StatusCode = 403)
  /\ (errors_Is (statusError StatusCode respBodyBytes) ErrRateLimited
      <-> StatusCode = 429)
  /\ (errors_Is (statusError StatusCode respBodyBytes) ErrRequestFailed
      <-> StatusCode <> 401 /\ StatusCode <> 403 /\ StatusCode <> 429).
Proof.
  unfold credentialsMissing. intros Hauth Hparse Hrequest Hstatus.
  split; [|split; [|apply statusError_classifies]].
  - intros Hkeywords. unfold SearchProfiles.
    destruct (String.eqb_spec (AuthCredentials.LiAtCookie (Config.Auth config)) "");
      [tauto|].
    destruct (String.eqb_spec (AuthCredentials.CSRFToken (Config.Auth config)) "");
      [tauto|].
    destruct (String.eqb_spec (ProfileSearchArgs.Keywords args) ""); [done|].
    cbn [orb]. unfold buildGraphQLURL. rewrite Hparse, Hrequest.
    by destruct (Z.eqb_spec StatusCode http_StatusOK).
  - intros Hid. unfold GetProfile.
    destruct (String.eqb_spec (AuthCredentials.LiAtCookie (Config.Auth config)) "");
      [tauto|].
    destruct (String.eqb_spec (AuthCredentials.CSRFToken (Config.Auth config)) "");
      [tauto|].
    destruct (String.eqb_spec publicIdentifier ""); [done|].
    cbn [orb]. unfold buildProfileGraphQLURL. rewrite Hparse, Hrequest.
    by destruct (Z.eqb_spec StatusCode http_StatusOK).
Qed.

(** ** The errors of [GetProfile] *)

(** X13.  Not every error of [GetProfile] is one of the sentinels.  An empty
    identifier, and an answer that does not hold the requested profile,
    give errors that neither are nor wrap any sentinel of the package;
    every other error is or wraps one.  The validation step after the
    parser never fails here: the identifier was checked before the
    request. *)
Theorem GetProfile_untyped_errors config publicIdentifier err :
  GetProfile config publicIdentifier = inl err ->
  (exists sentinel, In sentinel sentinels /\ errors_Is err sentinel)
  \/ ((forall sentinel, In sentinel sentinels -> ~ errors_Is err sentinel)
      /\ (publicIdentifier = ""
          /\ err = fmt_Errorf "publicIdentifier cannot be empty" []
          \/ publicIdentifier <> ""
             /\ err = fmt_Errorf "failed to extract profile from response: %w"
                        [ArgW (fmt_Errorf
                                 "profile not found in API response for publicIdentifier: %s"
                                 [ArgOp (OpString publicIdentifier)])])).
Proof.
  assert (forall format msg rest,
            (forall e, In (ArgW e) rest -> False) ->
            In (errors_New msg) sentinels ->
            exists sentinel,
              In sentinel sentinels
              /\ errors_Is (fmt_Errorf format (ArgW (errors_New msg) :: rest)) sentinel)
    as Hwraps.
  { intros format msg rest Hrest Hin. exists (errors_New msg).
    split; [done|]. by apply errors_Is_wraps. }
  unfold GetProfile.
  destruct (_ || _).
  { intros [= <-]. left. exists ErrAuthMissing. split; [by left|constructor]. }
  destruct (String.eqb_spec publicIdentifier "") as [Hid|Hid].
  { intros [= <-]. right. split; [|by left].
    intros sentinel Hin His. inversion His as [|? ? ? ? Hw]; subst; [|done].
    unfold sentinels in Hin. repeat (destruct Hin as [?|Hin]; [done|]). done. }
  destruct (buildProfileGraphQLURL _ _ _).
  { intros [= <-]. left. apply Hwraps; [no_more_wrapped|do 2 right; by left]. }
  destruct (makeRequest _ _ _ _) as [|[StatusCode respBodyBytes]].
  { intros [= <-]. left. apply Hwraps; [no_more_wrapped|do 3 right; by left]. }
  destruct (negb _).
  { intros [= <-]. left. unfold statusError.
    destruct (_ || _); [|destruct (_ =? _)]; apply Hwraps; try no_more_wrapped.
    - do 4 right; by left.
    - do 5 right; by left.
    - do 3 right; by left. }
  destruct (unmarshalBytes _ _) as [|v].
  { intros [= <-]. left. apply Hwraps; [no_more_wrapped|do 6 right; by left]. }
  unfold convertAPIResponseToLinkedInProfile.
  destruct (parseProfileFromAPIResponse _ _) as [cause|assembled] eqn:Hparse.
  - intros [= <-]. right.
    unfold parseProfileFromAPIResponse in Hparse.
    destruct (findProfileEntity _ _); [done|]. injection Hparse as <-.
    split; [|by right].
    intros sentinel Hin His.
    inversion His as [|? ? inner ? Hw Hinner]; subst.
    { unfold sentinels in Hin. repeat (destruct Hin as [?|Hin]; [done|]). done. }
    destruct Hw as [[= <-]|[]].
    inversion Hinner as [|? ? ? ? Hw']; subst.
    { unfold sentinels in Hin. repeat (destruct Hin as [?|Hin]; [done|]). done. }
    by destruct Hw' as [|[]].
  - apply parseProfileFromAPIResponse_identity in Hparse as [Hsame _].
    unfold validateProfileData. rewrite Hsame.
    by destruct (String.eqb_spec publicIdentifier "").
Qed.

(** X14.  A profile that [GetProfile] returns is the requested one: it carries
    the identifier that was asked for, which is not empty, the profile
    URL made of it, and text fields that validation leaves as they
    are. *)
Theorem GetProfile_returns_requested config publicIdentifier profile :
  GetProfile config publicIdentifier = inr profile ->
  publicIdentifier <> ""
  /\ ~ credentialsMissing config
  /\ LinkedInProfile.PublicIdentifier profile = publicIdentifier
  /\ LinkedInProfile.ProfileURL profile
     = "https://www.linkedin.com/in/" +:+ publicIdentifier +:+ "/"
  /\ validateProfileData (Some profile) = inr profile.
Proof.
  intros Hresult.
  assert (publicIdentifier <> "" /\ ~ credentialsMissing config) as [Hid Hauth].
  { unfold GetProfile, credentialsMissing in *.
    destruct (String.eqb_spec (AuthCredentials.LiAtCookie (Config.Auth config)) "");
      [done|].
    destruct (String.eqb_spec (AuthCredentials.CSRFToken (Config.Auth config)) "");
      [done|].
    destruct (String.eqb_spec publicIdentifier ""); [done|]. tauto. }
  apply GetProfile_inr in Hresult as (respBodyBytes & v & _ & Hconvert).
  unfold convertAPIResponseToLinkedInProfile in Hconvert.
  destruct (parseProfileFromAPIResponse _ _) as [|assembled] eqn:Hparse; [done|].
  destruct (validateProfileData _) as [|validated] eqn:Hvalid; [done|].
  injection Hconvert as ->.
  apply parseProfileFromAPIResponse_identity in Hparse as (Hsame & Hurl).
  pose proof (validateProfileData_again _ _ Hvalid) as Hagain.
  repeat split; try done.
  - apply validateProfileData_inr in Hvalid as (_ & Hkept & _). congruence.
  - unfold validateProfileData in Hvalid.
    destruct (String.eqb _ ""); [done|]. injection Hvalid as <-. exact Hurl.
Qed.

End Status.

Lemma status_code_decides_error_witness :
  @SearchProfiles rateLimitedCollaborators exampleConfig investorArgs
  = inl (statusError 429 "slow down")
  /\ @GetProfile voyagerEntityTypes rateLimitedCollaborators exampleConfig "jane-doe"
     = inl (statusError 429 "slow down")
  /\ errors_Is (statusError 429 "slow down") ErrRateLimited.
Proof.
  destruct (@status_code_decides_error voyagerEntityTypes rateLimitedCollaborators
              exampleConfig investorArgs "jane-doe"
              (URL.mk VoyagerBaseURL false "" "") 429 "slow down")
    as (Hsearch & Hprofile & _ & Hlimited & _).
  - intros [Hmissing|Hmissing]; vm_compute in Hmissing; discriminate.
  - reflexivity.
  - intros requestURL customHeaders. reflexivity.
  - vm_compute. discriminate.
  - split; [apply Hsearch; vm_compute; discriminate|].
    split; [apply Hprofile; vm_compute; discriminate|].
    apply Hlimited. reflexivity.
Defined.

(** An answer without the requested profile: the error is none of the
    sentinels. *)
Lemma GetProfile_untyped_errors_witness :
  @GetProfile voyagerEntityTypes exampleCollaborators exampleConfig "jane-doe"
  = inl (fmt_Errorf "failed to extract profile from response: %w"
           [ArgW (fmt_Errorf
                    "profile not found in API response for publicIdentifier: %s"
                    [ArgOp (OpString "jane-doe")])])
  /\ ((exists sentinel,
         In sentinel sentinels
         /\ errors_Is
              (fmt_Errorf "failed to extract profile from response: %w"
                 [ArgW (fmt_Errorf
                          "profile not found in API response for publicIdentifier: %s"
                          [ArgOp (OpString "jane-doe")])]) sentinel)
      \/ ((forall sentinel,
             In sentinel sentinels ->
             ~ errors_Is
                 (fmt_Errorf "failed to extract profile from response: %w"
                    [ArgW (fmt_Errorf
                             "profile not found in API response for publicIdentifier: %s"
                             [ArgOp (OpString "jane-doe")])]) sentinel)
          /\ ("jane-doe" = ""
              /\ fmt_Errorf "failed to extract profile from response: %w"
                   [ArgW (fmt_Errorf
                            "profile not found in API response for publicIdentifier: %s"
                            [ArgOp (OpString "jane-doe")])]
                 = fmt_Errorf "publicIdentifier cannot be empty" []
              \/ "jane-doe" <> ""
                 /\ fmt_Errorf "failed to extract profile from response: %w"
                      [ArgW (fmt_Errorf
                               "profile not found in API response for publicIdentifier: %s"
                               [ArgOp (OpString "jane-doe")])]
                    = fmt_Errorf "failed to extract profile from response: %w"
                        [ArgW (fmt_Errorf
                                 "profile not found in API response for publicIdentifier: %s"
                                 [ArgOp (OpString "jane-doe")])]))).
Proof.
  split; [vm_compute; reflexivity|].
  apply (@GetProfile_untyped_errors voyagerEntityTypes exampleCollaborators
           exampleConfig "jane-doe").
  vm_compute; reflexivity.
Defined.

Lemma GetProfile_returns_requested_witness :
  @GetProfile voyagerEntityTypes janeDoeCollaborators exampleConfig "jane-doe"
  = inr janeDoeProfile
  /\ "jane-doe" <> ""
  /\ ~ credentialsMissing exampleConfig
  /\ LinkedInProfile.PublicIdentifier janeDoeProfile = "jane-doe"
  /\ LinkedInProfile.ProfileURL janeDoeProfile
     = "https://www.linkedin.com/in/" +:+ "jane-doe" +:+ "/"
  /\ validateProfileData (Some janeDoeProfile) = inr janeDoeProfile.
Proof.
  split; [vm_compute; reflexivity|].
  apply (@GetProfile_returns_requested voyagerEntityTypes janeDoeCollaborators
           exampleConfig "jane-doe" janeDoeProfile).
  vm_compute; reflexivity.
Defined.

(** * Further properties of the encoder *)

(** ** [url.QueryEscape] *)

Lemma hexDigit_escapedByte c :
  escapedByte (hexDigit (N_of_ascii c / 16)) = true
  /\ escapedByte (hexDigit (N_of_ascii c mod 16)) = true.
Proof. by destruct c as [[] [] [] [] [] [] [] []]; vm_compute. Qed.

Lemma url_QueryEscape_alphabet s :
  forallb escapedByte (list_ascii_of_string (url_QueryEscape s)) = true.
Proof.
  induction s as [|c s IH]; [done|]. simpl.
  destruct (Ascii.eqb c " "); [done|].
  destruct (shouldEscape c) eqn:Hc; simpl.
  - destruct (hexDigit_escapedByte c) as [-> ->]. done.
  - unfold escapedByte at 1. by rewrite Hc.
Qed.

Lemma forallb_freeOf (keep : ascii -> bool) c s :
  forallb keep (list_ascii_of_string s) = true -> keep c = false ->
  freeOf c s = true.
Proof.
  intros Hall Hc. induction s as [|c' s IH]; [done|].
  simpl in *. apply andb_true_iff in Hall as [Hc' Hall].
  rewrite IH by done. rewrite andb_true_r.
  destruct (Ascii.eqb_spec c' c) as [->|]; [congruence|done].
Qed.

(** X15.  Whatever the keywords are, they stand in the variables fragment in
    their escaped form, between [keywords:] and the next member, and that
    form is made of letters, digits, [-], [_], [.], [~], [+] and [%XX]
    only.  It holds none of the characters that structure the fragment
    and the query string, so keywords cannot change the structure of the
    request. *)
Theorem escaped_keywords_hold_no_structure (variables : SearchVariables.t) :
  let keywords :=
    url_QueryEscape (SearchQuerySubQuery.Keywords (SearchVariables.Query variables)) in
  hasSubstring (variablesString variables)
    ("keywords:" +:+ keywords +:+ ",flagshipSearchIntent:")
  /\ forallb escapedByte (list_ascii_of_string keywords) = true
  /\ Forall (fun c => freeOf c keywords = true) structuralBytes.
Proof.
  intros keywords. split; [|split; [apply url_QueryEscape_alphabet|]].
  - rewrite variablesString_eq. do 6 apply hasSubstring_append_l.
    exists ",query:("; eexists. rewrite !append_assoc. reflexivity.
  - unfold structuralBytes.
    repeat constructor;
      by apply (forallb_freeOf escapedByte); [apply url_QueryEscape_alphabet|].
Qed.

Lemma hexDigit_inj n m :
  (n < 16)%N -> (m < 16)%N -> hexDigit n = hexDigit m -> n = m.
Proof.
  unfold hexDigit. intros Hn Hm Heq.
  apply (f_equal N_of_ascii) in Heq.
  rewrite !N_ascii_embedding in Heq
    by (destruct (n <? 10)%N eqn:?, (m <? 10)%N eqn:?; lia).
  destruct (N.ltb_spec n 10), (N.ltb_spec m 10); lia.
Qed.

Lemma hexDigits_inj c d :
  hexDigit (N_of_ascii c / 16) = hexDigit (N_of_ascii d / 16) ->
  hexDigit (N_of_ascii c mod 16) = hexDigit (N_of_ascii d mod 16) ->
  c = d.
Proof.
  intros Hhigh Hlow.
  pose proof (N_ascii_bounded c). pose proof (N_ascii_bounded d).
  apply hexDigit_inj in Hhigh;
    [|apply N.Div0.div_lt_upper_bound; lia|apply N.Div0.div_lt_upper_bound; lia].
  apply hexDigit_inj in Hlow; [|by apply N.mod_lt|by apply N.mod_lt].
  rewrite <- (ascii_N_embedding c), <- (ascii_N_embedding d). f_equal.
  rewrite (N.div_mod (N_of_ascii c) 16), (N.div_mod (N_of_ascii d) 16) by done.
  congruence.
Qed.

(** X16.  Escaping loses nothing: different strings have different escaped
    forms. *)
Theorem url_QueryEscape_injective a b :
  url_QueryEscape a = url_QueryEscape b <-> a = b.
Proof.
  split; [|by intros ->].
  revert b. induction a as [|c a IH]; intros [|d b]; simpl; try done.
  - destruct (Ascii.eqb d " "); [done|]. by destruct (shouldEscape d).
  - destruct (Ascii.eqb c " "); [done|]. by destruct (shouldEscape c).
  - destruct (Ascii.eqb_spec c " ") as [->|Hc], (Ascii.eqb_spec d " ") as [->|Hd].
    + intros [= Hrest]. by rewrite (IH _ Hrest).
    + destruct (shouldEscape d) eqn:Hescape; [done|].
      intros [= <- _]. done.
    + destruct (shouldEscape c) eqn:Hescape; [done|].
      intros [= -> _]. done.
    + destruct (shouldEscape c) eqn:Hescapec, (shouldEscape d) eqn:Hescaped.
      * intros [= Hhigh Hlow Hrest].
        by rewrite (hexDigits_inj _ _ Hhigh Hlow), (IH _ Hrest).
      * intros [= <- _]. done.
      * intros [= -> _]. done.
      * intros [= -> Hrest]. by rewrite (IH _ Hrest).
Qed.

(** ** The request URL *)

Section RequestURL.
Context `{Collaborators}.

Lemma Values_Encode_base queryID :
  Values_Encode
    (Values_Set "includeWebMetadata" "true" (Values_Set "queryId" queryID ∅))
  = "includeWebMetadata=true&queryId=" +:+ url_QueryEscape queryID.
Proof. vm_compute. reflexivity. Qed.

Lemma URL_String_set_RawQuery (u : URL.t) (encoded fragment : string) :
  URL.String (URL.set_RawQuery (encoded +:+ "&variables=" +:+ fragment) u)
  = URL.Head u +:+ "?" +:+ encoded +:+ "&variables=" +:+ fragment +:+ URL.Tail u.
Proof.
  unfold URL.String, URL.set_RawQuery;
    cbn [URL.Head URL.RawQuery URL.Tail URL.ForceQuery].
  change ("&variables=" +:+ fragment) with (String "&" ("variables=" +:+ fragment)).
  rewrite append_not_empty, orb_true_r.
  by rewrite !append_assoc.
Qed.

(** X17.  For a base URL that has no query of its own, both encoders return
    the base URL, [?includeWebMetadata=true], the escaped query id, and
    the variables fragment after [&variables=].  The fragment is written
    as it is: it is not escaped, and in the profile fragment neither is
    the public identifier. *)
Theorem request_url_of_plain_base
    baseURL queryID variables publicIdentifier parsedBaseURL :
  url_Parse baseURL = inr parsedBaseURL ->
  url_ParseQuery (URL.RawQuery parsedBaseURL) = ∅ ->
  buildGraphQLURL baseURL queryID variables
  = inr (URL.Head parsedBaseURL
         +:+ "?includeWebMetadata=true&queryId=" +:+ url_QueryEscape queryID
         +:+ "&variables=" +:+ variablesString variables
         +:+ URL.Tail parsedBaseURL)
  /\ buildProfileGraphQLURL baseURL queryID publicIdentifier
     = inr (URL.Head parsedBaseURL
            +:+ "?includeWebMetadata=true&queryId=" +:+ url_QueryEscape queryID
            +:+ "&variables=(memberIdentity:{publicIdentifier:" +:+ publicIdentifier
            +:+ "})" +:+ URL.Tail parsedBaseURL).
Proof.
  intros Hparse Hquery.
  unfold buildGraphQLURL, buildProfileGraphQLURL.
  rewrite Hparse, Hquery. cbv zeta.
  rewrite Values_Encode_base, !URL_String_set_RawQuery.
  assert ("?includeWebMetadata=true&queryId="
          = "?" +:+ "includeWebMetadata=true&queryId=") as -> by reflexivity.
  assert ("&variables=(memberIdentity:{publicIdentifier:"
          = "&variables=" +:+ "(memberIdentity:{publicIdentifier:") as -> by reflexivity.
  assert (fmt_Sprintf "(memberIdentity:{publicIdentifier:%s})" [OpString publicIdentifier]
          = "(memberIdentity:{publicIdentifier:" +:+ publicIdentifier +:+ "})") as ->
    by reflexivity.
  rewrite !append_assoc. split; reflexivity.
Qed.

End RequestURL.

Lemma request_url_of_plain_base_witness :
  @buildGraphQLURL exampleCollaborators VoyagerBaseURL DefaultSearchQueryID
    (searchVariables investorArgs)
  = inr ("https://www.linkedin.com/voyager/api/graphql"
         +:+ "?includeWebMetadata=true&queryId="
         +:+ url_QueryEscape DefaultSearchQueryID
         +:+ "&variables=" +:+ variablesString (searchVariables investorArgs)
         +:+ "")
  /\ @buildProfileGraphQLURL exampleCollaborators VoyagerBaseURL DefaultProfileQueryID
       "jane-doe"
     = inr "https://www.linkedin.com/voyager/api/graphql?includeWebMetadata=true&queryId=voyagerIdentityDashProfiles.9d37763c7ad41b36d4fb077d1e9e6ee2&variables=(memberIdentity:{publicIdentifier:jane-doe})".
Proof.
  split.
  - apply (@request_url_of_plain_base exampleCollaborators VoyagerBaseURL
             DefaultSearchQueryID (searchVariables investorArgs) "jane-doe"
             (URL.mk VoyagerBaseURL false "" "")); reflexivity.
  - apply (@request_url_of_plain_base exampleCollaborators VoyagerBaseURL
             DefaultProfileQueryID (searchVariables investorArgs) "jane-doe"
             (URL.mk VoyagerBaseURL false "" "")); reflexivity.
Defined.

(** * The configuration *)

Section Configuration.
Context `{EntityTypes} `{Collaborators}.

(** X18.  [NewConfig] refuses exactly the credentials that the operations
    refuse, with the same error.  A configuration that it returns keeps
    the credentials it was given and has a user agent that is not empty
    (the first one given when that is not empty, the default otherwise),
    and with it neither operation fails on missing credentials. *)
Theorem NewConfig_settles_credentials auth userAgent :
  (NewConfig auth userAgent = inl ErrAuthMissing
   <-> AuthCredentials.LiAtCookie auth = "" \/ AuthCredentials.CSRFToken auth = "")
  /\ forall cfg,
       NewConfig auth userAgent = inr cfg ->
       Config.Auth cfg = auth
       /\ Config.UserAgent cfg <> ""
       /\ Config.UserAgent cfg
          = match userAgent with
            | first :: _ => if String.eqb first "" then DefaultUserAgent else first
            | [] => DefaultUserAgent
            end
       /\ (forall args, SearchProfiles cfg args <> inl ErrAuthMissing)
       /\ (forall publicIdentifier,
             GetProfile cfg publicIdentifier <> inl ErrAuthMissing).
Proof.
  unfold NewConfig.
  destruct (String.eqb_spec (AuthCredentials.LiAtCookie auth) "") as [Hcookie|Hcookie];
    [by split; [split; auto|]|].
  destruct (String.eqb_spec (AuthCredentials.CSRFToken auth) "") as [Htoken|Htoken];
    [by split; [split; auto|]|].
  cbn [orb]. split; [split; [done|tauto]|].
  intros cfg [= <-].
  assert (~ credentialsMissing
              (match userAgent with
               | [] => Config.mk auth DefaultUserAgent "" "" ""
               | first :: _ =>
                   if negb (String.eqb first "")
                   then Config.mk auth first "" "" ""
                   else Config.mk auth DefaultUserAgent "" "" ""
               end)) as Hauth.
  { unfold credentialsMissing.
    destruct userAgent as [|first rest]; [|destruct (String.eqb first "")]; cbn; tauto. }
  split; [|split; [|split; [|split]]].
  - destruct userAgent as [|first rest]; [done|]. by destruct (String.eqb first "").
  - destruct userAgent as [|first rest]; [done|].
    by destruct (String.eqb_spec first "").
  - destruct userAgent as [|first rest]; [done|]. by destruct (String.eqb first "").
  - intros args Hresult. apply Hauth.
    by apply SearchProfiles_auth_iff in Hresult.
  - intros publicIdentifier Hresult. apply Hauth.
    by apply GetProfile_auth_iff in Hresult.
Qed.

End Configuration.

Lemma NewConfig_settles_credentials_witness :
  NewConfig exampleAuth [] = inr (Config.mk exampleAuth DefaultUserAgent "" "" "")
  /\ Config.UserAgent (Config.mk exampleAuth DefaultUserAgent "" "" "") <> ""
  /\ @SearchProfiles exampleCollaborators
       (Config.mk exampleAuth DefaultUserAgent "" "" "") investorArgs
     <> inl ErrAuthMissing.
Proof.
  split; [reflexivity|].
  destruct (proj2 (@NewConfig_settles_credentials voyagerEntityTypes
                     exampleCollaborators exampleAuth [])
              (Config.mk exampleAuth DefaultUserAgent "" "" "") eq_refl)
    as (_ & Hagent & _ & Hsearch & _).
  split; [exact Hagent|apply Hsearch].
Defined.

(** * Flexible Text by shape *)

Lemma json_Unmarshal_string_of_object members :
  json_Unmarshal noUnmarshaler TString (JObject members)
  = inl (json_UnmarshalTypeError "object" "string").
Proof. reflexivity. Qed.

(** X19.  What [FlexibleText.UnmarshalJSON] accepts, shape by shape: a string
    gives itself, [null] gives the empty string, a boolean, a number or
    an array is an error, and an object gives either an error or a text
    that is not empty.  So the empty text comes from the empty string and
    from [null] only. *)
Theorem FlexibleText_by_shape data :
  match data with
  | JString s => FlexibleText_UnmarshalJSON data = inr s
  | JNull => FlexibleText_UnmarshalJSON data = inr ""
  | JObject _ =>
      FlexibleText_UnmarshalJSON data
      = inl (fmt_Errorf "cannot unmarshal %s into FlexibleText" [ArgData data])
      \/ exists text, text <> "" /\ FlexibleText_UnmarshalJSON data = inr text
  | _ =>
      FlexibleText_UnmarshalJSON data
      = inl (fmt_Errorf "cannot unmarshal %s into FlexibleText" [ArgData data])
  end
  /\ (FlexibleText_UnmarshalJSON data = inr "" <-> data = JString "" \/ data = JNull).
Proof.
  assert (forall members,
            FlexibleText_UnmarshalJSON (JObject members)
            = inl (fmt_Errorf "cannot unmarshal %s into FlexibleText"
                     [ArgData (JObject members)])
            \/ exists text,
                 text <> "" /\ FlexibleText_UnmarshalJSON (JObject members) = inr text)
    as Hobject.
  { intros members. unfold FlexibleText_UnmarshalJSON.
    rewrite json_Unmarshal_string_of_object.
    destruct (json_Unmarshal noUnmarshaler textObj_schema (JObject members))
      as [|textObj]; [by left|].
    destruct (String.eqb_spec (asString (getField "text" (structFields textObj))) "")
      as [Hempty|Hfull]; cbn [negb]; [by left|].
    right. eauto. }
  destruct data as [| b | n | literal | s | elems | members].
  - split; [reflexivity|]. split; [by right|reflexivity].
  - split; [reflexivity|]. split; [discriminate|by intros [?|?]].
  - split; [reflexivity|]. split; [discriminate|by intros [?|?]].
  - split; [reflexivity|]. split; [discriminate|by intros [?|?]].
  - rewrite FlexibleText_UnmarshalJSON_string. split; [reflexivity|].
    split; [intros [= ->]; by left|]. by intros [[= ->]|?].
  - split; [reflexivity|]. split; [discriminate|by intros [?|?]].
  - split; [apply Hobject|]. split; [|by intros [?|?]].
    intros Hresult. destruct (Hobject members) as [Herr|(text & Hne & Htext)]; congruence.
Qed.
